(** * Evaluation harness of palimpzest: ground truth, F1 scoring, reporting

    A shallow embedding of [src/palimpzest/utils/experiment_utils.py]:
    [load_ground_truth], [compute_f1] and [write_results_and_plans], with the
    parts of the Python runtime, pandas and scikit-learn those three
    functions observe.

    Conventions.
    - Python [str] is [string]; the text is taken to be ASCII, so that
      [str.strip] removes the ASCII white space of Python ([\t \n \v \f \r],
      [\x1c]-[\x1f] and the blank) and [str.lower] maps [A-Z] to [a-z].
    - A [dict] is an association list in insertion order with unique keys
      ([dict_set] overwrites in place, as Python does).
    - A raised exception is the [Raise] constructor of [result]; effects on
      the file system and the console are an event log threaded through
      the reporter.
    - Scores are exact rationals in lowest terms; [0.0] and [1.0] are [0]
      and [1]. *)

From Stdlib Require Import String Ascii List Bool Arith ZArith QArith Lia.
From Stdlib Require Import Qreduction DecimalString DecimalNat DecimalZ DecimalFacts.
From Stdlib Require Import Permutation.
Import ListNotations.

Local Close Scope Q_scope.
Local Open Scope string_scope.
Local Open Scope nat_scope.
Local Open Scope list_scope.

(* ===================================================================== *)
(** ** Python strings *)
(* ===================================================================== *)

Module PyStr.

(** [str.isspace] on one ASCII character. *)
Definition is_space (c : ascii) : bool :=
  let n := nat_of_ascii c in
  (((9 <=? n) && (n <=? 13)) || ((28 <=? n) && (n <=? 32)))%nat.

Fixpoint lstrip (s : string) : string :=
  match s with
  | EmptyString => EmptyString
  | String c s' => if is_space c then lstrip s' else s
  end.

Fixpoint rstrip (s : string) : string :=
  match s with
  | EmptyString => EmptyString
  | String c s' =>
      match rstrip s' with
      | EmptyString => if is_space c then EmptyString else String c EmptyString
      | r => String c r
      end
  end.

(** [s.strip()] *)
Definition strip (s : string) : string := rstrip (lstrip s).

Definition is_upper (c : ascii) : bool :=
  let n := nat_of_ascii c in ((65 <=? n) && (n <=? 90))%nat.

Definition lower_char (c : ascii) : ascii :=
  if is_upper c then ascii_of_nat (nat_of_ascii c + 32) else c.

(** [s.lower()] *)
Fixpoint lower (s : string) : string :=
  match s with
  | EmptyString => EmptyString
  | String c s' => String (lower_char c) (lower s')
  end.

(** [k in s] for two strings: [k] occurs in [s] as a substring. *)
Fixpoint contains (k s : string) : bool :=
  prefix k s ||
  match s with
  | EmptyString => false
  | String _ s' => contains k s'
  end.

(** [not s] *)
Definition is_empty (s : string) : bool :=
  match s with EmptyString => true | _ => false end.

(** [str(n)] for a non-negative [int] and [str(z)] for an [int]. *)
Definition of_nat (n : nat) : string := NilZero.string_of_uint (Nat.to_uint n).
Definition of_Z (z : Z) : string := NilZero.string_of_int (Z.to_int z).

(** [x in xs] for a string and a set or a sequence of strings. *)
Definition mem (x : string) (xs : list string) : bool :=
  existsb (String.eqb x) xs.

(** *** [int(s)] on a string

    Python strips white space, reads an optional sign and then decimal
    digits, where single underscores may separate digits.  [None] stands
    for [ValueError].  The white space [int] strips is that of C, the
    blank and [\t \n \v \f \r]: unlike [str.strip] it keeps the separators
    [\x1c]-[\x1f], on which it then fails. *)

Definition is_int_space (c : ascii) : bool :=
  let n := nat_of_ascii c in
  (((9 <=? n) && (n <=? 13)) || Nat.eqb n 32)%nat.

Fixpoint int_lstrip (s : string) : string :=
  match s with
  | EmptyString => EmptyString
  | String c s' => if is_int_space c then int_lstrip s' else s
  end.

Fixpoint int_rstrip (s : string) : string :=
  match s with
  | EmptyString => EmptyString
  | String c s' =>
      match int_rstrip s' with
      | EmptyString =>
          if is_int_space c then EmptyString else String c EmptyString
      | r => String c r
      end
  end.

Definition digit_of (c : ascii) : option Z :=
  let n := nat_of_ascii c in
  if ((48 <=? n) && (n <=? 57))%nat then Some (Z.of_nat (n - 48)) else None.

Definition is_underscore (c : ascii) : bool := Nat.eqb (nat_of_ascii c) 95.

(** [digits acc after_digit s]: [after_digit] tells whether the character
    before [s] was a digit, the only place where an underscore may stand
    and where the literal may end. *)
Fixpoint digits (acc : Z) (after_digit : bool) (s : string) : option Z :=
  match s with
  | EmptyString => if after_digit then Some acc else None
  | String c s' =>
      match digit_of c with
      | Some d => digits (10 * acc + d)%Z true s'
      | None =>
          if is_underscore c && after_digit then digits acc false s' else None
      end
  end.

Definition parse_int (s : string) : option Z :=
  match int_rstrip (int_lstrip s) with
  | String "-" s' => option_map Z.opp (digits 0%Z false s')
  | String "+" s' => digits 0%Z false s'
  | s' => digits 0%Z false s'
  end.

End PyStr.

(* ===================================================================== *)
(** ** Exceptions *)
(* ===================================================================== *)

Inductive exn : Type :=
| AttributeError | IndexError | KeyError | TypeError | ValueError
| OverflowError | OSError | StopIteration.

(** The outcome of a Python expression or statement: a value, or an
    exception on its way to the caller. *)
Inductive result (A : Type) : Type :=
| Ok (a : A)
| Raise (e : exn).

Arguments Ok {A} a.
Arguments Raise {A} e.

Definition bind {A B : Type} (r : result A) (k : A -> result B) : result B :=
  match r with
  | Ok a => k a
  | Raise e => Raise e
  end.

Notation "x <- r ;; k" := (bind r (fun x => k))
  (at level 61, r at next level, right associativity).


(* ===================================================================== *)
(** ** Python dictionaries *)
(* ===================================================================== *)

Module Dict.
Section WithValue.
Context {V : Type}.

Definition t : Type := list (string * V).

(** [d.get(k)] *)
Fixpoint get (k : string) (d : t) : option V :=
  match d with
  | [] => None
  | (k', v) :: d' => if String.eqb k' k then Some v else get k d'
  end.

(** [d[k] = v]: a key already present keeps its place. *)
Fixpoint set (k : string) (v : V) (d : t) : t :=
  match d with
  | [] => [(k, v)]
  | (k', v') :: d' =>
      if String.eqb k' k then (k', v) :: d' else (k', v') :: set k v d'
  end.

Definition keys (d : t) : list string := map fst d.
Definition values (d : t) : list V := map snd d.

(** [not d] *)
Definition is_empty (d : t) : bool :=
  match d with [] => true | _ => false end.
End WithValue.
Arguments t V : clear implicits.
End Dict.

(* ===================================================================== *)
(** ** The labeled table, as pandas hands it over *)
(* ===================================================================== *)

(** One cell of a data frame.  A float cell is described by what the
    loader observes of it: its [str()], its [int()] (which raises on [nan]
    and on the infinities) and its truth value. *)
Inductive cell : Type :=
| CStr (s : string)
| CInt (z : Z)
| CBool (b : bool)
| CFloat (repr : string) (trunc : result Z) (nonzero : bool).

(** The missing value of pandas, [float('nan')]. *)
Definition NaN : cell := CFloat "nan" (Raise ValueError) true.

(** [str(x)] *)
Definition cell_str (x : cell) : string :=
  match x with
  | CStr s => s
  | CInt z => PyStr.of_Z z
  | CBool true => "True"
  | CBool false => "False"
  | CFloat repr _ _ => repr
  end.

(** [int(x)] *)
Definition cell_int (x : cell) : result Z :=
  match x with
  | CStr s =>
      match PyStr.parse_int s with
      | Some z => Ok z
      | None => Raise ValueError
      end
  | CInt z => Ok z
  | CBool b => Ok (if b then 1 else 0)%Z
  | CFloat _ trunc _ => trunc
  end.

(** [bool(x)] *)
Definition cell_truthy (x : cell) : bool :=
  match x with
  | CStr s => negb (PyStr.is_empty s)
  | CInt z => negb (Z.eqb z 0)
  | CBool b => b
  | CFloat _ _ nonzero => nonzero
  end.

(** A data frame: its column labels and its rows.  A row shorter than the
    header is padded with [NaN], as [read_csv] does.  Column labels are
    looked up by first match; a frame with two equal labels, where pandas
    answers a label lookup with a whole [Series], is outside this model. *)
Record DataFrame : Type := {
  columns : list string;
  rows : list (list cell)
}.

(** [df.columns = [c.strip().lower() for c in df.columns]] *)
Definition normalize_columns (df : DataFrame) : DataFrame :=
  {| columns := map (fun c => PyStr.lower (PyStr.strip c)) (columns df);
     rows := rows df |}.

Fixpoint index_of (name : string) (cols : list string) : option nat :=
  match cols with
  | [] => None
  | c :: cols' =>
      if String.eqb c name then Some 0
      else option_map S (index_of name cols')
  end.

(** [row.iloc[i]] *)
Definition iloc (cols : list string) (row : list cell) (i : nat) : result cell :=
  if i <? length cols then Ok (nth i row NaN) else Raise IndexError.

(** [row.get(name)]: [None] is Python's [None], the default of [get]. *)
Definition row_get (cols : list string) (row : list cell) (name : string)
    : option cell :=
  match index_of name cols with
  | Some i => Some (nth i row NaN)
  | None => None
  end.

(** [row.get(name, default)] *)
Definition row_get_default (cols : list string) (row : list cell)
    (name : string) (default : cell) : cell :=
  match row_get cols row name with
  | Some x => x
  | None => default
  end.

(** [row[name]] *)
Definition row_getitem (cols : list string) (row : list cell) (name : string)
    : result cell :=
  match index_of name cols with
  | Some i => Ok (nth i row NaN)
  | None => Raise KeyError
  end.

(** The first candidate that is a column label: the
    [for cand in (...): if cand in df.columns: ...; break] idiom. *)
Definition first_present (cands cols : list string) : option string :=
  find (fun cand => PyStr.mem cand cols) cands.

(* ===================================================================== *)
(** ** The world the loader reads *)
(* ===================================================================== *)

Record Env : Type := {
  path_exists : string -> bool;             (* os.path.exists *)
  read_csv : string -> result DataFrame;    (* pd.read_csv *)
  listdir : string -> result (list string)  (* os.listdir *)
}.

(** The ground-truth index: flat (identifier to label) or nested (source
    key to attribute to "should exist").  The empty dictionary [{}] the
    loader returns on its lenient paths is [GTFlat []]. *)
Inductive gt_index : Type :=
| GTFlat (d : Dict.t Z)
| GTNested (d : Dict.t (Dict.t bool)).

Definition empty_index : gt_index := GTFlat [].

(** [not gt_data] *)
Definition gt_is_empty (gt : gt_index) : bool :=
  match gt with
  | GTFlat d => Dict.is_empty d
  | GTNested d => Dict.is_empty d
  end.

(* ===================================================================== *)
(** ** [load_ground_truth] *)
(* ===================================================================== *)

Section Loader.
Variable env : Env.

(** [set(os.listdir(d)) if os.path.exists(d) else set()] *)
Definition dir_listing (dataset_dir : string) : result (list string) :=
  if path_exists env dataset_dir then listdir env dataset_dir else Ok [].

(** *** enron *)

Definition enron_id_cands : list string := ["filename"; "file"; "name"].
Definition enron_label_cands : list string := ["label"; "y"; "target"].

(** Lines 29-35: the identifier of a row. *)
Definition enron_fname (cols : list string) (row : list cell)
    : result string :=
  let fname :=
    match first_present enron_id_cands cols with
    | Some cand =>
        Some (PyStr.strip (cell_str (row_get_default cols row cand (CStr EmptyString))))
    | None => None
    end in
  match fname with
  | Some (String c s) => Ok (String c s)
  | _ => x <- iloc cols row 0 ;; Ok (PyStr.strip (cell_str x))
  end.

(** Lines 37-46: the label of a row; a cell [int()] rejects counts as 1. *)
Definition enron_label (cols : list string) (row : list cell) : Z :=
  match first_present enron_label_cands cols with
  | Some cand =>
      match cell_int (row_get_default cols row cand (CInt 1)) with
      | Ok z => z
      | Raise _ => 1%Z
      end
  | None => 1%Z
  end.

Definition enron_row (cols actual_files : list string) (gt : Dict.t Z)
    (row : list cell) : result (Dict.t Z) :=
  fname <- enron_fname cols row ;;
  let label := enron_label cols row in
  Ok (if PyStr.mem fname actual_files then Dict.set fname label gt else gt).

Fixpoint enron_rows (cols actual_files : list string) (gt : Dict.t Z)
    (rs : list (list cell)) : result (Dict.t Z) :=
  match rs with
  | [] => Ok gt
  | row :: rs' =>
      gt' <- enron_row cols actual_files gt row ;;
      enron_rows cols actual_files gt' rs'
  end.

(** *** real-estate *)

Definition real_estate_id_cands : list string :=
  ["listing"; "filename"; "id"; "name"].

(** [None]: the row is skipped by [continue]. *)
Definition real_estate_id (cols : list string) (row : list cell)
    : option string :=
  let listing_id :=
    match first_present real_estate_id_cands cols with
    | Some cand => row_get cols row cand
    | None => None
    end in
  match listing_id with
  | Some x => if cell_truthy x then Some (PyStr.strip (cell_str x)) else None
  | None => None
  end.

(** ["label" if "label" in df.columns else None] *)
Definition real_estate_label_col (cols : list string) : option string :=
  if PyStr.mem "label" cols then Some "label" else None.

(** [int(row[label_col]) if label_col else 1] *)
Definition real_estate_label (cols : list string) (row : list cell)
    : result Z :=
  match real_estate_label_col cols with
  | Some label_col => x <- row_getitem cols row label_col ;; cell_int x
  | None => Ok 1%Z
  end.

Definition real_estate_row (cols actual_listings : list string)
    (gt : Dict.t Z) (row : list cell) : result (Dict.t Z) :=
  match real_estate_id cols row with
  | None => Ok gt
  | Some listing_id =>
      label <- real_estate_label cols row ;;
      Ok (if PyStr.mem listing_id actual_listings
          then Dict.set listing_id label gt else gt)
  end.

Fixpoint real_estate_rows (cols actual_listings : list string)
    (gt : Dict.t Z) (rs : list (list cell)) : result (Dict.t Z) :=
  match rs with
  | [] => Ok gt
  | row :: rs' =>
      gt' <- real_estate_row cols actual_listings gt row ;;
      real_estate_rows cols actual_listings gt' rs'
  end.

(** *** medical-schema-matching *)

(** Line 83 *)
Definition should_exist_of (original_col : string) : bool :=
  negb (String.eqb (PyStr.lower original_col) "missing") &&
  negb (String.eqb (PyStr.lower original_col) "nan").

(** [row[df.columns[0]] if len(df.columns) > 0 else None] *)
Definition medical_attr (cols : list string) (row : list cell)
    : result (option cell) :=
  match cols with
  | [] => Ok None
  | c0 :: _ => x <- row_getitem cols row c0 ;; Ok (Some x)
  end.

(** Lines 79-84: one row under one source column.  [gt_map[key][a] = b]
    updates the inner dictionary that [gt_map[key]] holds. *)
Definition medical_row (cols : list string) (author key : string)
    (gt_map : Dict.t (Dict.t bool)) (row : list cell)
    : result (Dict.t (Dict.t bool)) :=
  attr <- medical_attr cols row ;;
  match attr with
  | None => Ok gt_map
  | Some attr =>
      x <- row_getitem cols row author ;;
      let original_col := cell_str x in
      let should_exist := should_exist_of original_col in
      match Dict.get key gt_map with
      | Some inner =>
          Ok (Dict.set key
                (Dict.set (PyStr.strip (cell_str attr)) should_exist inner)
                gt_map)
      | None => Raise KeyError
      end
  end.

Fixpoint medical_rows (cols : list string) (author key : string)
    (gt_map : Dict.t (Dict.t bool)) (rs : list (list cell))
    : result (Dict.t (Dict.t bool)) :=
  match rs with
  | [] => Ok gt_map
  | row :: rs' =>
      gt_map' <- medical_row cols author key gt_map row ;;
      medical_rows cols author key gt_map' rs'
  end.

(** Lines 76-84: one source column. *)
Definition medical_author (df : DataFrame) (gt_map : Dict.t (Dict.t bool))
    (author : string) : result (Dict.t (Dict.t bool)) :=
  let key := PyStr.strip (PyStr.lower author) in
  medical_rows (columns df) author key (Dict.set key [] gt_map) (rows df).

Fixpoint medical_authors (df : DataFrame) (gt_map : Dict.t (Dict.t bool))
    (authors : list string) : result (Dict.t (Dict.t bool)) :=
  match authors with
  | [] => Ok gt_map
  | author :: authors' =>
      gt_map' <- medical_author df gt_map author ;;
      medical_authors df gt_map' authors'
  end.

(** *** The loader *)

Definition load_ground_truth (workload gt_path dataset_dir : string)
    : result gt_index :=
  if PyStr.is_empty gt_path || negb (path_exists env gt_path)
  then Ok empty_index
  else
    match read_csv env gt_path with
    | Raise _ => Ok empty_index
    | Ok df0 =>
        let df := normalize_columns df0 in
        if String.eqb workload "enron" then
          actual_files <- dir_listing dataset_dir ;;
          gt <- enron_rows (columns df) actual_files [] (rows df) ;;
          Ok (GTFlat gt)
        else if String.eqb workload "real-estate" then
          actual_listings <- dir_listing dataset_dir ;;
          gt <- real_estate_rows (columns df) actual_listings [] (rows df) ;;
          Ok (GTFlat gt)
        else if String.eqb workload "medical-schema-matching" then
          gt_map <- medical_authors df [] (tl (columns df)) ;;
          Ok (GTNested gt_map)
        else Ok empty_index
    end.

End Loader.

(** End-to-end scenario 1 of the specification: the table
    [filename,label / a.txt,1 / b.txt,0] with both files on disk. *)
Definition scenario1_env : Env :=
  {| path_exists := fun _ => true;
     read_csv := fun _ =>
       Ok {| columns := ["filename"; "label"];
             rows := [[CStr "a.txt"; CInt 1]; [CStr "b.txt"; CInt 0]] |};
     listdir := fun _ => Ok ["a.txt"; "b.txt"] |}.

(** End-to-end scenario 3: [target_attribute,sourceA / age,1 / name,missing]. *)
Definition scenario3_env : Env :=
  {| path_exists := fun _ => true;
     read_csv := fun _ =>
       Ok {| columns := ["target_attribute"; "sourceA"];
             rows := [[CStr "age"; CStr "1"]; [CStr "name"; CStr "missing"]] |};
     listdir := fun _ => Ok [] |}.

(* ===================================================================== *)
(** ** Python values handed in by the pipeline *)
(* ===================================================================== *)

(** Result records, run outputs and their statistics are objects of the
    pipeline.  An object is given by its attribute table, a mapping by its
    items in iteration order; attribute access is a plain lookup in that
    table. *)
#[warnings="-register-all"]
Inductive pyval : Type :=
| PNone
| PNum (q : Q)
| PStr (s : string)
| PDict (items : list (string * pyval))
| PObj (attrs : list (string * pyval)).

(** [bool(v)] *)
Definition truthy (v : pyval) : bool :=
  match v with
  | PNone => false
  | PNum q => negb (Qeq_bool q 0)
  | PStr s => negb (PyStr.is_empty s)
  | PDict items => negb (Dict.is_empty items)
  | PObj _ => true
  end.

(** [hasattr(v, name)] *)
Definition hasattr (v : pyval) (name : string) : bool :=
  match v with
  | PObj attrs => match Dict.get name attrs with Some _ => true | None => false end
  | _ => false
  end.

(** [getattr(v, name)], also written [v.name] *)
Definition getattr (v : pyval) (name : string) : result pyval :=
  match v with
  | PObj attrs =>
      match Dict.get name attrs with
      | Some x => Ok x
      | None => Raise AttributeError
      end
  | _ => Raise AttributeError
  end.

(** [getattr(v, name, default)] *)
Definition getattr_default (v : pyval) (name : string) (default : pyval)
    : pyval :=
  match getattr v name with
  | Ok x => x
  | Raise _ => default
  end.

(** [v.strip()] and [v.lower()]: only a string has them. *)
Definition py_strip (v : pyval) : result string :=
  match v with
  | PStr s => Ok (PyStr.strip s)
  | _ => Raise AttributeError
  end.

Definition py_lower (v : pyval) : result string :=
  match v with
  | PStr s => Ok (PyStr.lower s)
  | _ => Raise AttributeError
  end.

(** Whether [str(v).strip()] is not the empty string: the text of a number, a mapping or an object
    is never blank. *)
Definition str_not_blank (v : pyval) : bool :=
  match v with
  | PStr s => negb (PyStr.is_empty (PyStr.strip s))
  | PNone | PNum _ | PDict _ | PObj _ => true
  end.

(** [v.values()]: only a mapping has it. *)
Definition py_values (v : pyval) : result (list pyval) :=
  match v with
  | PDict items => Ok (Dict.values items)
  | _ => Raise AttributeError
  end.

(* ===================================================================== *)
(** ** The three scores of scikit-learn *)
(* ===================================================================== *)

(** [precision_score], [recall_score] and [f1_score] belong to
    scikit-learn, not to the repository.  They are written out here for
    integer label vectors, positive label 1 and [zero_division=0], after
    the library's documentation: with [average='binary'] the two vectors
    together may hold at most two labels, and 1 must be one of them as
    soon as there are two; with [average='micro'] the counts are summed
    over every label present. *)
Module Sklearn.

Inductive average : Type := Binary | Micro.

Definition present_labels (y_true y_pred : list Z) : list Z :=
  nodup Z.eq_dec (y_true ++ y_pred).

Definition count_where (f : Z -> Z -> bool) (y_true y_pred : list Z) : Z :=
  Z.of_nat (length (filter (fun tp => f (fst tp) (snd tp)) (combine y_true y_pred))).

Definition is_one (z : Z) : bool := Z.eqb z 1.

(** True positives, predicted positives and actual positives of label 1. *)
Definition tp1 := count_where (fun t p => is_one t && is_one p).
Definition pred1 := count_where (fun _ p => is_one p).
Definition true1 := count_where (fun t _ => is_one t).

(** Samples on which the two vectors agree. *)
Definition agree := count_where Z.eqb.

(** A quotient with [zero_division=0], in lowest terms. *)
Definition ratio (num den : Z) : Q :=
  match den with
  | Zpos d => Qred (num # d)
  | _ => 0%Q
  end.

Definition check (avg : average) (y_true y_pred : list Z) : result unit :=
  if negb (length y_true =? length y_pred) then Raise ValueError
  else
    match avg with
    | Micro => Ok tt
    | Binary =>
        let present := present_labels y_true y_pred in
        if 2 <? length present then Raise ValueError
        else if (2 <=? length present) && negb (existsb is_one present)
        then Raise ValueError
        else Ok tt
    end.

Definition precision_score (y_true y_pred : list Z) (avg : average)
    : result Q :=
  _ <- check avg y_true y_pred ;;
  match avg with
  | Binary => Ok (ratio (tp1 y_true y_pred) (pred1 y_true y_pred))
  | Micro => Ok (ratio (agree y_true y_pred) (Z.of_nat (length y_pred)))
  end.

Definition recall_score (y_true y_pred : list Z) (avg : average)
    : result Q :=
  _ <- check avg y_true y_pred ;;
  match avg with
  | Binary => Ok (ratio (tp1 y_true y_pred) (true1 y_true y_pred))
  | Micro => Ok (ratio (agree y_true y_pred) (Z.of_nat (length y_true)))
  end.

Definition f1_score (y_true y_pred : list Z) (avg : average) : result Q :=
  _ <- check avg y_true y_pred ;;
  match avg with
  | Binary =>
      Ok (ratio (2 * tp1 y_true y_pred)
                (pred1 y_true y_pred + true1 y_true y_pred))
  | Micro =>
      Ok (ratio (2 * agree y_true y_pred)
                (Z.of_nat (length y_pred) + Z.of_nat (length y_true)))
  end.

End Sklearn.

(* ===================================================================== *)
(** ** [compute_f1] *)
(* ===================================================================== *)

(** The [return] statement by which [compute_f1] leaves, with the locals
    bound at that point: at line 92 neither vector exists yet. *)
Inductive f1_exit : Type :=
| ExitEmptyGT                                          (* line 92 *)
| ExitNoEntries (y_true y_pred : list Z)               (* line 117 *)
| ExitScored (y_true y_pred : list Z) (p r f1 : Q).    (* line 124 *)

Definition exit_value (x : f1_exit) : Q :=
  match x with
  | ExitEmptyGT => 0%Q
  | ExitNoEntries _ _ => 0%Q
  | ExitScored _ _ _ _ f1 => f1
  end.

Definition is_flat_workload (workload : string) : bool :=
  PyStr.mem workload ["enron"; "real-estate"].

Definition key_attr_of (workload : string) : string :=
  if String.eqb workload "enron" then "filename" else "listing".

(** Line 98: [{getattr(r, key_attr).strip() for r in results
    if hasattr(r, key_attr)}], the set in the order of the records. *)
Fixpoint predicted_positives (key_attr : string) (results : list pyval)
    : result (list string) :=
  match results with
  | [] => Ok []
  | r :: results' =>
      if hasattr r key_attr then
        v <- getattr r key_attr ;;
        s <- py_strip v ;;
        rest <- predicted_positives key_attr results' ;;
        Ok (s :: rest)
      else predicted_positives key_attr results'
  end.

(** Lines 100-102 on a flat index. *)
Definition flat_vectors (d : Dict.t Z) (predicted : list string)
    : list Z * list Z :=
  (map snd d,
   map (fun item : string * Z =>
          if PyStr.mem (fst item) predicted then 1%Z else 0%Z) d).

Definition gt_keys (gt : gt_index) : list string :=
  match gt with
  | GTFlat d => Dict.keys d
  | GTNested d => Dict.keys d
  end.

(** [gt_data[k].items()]: the entry of a flat index is a number, which has
    no [items]. *)
Definition gt_targets (gt : gt_index) (k : string) : result (Dict.t bool) :=
  match gt with
  | GTNested d =>
      match Dict.get k d with
      | Some targets => Ok targets
      | None => Raise KeyError
      end
  | GTFlat d =>
      match Dict.get k d with
      | Some _ => Raise AttributeError
      | None => Raise KeyError
      end
  end.

(** Lines 112-115 for the attributes of one matched source. *)
Definition record_entries (record : pyval) (targets : Dict.t bool)
    : list (Z * Z) :=
  map (fun t : string * bool =>
         let val := getattr_default record (fst t) PNone in
         let has_value :=
           match val with
           | PNone => 0%Z
           | _ => if str_not_blank val then 1%Z else 0%Z
           end in
         ((if snd t then 1%Z else 0%Z), has_value))
      targets.

(** [getattr(record, 'filename', '') or ''] *)
Definition record_fname (record : pyval) : pyval :=
  let v := getattr_default record "filename" (PStr EmptyString) in
  if truthy v then v else PStr EmptyString.

(** Lines 106-115: the entries one record contributes. *)
Definition medical_record (gt : gt_index) (record : pyval)
    : result (list (Z * Z)) :=
  let fname := record_fname record in
  match gt_keys gt with
  | [] => Ok []
  | _ :: _ =>
      lowered <- py_lower fname ;;
      match find (fun k => PyStr.contains k lowered) (gt_keys gt) with
      | None => Ok []
      | Some EmptyString => Ok []
      | Some matched_key =>
          targets <- gt_targets gt matched_key ;;
          Ok (record_entries record targets)
      end
  end.

Fixpoint medical_entries (gt : gt_index) (results : list pyval)
    : result (list (Z * Z)) :=
  match results with
  | [] => Ok []
  | record :: results' =>
      es <- medical_record gt record ;;
      rest <- medical_entries gt results' ;;
      Ok (es ++ rest)
  end.

(** Lines 94-115: the two vectors.  A nested index scored as a flat
    workload puts dictionaries into [y_true], which scikit-learn rejects. *)
Definition build_vectors (results : list pyval) (gt : gt_index)
    (workload : string) : result (list Z * list Z) :=
  if is_flat_workload workload then
    predicted <- predicted_positives (key_attr_of workload) results ;;
    match gt with
    | GTFlat d => Ok (flat_vectors d predicted)
    | GTNested _ => Raise ValueError
    end
  else if String.eqb workload "medical-schema-matching" then
    es <- medical_entries gt results ;;
    Ok (map fst es, map snd es)
  else Ok (@nil Z, @nil Z).

Definition avg_method (workload : string) : Sklearn.average :=
  if String.eqb workload "medical-schema-matching"
  then Sklearn.Micro else Sklearn.Binary.

Definition compute_f1_exit (results : list pyval) (gt : gt_index)
    (workload : string) : result f1_exit :=
  if gt_is_empty gt then Ok ExitEmptyGT
  else
    v <- build_vectors results gt workload ;;
    let (y_true, y_pred) := v in
    match y_true with
    | [] => Ok (ExitNoEntries y_true y_pred)
    | _ :: _ =>
        p <- Sklearn.precision_score y_true y_pred (avg_method workload) ;;
        r <- Sklearn.recall_score y_true y_pred (avg_method workload) ;;
        f1 <- Sklearn.f1_score y_true y_pred (avg_method workload) ;;
        Ok (ExitScored y_true y_pred p r f1)
    end.

Definition compute_f1 (results : list pyval) (gt : gt_index)
    (workload : string) : result Q :=
  x <- compute_f1_exit results gt workload ;;
  Ok (exit_value x).

(* ===================================================================== *)
(** ** Paths *)
(* ===================================================================== *)

Module Path.

Definition is_slash (c : ascii) : bool := Nat.eqb (nat_of_ascii c) 47.

Fixpoint drop_while (f : ascii -> bool) (l : list ascii) : list ascii :=
  match l with
  | [] => []
  | c :: l' => if f c then drop_while f l' else l
  end.

(** [os.path.dirname]: the part up to the last slash, without its trailing
    slashes unless it consists of slashes only. *)
Definition dirname (p : string) : string :=
  let head_rev :=
    drop_while (fun c => negb (is_slash c)) (rev (list_ascii_of_string p)) in
  if forallb is_slash head_rev then string_of_list_ascii head_rev
  else string_of_list_ascii (rev (drop_while is_slash head_rev)).

Fixpoint ends_with_slash (s : string) : bool :=
  match s with
  | EmptyString => false
  | String c EmptyString => is_slash c
  | String _ s' => ends_with_slash s'
  end.

Definition starts_with_slash (s : string) : bool :=
  match s with
  | String c _ => is_slash c
  | EmptyString => false
  end.

(** [os.path.join(a, b)] *)
Definition join (a b : string) : string :=
  if starts_with_slash b then b
  else if PyStr.is_empty a || ends_with_slash a then a ++ b
  else a ++ "/" ++ b.

End Path.

(* ===================================================================== *)
(** ** [write_results_and_plans] *)
(* ===================================================================== *)

(** One row of the summary table (lines 188-195). *)
Record SummaryRow : Type := {
  Workload : string;
  Strategy : string;
  Time_s : pyval;
  Cost : pyval;
  F1_Score : Q;
  Plan_File : string
}.

(** What the reporter does to the outside world, in the order it happens.
    [EWriteText p s]: the file [p] was opened for writing and now holds
    exactly [s]; [EWriteTable p rows]: the summary table was serialized to
    [p]. *)
Inductive event : Type :=
| EMakedirs (path : string)
| EWriteText (path : string) (text : string)
| EWriteTable (path : string) (table : list SummaryRow)
| EPrint (line : string).

Inductive content : Type :=
| Text (s : string)
| Table (table : list SummaryRow).

(** What a file holds after the events of [log], if they wrote it.  A file
    is known by the spelling of its path: two spellings of one file count
    as two files here. *)
Fixpoint file_content (log : list event) (path : string) : option content :=
  match log with
  | [] => None
  | e :: log' =>
      match file_content log' path with
      | Some c => Some c
      | None =>
          match e with
          | EWriteText p s => if String.eqb p path then Some (Text s) else None
          | EWriteTable p t => if String.eqb p path then Some (Table t) else None
          | _ => None
          end
      end
  end.

Definition writes_table (e : event) : bool :=
  match e with EWriteTable _ _ => true | _ => false end.

(** Which directories can be created and which files opened for writing. *)
Record Sys : Type := {
  can_makedirs : string -> bool;
  can_open : string -> bool
}.

(** A statement of the reporter: the events it caused and its outcome. *)
Definition io (A : Type) : Type := list event * result A.

Definition io_ret {A : Type} (a : A) : io A := ([], Ok a).

Definition io_bind {A B : Type} (m : io A) (k : A -> io B) : io B :=
  match m with
  | (log, Ok a) => let (log', r) := k a in (log ++ log', r)
  | (log, Raise e) => (log, Raise e)
  end.

Definition io_lift {A : Type} (r : result A) : io A := ([], r).

Notation "x <~ m ;; k" := (io_bind m (fun x => k))
  (at level 61, m at next level, right associativity).

(** A run output: an object with attributes, which yields its result
    records when iterated and which [pd.DataFrame] accepts or rejects. *)
Record RunOutput : Type := {
  run_attrs : list (string * pyval);
  run_records : list pyval;
  run_frame : result unit
}.

Definition run_obj (res : RunOutput) : pyval := PObj (run_attrs res).

(** The argument [results_iterable]: something [list()] accepts, or a
    single value that it does not. *)
Inductive iterable : Type :=
| Iterable (runs : list RunOutput)
| NotIterable (run : RunOutput).

(** Lines 141-145 *)
Definition to_list (results_iterable : iterable) : list RunOutput :=
  match results_iterable with
  | Iterable runs => runs
  | NotIterable run => [run]
  end.

Definition cost_aliases : list string :=
  ["total_plan_cost"; "total_cost"; "cost"; "plan_cost"].
Definition time_aliases : list string :=
  ["total_plan_time"; "total_time"; "time"; "plan_time"].

(** Lines 156-160 and 161-165: the value of the first alias that is not
    [None] replaces the current one; without such an alias it stays. *)
Fixpoint probe (obj : pyval) (aliases : list string) (current : pyval)
    : pyval :=
  match aliases with
  | [] => current
  | attr :: aliases' =>
      match getattr_default obj attr PNone with
      | PNone => probe obj aliases' current
      | val => val
      end
  end.

(** [next(iter(xs))] *)
Definition next_iter {A : Type} (xs : list A) : result A :=
  match xs with
  | x :: _ => Ok x
  | [] => Raise StopIteration
  end.

(** [xs[0]] *)
Definition item0 {A : Type} (xs : list A) : result A :=
  match xs with
  | x :: _ => Ok x
  | [] => Raise IndexError
  end.

Definition is_none (v : pyval) : bool :=
  match v with PNone => true | _ => false end.

(** The locals [cost] and [time_sec]. *)
Definition telemetry : Type := (pyval * pyval)%type.

(** Lines 152-165, the body of the [try]: the locals when it ends and
    how it ends. *)
Definition telemetry_body (res : RunOutput) (locals : telemetry)
    : telemetry * result unit :=
  let es := getattr_default (run_obj res) "execution_stats" PNone in
  if negb (is_none es) && truthy (getattr_default es "plan_stats" PNone) then
    match (plan_stats <- getattr es "plan_stats" ;;
           values <- py_values plan_stats ;;
           next_iter values) with
    | Ok first_ps =>
        ((probe first_ps cost_aliases (fst locals),
          probe first_ps time_aliases (snd locals)), Ok tt)
    | Raise e => (locals, Raise e)
    end
  else (locals, Ok tt).

(** [try: body except Exception: pass] *)
Definition try_except_pass {S : Type} (body : S -> S * result unit)
    (locals : S) : S * result unit :=
  match body locals with
  | (locals', Ok tt) => (locals', Ok tt)
  | (locals', Raise _) => (locals', Ok tt)
  end.

(** Lines 149-167 *)
Definition extract_telemetry (res : RunOutput) : telemetry * result unit :=
  try_except_pass (telemetry_body res) (PNum 0, PNum 0).

(** Lines 174-178 *)
Definition plan_text (res : RunOutput) : result pyval :=
  exec_stats <- getattr (run_obj res) "execution_stats" ;;
  plan_stats <- getattr exec_stats "plan_stats" ;;
  values <- py_values plan_stats ;;
  stats <- item0 values ;;
  getattr stats "plan_str".

Definition plan_file_name (idx : nat) : string := PyStr.of_nat idx ++ ".txt".

Definition strategy_label (idx : nat) : string := "Plan-" ++ PyStr.of_nat idx.

Section Reporter.
Variable sys : Sys.

(** [os.makedirs(path, exist_ok=True)] *)
Definition makedirs (path : string) : io unit :=
  if can_makedirs sys path then ([EMakedirs path], Ok tt)
  else ([], Raise OSError).

(** Lines 180-185: a file that cannot be opened is left alone; text that
    [f.write] rejects leaves the opened file empty; neither is raised. *)
Definition write_plan (plan_file : string) (plan_texts : pyval)
    : io unit :=
  if can_open sys plan_file then
    match plan_texts with
    | PStr s => ([EWriteText plan_file s], Ok tt)
    | _ => ([EWriteText plan_file EmptyString], Ok tt)
    end
  else ([], Ok tt).

(** [df_out.to_csv(output_csv, index=False)] *)
Definition to_csv (output_csv : string) (table : list SummaryRow)
    : io unit :=
  if can_open sys output_csv then ([EWriteTable output_csv table], Ok tt)
  else ([], Raise OSError).

Definition print (line : string) : io unit := ([EPrint line], Ok tt).

(** Lines 148-196: the body of the loop for one run. *)
Definition process_run (gt_data : gt_index) (plan_details_dir : string)
    (workload : string) (idx : nat) (res : RunOutput) : io SummaryRow :=
  let (locals, extracted) := extract_telemetry res in
  _ <~ io_lift extracted ;;
  let (cost, time_sec) := locals : telemetry in
  _ <~ io_lift (run_frame res) ;;
  f1 <~ io_lift (compute_f1 (run_records res) gt_data workload) ;;
  plan_texts <~ io_lift (plan_text res) ;;
  let plan_file := Path.join plan_details_dir (plan_file_name idx) in
  _ <~ write_plan plan_file plan_texts ;;
  io_ret {| Workload := workload;
            Strategy := strategy_label idx;
            Time_s := time_sec;
            Cost := cost;
            F1_Score := f1;
            Plan_File := plan_file_name idx |}.

(** [for idx, res in enumerate(results, start=...)], appending to
    [all_results]. *)
Fixpoint process_runs (gt_data : gt_index) (plan_details_dir : string)
    (workload : string) (idx : nat) (results : list RunOutput)
    (all_results : list SummaryRow) : io (list SummaryRow) :=
  match results with
  | [] => io_ret all_results
  | res :: results' =>
      row <~ process_run gt_data plan_details_dir workload idx res ;;
      process_runs gt_data plan_details_dir workload (S idx) results'
                   (all_results ++ [row])
  end.

Definition write_results_and_plans (results_iterable : iterable)
    (gt_data : gt_index) (output_csv plan_details_dir workload : string)
    : io unit :=
  let out_dir := Path.dirname output_csv in
  _ <~ makedirs (if PyStr.is_empty out_dir then "." else out_dir) ;;
  _ <~ makedirs plan_details_dir ;;
  let results := to_list results_iterable in
  all_results <~ process_runs gt_data plan_details_dir workload 1 results [] ;;
  _ <~ to_csv output_csv all_results ;;
  _ <~ print ("Saved results to " ++ output_csv) ;;
  print ("Plan details saved in " ++ plan_details_dir).

End Reporter.

(** A system on which every directory can be made and every file opened. *)
Definition permissive : Sys :=
  {| can_makedirs := fun _ => true; can_open := fun _ => true |}.

Definition stats_of (cost : Q) (plan : string) : pyval :=
  PObj [("plan_stats",
         PDict [("p0", PObj [("total_cost", PNum cost);
                             ("plan_time", PNum 3);
                             ("plan_str", PStr plan)])])].

Definition run_of (cost : Q) (plan : string) : RunOutput :=
  {| run_attrs := [("execution_stats", stats_of cost plan)];
     run_records := [PObj [("filename", PStr "a.txt")]];
     run_frame := Ok tt |}.

(* ===================================================================== *)
(** ** Conversion helpers ([udfs.py]) *)
(* ===================================================================== *)

(** What a helper prints when it gives up on a URL or on a sheet: the
    name and the exception caught. *)
Inductive notice : Type :=
| FetchError (url : string) (e : exn)
| SkippedSheet (sheet_name : string) (e : exn).

Fixpoint has_slash (s : string) : bool :=
  match s with
  | EmptyString => false
  | String c s' => Path.is_slash c || has_slash s'
  end.

(** [s.split("/")[-1]] *)
Fixpoint last_segment (s : string) : string :=
  match s with
  | EmptyString => EmptyString
  | String c s' => if Path.is_slash c || has_slash s' then last_segment s' else s
  end.

(** The network and the clock of [url_to_file]: [requests.get(url).content]
    and [datetime.now().isoformat()]. *)
Record Net : Type := {
  http_get : string -> result string;
  now_isoformat : string
}.

(** The dictionary [url_to_file] returns. *)
Record FileRecord : Type := {
  file_filename : string;
  file_timestamp : string;
  file_contents : string
}.

(** Lines 14-25 of [udfs.py]. *)
Definition url_to_file (net : Net) (candidate : Dict.t pyval)
    : list notice * result FileRecord :=
  match Dict.get "url" candidate with
  | None => ([], Raise KeyError)
  | Some (PStr url) =>
      let filename := last_segment url in
      let timestamp := now_isoformat net in
      match http_get net url with
      | Ok contents =>
          ([], Ok {| file_filename := filename;
                     file_timestamp := timestamp;
                     file_contents := contents |})
      | Raise e =>
          ([FetchError url e],
           Ok {| file_filename := filename;
                 file_timestamp := timestamp;
                 file_contents := EmptyString |})
      end
  | Some _ => ([], Raise AttributeError)
  end.

(** The candidate of [xls_to_tables], its fields typed as the spreadsheet
    schema has them; [None] is a key the dictionary lacks. *)
Record XlsCandidate : Type := {
  xls_contents : option string;
  xls_sheet_names : option (list string);
  xls_filename : option string
}.

(** One sheet as [pd.read_excel] hands it over: the column labels and
    [dataframe.values], row by row. *)
Record Sheet : Type := {
  sheet_columns : list cell;
  sheet_values : list (list cell)
}.

(** One record of [xls_to_tables]. *)
Record TableRecord : Type := {
  table_rows : list string;
  table_filename : string;
  table_header : list string;
  table_name : string
}.

Definition or_default {A : Type} (x : option A) (default : A) : A :=
  match x with
  | Some a => a
  | None => default
  end.

Section XlsToTables.
(** [MAX_ROWS] of [palimpzest.constants], and [pd.read_excel] on the bytes
    of a workbook and a sheet name. *)
Variable MAX_ROWS : nat.
Variable read_excel : string -> string -> result Sheet.

(** Lines 79-81: a row becomes one string. *)
Definition row_string (row : list cell) : string :=
  String.concat ", " (map cell_str row).

(** Lines 73-93: the record of a sheet that could be read. *)
Definition table_record (candidate : XlsCandidate) (sheet_name : string)
    (dataframe : Sheet) : TableRecord :=
  {| table_rows := map row_string (firstn MAX_ROWS (sheet_values dataframe));
     table_filename := or_default (xls_filename candidate) "unknown";
     table_header := map cell_str (sheet_columns dataframe);
     table_name :=
       last_segment (or_default (xls_filename candidate) "file")
       ++ "_" ++ sheet_name |}.

(** Lines 65-93: the loop over the sheet names; [io.BytesIO(None)] is the
    empty buffer. *)
Fixpoint xls_sheets (candidate : XlsCandidate) (sheet_names : list string)
    : list notice * list TableRecord :=
  match sheet_names with
  | [] => ([], [])
  | sheet_name :: sheet_names' =>
      let (notices, records) := xls_sheets candidate sheet_names' in
      match read_excel (or_default (xls_contents candidate) EmptyString)
                       sheet_name with
      | Ok dataframe =>
          (notices, table_record candidate sheet_name dataframe :: records)
      | Raise e => (SkippedSheet sheet_name e :: notices, records)
      end
  end.

(** Lines 58-95 *)
Definition xls_to_tables (candidate : XlsCandidate)
    : list notice * list TableRecord :=
  xls_sheets candidate (or_default (xls_sheet_names candidate) []).

End XlsToTables.

(** A workbook reader that knows the sheets [data] (three rows) and
    [notes] (one row) and nothing else. *)
Definition sample_read_excel (contents sheet_name : string) : result Sheet :=
  if String.eqb sheet_name "data" then
    Ok {| sheet_columns := [CStr "id"; CInt 2024];
          sheet_values := [[CInt 1; CStr "a"]; [CInt 2; CStr "b"];
                           [CInt 3; CStr "c"]] |}
  else if String.eqb sheet_name "notes" then
    Ok {| sheet_columns := [CStr "text"];
          sheet_values := [[CStr "hello"]] |}
  else Raise ValueError.

Definition sample_workbook : XlsCandidate :=
  {| xls_contents := Some "bytes";
     xls_sheet_names := Some ["data"; "broken"; "notes"];
     xls_filename := Some "in/book.xlsx" |}.

(* ===================================================================== *)
(** ** Notions the statements use, and sample inputs *)
(* ===================================================================== *)

(** A string that does not begin with white space. *)
Definition no_lead (s : string) : Prop :=
  match s with
  | EmptyString => True
  | String c _ => PyStr.is_space c = false
  end.

Definition trimmed (s : string) : Prop := PyStr.strip s = s.

Definition lower_case (s : string) : Prop := PyStr.lower s = s.

(** The index the enron loader builds from a file on disk named
    [Report.TXT]. *)
Definition mixed_case_table : DataFrame :=
  {| columns := ["Filename"; "Label"];
     rows := [[CStr " Report.TXT "; CInt 1]] |}.

Definition mixed_case_env : Env :=
  {| path_exists := fun _ => true;
     read_csv := fun _ => Ok mixed_case_table;
     listdir := fun _ => Ok ["Report.TXT"] |}.

(** A nested index in normal form: source keys trimmed and lower-case,
    attribute names trimmed. *)
Definition nested_ok (m : Dict.t (Dict.t bool)) : Prop :=
  forall k inner, In (k, inner) m ->
    trimmed k /\ lower_case k /\
    forall a, In a (Dict.keys inner) -> trimmed a.

(** A labeled table whose one label is the text [positive]. *)
Definition bad_label_table : DataFrame :=
  {| columns := ["filename"; "label"];
     rows := [[CStr "h1.txt"; CStr "positive"]] |}.

Definition bad_label_env : Env :=
  {| path_exists := fun _ => true;
     read_csv := fun _ => Ok bad_label_table;
     listdir := fun _ => Ok ["h1.txt"] |}.

Definition no_id_env : Env :=
  {| path_exists := fun _ => true;
     read_csv := fun _ =>
       Ok {| columns := ["address"; "price"];
             rows := [[CStr "h1"; CInt 3]] |};
     listdir := fun _ => Ok ["h1"] |}.

(** The attribute name a row is filed under: its trimmed first cell. *)
Definition attr_key (row : list cell) : string :=
  PyStr.strip (cell_str (nth 0 row NaN)).

(** The cell of a row under a column label. *)
Definition col_cell (cols : list string) (row : list cell) (name : string)
    : cell :=
  match index_of name cols with
  | Some i => nth i row NaN
  | None => NaN
  end.

(** The flag a row records under a source column. *)
Definition flag_of (cols : list string) (author : string) (row : list cell)
    : bool :=
  should_exist_of (cell_str (col_cell cols row author)).

(** The attribute table of one source column, row after row. *)
Definition inner_of (cols : list string) (author : string)
    (rs : list (list cell)) (init : Dict.t bool) : Dict.t bool :=
  fold_left
    (fun inner row => Dict.set (attr_key row) (flag_of cols author row) inner)
    rs init.

Definition source_key (author : string) : string :=
  PyStr.strip (PyStr.lower author).

(** The attribute table of scenario 3 with a third row, where the cell of
    [name] carries blanks around [Missing]. *)
Definition padded_env : Env :=
  {| path_exists := fun _ => true;
     read_csv := fun _ =>
       Ok {| columns := ["target_attribute"; "sourceA"];
             rows := [[CStr "age"; CStr "1"];
                      [CStr "name"; CStr " Missing "];
                      [CStr "sex"; CStr "Missing"]] |};
     listdir := fun _ => Ok [] |}.

(** Two records that name the identifiers [a.txt] and [b.txt]. *)
Definition both_predicted : list pyval :=
  [PObj [("filename", PStr "a.txt")]; PObj [("filename", PStr "b.txt")]].

(** A record that predicts nothing the index knows: it lacks the key
    attribute, or its trimmed identifier is no key of the index. *)
Definition unlabeled (d : Dict.t Z) (key_attr : string) (r : pyval) : Prop :=
  hasattr r key_attr = false \/
  exists s, getattr r key_attr = Ok (PStr s) /\
            ~ In (PyStr.strip s) (Dict.keys d).

(** The first per-plan stats entry of a run, in the words of the
    specification: the first value of the [plan_stats] mapping of the
    run's execution statistics, when there is one. *)
Definition first_plan_stats (res : RunOutput) : option pyval :=
  match Dict.get "execution_stats" (run_attrs res) with
  | Some (PObj es_attrs) =>
      match Dict.get "plan_stats" es_attrs with
      | Some (PDict ((_, first_ps) :: _)) => Some first_ps
      | _ => None
      end
  | _ => None
  end.

(** The value of the first alias, in the order of the list, that the
    object has and that is not [None]. *)
Inductive first_alias (obj : pyval) : list string -> option pyval -> Prop :=
| fa_none : first_alias obj [] None
| fa_here attr aliases val :
    getattr_default obj attr PNone = val -> val <> PNone ->
    first_alias obj (attr :: aliases) (Some val)
| fa_later attr aliases found :
    getattr_default obj attr PNone = PNone ->
    first_alias obj aliases found ->
    first_alias obj (attr :: aliases) found.

(** A run whose statistics name the cost [total_cost] and the time
    [plan_time]. *)
Definition sample_run : RunOutput :=
  {| run_attrs :=
       [("execution_stats",
         PObj [("plan_stats",
                PDict [("p0", PObj [("total_cost", PNum 5);
                                    ("plan_time", PNum 3);
                                    ("plan_str", PStr "scan")])])])];
     run_records := [PObj [("filename", PStr "a.txt")]];
     run_frame := Ok tt |}.


(** The event writes the file at [path]. *)
Definition writes_to (path : string) (e : event) : bool :=
  match e with
  | EWriteText p _ => String.eqb p path
  | EWriteTable p _ => String.eqb p path
  | _ => false
  end.

(** A run output without execution statistics. *)
Definition bare_run : RunOutput :=
  {| run_attrs := [];
     run_records := [PObj [("filename", PStr "a.txt")]];
     run_frame := Ok tt |}.

(** An enron table that names the file [m1] twice, with different labels. *)
Definition duplicate_rows_env : Env :=
  {| path_exists := fun _ => true;
     read_csv := fun _ =>
       Ok {| columns := ["file"; "y"];
             rows := [[CStr "m1"; CInt 1]; [CStr "m2"; CInt 1];
                      [CStr " m1 "; CInt 0]] |};
     listdir := fun _ => Ok ["m1"; "m2"] |}.

(** A record whose file name, lower-cased, holds no source key of the
    index. *)
Definition unmatched (gt : gt_index) (record : pyval) : Prop :=
  exists s, record_fname record = PStr s /\
            forall k, In k (gt_keys gt) ->
                      PyStr.contains k (PyStr.lower s) = false.

(** What one record adds to the predicted identifiers of line 98: nothing
    when it lacks the key attribute, its trimmed identifier otherwise. *)
Definition predicted_id (key_attr : string) (r : pyval)
    : result (option string) :=
  if hasattr r key_attr then
    v <- getattr r key_attr ;;
    s <- py_strip v ;;
    Ok (Some s)
  else Ok None.

Definition add_id (o : option string) (ids : list string) : list string :=
  match o with
  | Some s => s :: ids
  | None => ids
  end.

(** Two outcomes of line 98 that scoring cannot tell apart: the same
    exception, or the same identifiers up to order and repetition. *)
Definition same_predictions (a b : result (list string)) : Prop :=
  match a, b with
  | Ok p, Ok p' => forall s, In s p <-> In s p'
  | Raise e, Raise e' => e = e'
  | _, _ => False
  end.

(** A label of a binary index. *)
Definition zero_or_one (z : Z) : Prop := z = 0%Z \/ z = 1%Z.

Definition is_ok {A : Type} (r : result A) : bool :=
  match r with
  | Ok _ => true
  | Raise _ => false
  end.

(** The sheet a notice of [xls_to_tables] is about. *)
Definition skipped_sheet (n : notice) : option string :=
  match n with
  | SkippedSheet sheet_name _ => Some sheet_name
  | FetchError _ _ => None
  end.

(** A string of white space only. *)
Fixpoint all_space (s : string) : bool :=
  match s with
  | EmptyString => true
  | String c s' => PyStr.is_space c && all_space s'
  end.

(** A table for the nested workload whose file is there while the
    reference directory is not. *)
Definition no_directory_table : DataFrame :=
  {| columns := ["target_attribute"; "sourceA"];
     rows := [[CStr "age"; CStr "years"]] |}.

Definition no_directory_env : Env :=
  {| path_exists := fun p => String.eqb p "gt.csv";
     read_csv := fun _ => Ok no_directory_table;
     listdir := fun _ => Raise OSError |}.

(** One record of the source [sourcea] that fills the attribute [age]. *)
Definition age_records : list pyval :=
  [PObj [("filename", PStr "sourcea.json"); ("age", PStr "42")]].

(** A labeled enron table beside a reference directory that is not
    there. *)
Definition labeled_table : DataFrame :=
  {| columns := ["filename"; "label"];
     rows := [[CStr "a.txt"; CInt 1]] |}.

Definition labeled_no_directory_env : Env :=
  {| path_exists := fun p => String.eqb p "gt.csv";
     read_csv := fun _ => Ok labeled_table;
     listdir := fun _ => Raise OSError |}.



(* ===================================================================== *)
(** ** The model on concrete inputs *)
(* ===================================================================== *)

Example strip_ex : PyStr.strip "  a b.txt	 " = "a b.txt".
Proof. reflexivity. Qed.

Example lower_ex : PyStr.lower " Missing " = " missing ".
Proof. reflexivity. Qed.

Example contains_ex :
  PyStr.contains "sourcea" (PyStr.lower "sourceA_export.csv") = true.
Proof. reflexivity. Qed.

Example parse_int_ex :
  PyStr.parse_int " -1_000 " = Some (-1000)%Z /\
  PyStr.parse_int "abc" = None /\
  PyStr.parse_int "1__0" = None /\
  PyStr.parse_int EmptyString = None.
Proof. repeat split; reflexivity. Qed.

Example parse_int_separator_ex :
  PyStr.strip (String (ascii_of_nat 31) "7") = "7" /\
  PyStr.parse_int (String (ascii_of_nat 31) "7") = None /\
  PyStr.parse_int (String (ascii_of_nat 9) "7") = Some 7%Z.
Proof. repeat split; reflexivity. Qed.

Example of_nat_ex : PyStr.of_nat 12 = "12" /\ PyStr.of_Z (-7) = "-7".
Proof. split; reflexivity. Qed.

Example scenario1_load :
  load_ground_truth scenario1_env "enron" "gt.csv" "data"
  = Ok (GTFlat [("a.txt", 1%Z); ("b.txt", 0%Z)]).
Proof. reflexivity. Qed.

Example scenario3_load :
  load_ground_truth scenario3_env "medical-schema-matching" "gt.csv" "data"
  = Ok (GTNested [("sourcea", [("age", true); ("name", false)])]).
Proof. reflexivity. Qed.

Example sklearn_binary_ex :
  Sklearn.precision_score [1; 0]%Z [1; 1]%Z Sklearn.Binary = Ok (1 # 2)%Q /\
  Sklearn.recall_score [1; 0]%Z [1; 1]%Z Sklearn.Binary = Ok 1%Q /\
  Sklearn.f1_score [1; 0]%Z [1; 1]%Z Sklearn.Binary = Ok (2 # 3)%Q /\
  Sklearn.f1_score [0; 0]%Z [0; 0]%Z Sklearn.Binary = Ok 0%Q /\
  Sklearn.f1_score [2; 0]%Z [1; 0]%Z Sklearn.Binary = Raise ValueError.
Proof. repeat split; reflexivity. Qed.

Example scenario1_score :
  compute_f1 [PObj [("filename", PStr "a.txt")]]
             (GTFlat [("a.txt", 1%Z); ("b.txt", 0%Z)]) "enron" = Ok 1%Q.
Proof. reflexivity. Qed.

Example scenario3_score :
  compute_f1
    [PObj [("filename", PStr "sourceA_export.csv"); ("age", PStr "34")]]
    (GTNested [("sourcea", [("age", true); ("name", false)])])
    "medical-schema-matching" = Ok 1%Q.
Proof. reflexivity. Qed.

Example dirname_ex :
  Path.dirname "out/run/results.csv" = "out/run" /\
  Path.dirname "results.csv" = EmptyString /\
  Path.dirname "/results.csv" = "/" /\
  Path.dirname "a//b" = "a".
Proof. repeat split; reflexivity. Qed.

Example join_ex :
  Path.join "plans" "1.txt" = "plans/1.txt" /\
  Path.join "plans/" "1.txt" = "plans/1.txt" /\
  Path.join EmptyString "1.txt" = "1.txt".
Proof. repeat split; reflexivity. Qed.

Example report_ex :
  write_results_and_plans permissive (Iterable [run_of 5 "scan"; run_of 7 "filter"])
    (GTFlat [("a.txt", 1%Z); ("b.txt", 0%Z)]) "out/results.csv" "plans" "enron"
  = ([EMakedirs "out"; EMakedirs "plans";
      EWriteText "plans/1.txt" "scan"; EWriteText "plans/2.txt" "filter";
      EWriteTable "out/results.csv"
        [{| Workload := "enron"; Strategy := "Plan-1"; Time_s := PNum 3;
            Cost := PNum 5; F1_Score := 1; Plan_File := "1.txt" |};
         {| Workload := "enron"; Strategy := "Plan-2"; Time_s := PNum 3;
            Cost := PNum 7; F1_Score := 1; Plan_File := "2.txt" |}];
      EPrint "Saved results to out/results.csv";
      EPrint "Plan details saved in plans"], Ok tt).
Proof. reflexivity. Qed.

(* ===================================================================== *)
(** ** Facts about strings *)
(* ===================================================================== *)

Module PyStrFacts.
Import PyStr.

Lemma lstrip_no_lead (s : string) : no_lead (lstrip s).
Proof.
  induction s as [|c s IH]; simpl; [exact I|].
  destruct (is_space c) eqn:E; [exact IH | simpl; exact E].
Qed.

Lemma lstrip_fixed (s : string) : no_lead s -> lstrip s = s.
Proof.
  destruct s as [|c s]; simpl; intros H; [reflexivity|].
  rewrite H. reflexivity.
Qed.

Lemma rstrip_no_lead (s : string) : no_lead s -> no_lead (rstrip s).
Proof.
  destruct s as [|c s]; simpl; intros H; [exact I|].
  destruct (rstrip s); [rewrite H|]; simpl; exact H.
Qed.

Lemma rstrip_idem (s : string) : rstrip (rstrip s) = rstrip s.
Proof.
  induction s as [|c s IH]; simpl; [reflexivity|].
  destruct (rstrip s) as [|a r] eqn:E.
  - destruct (is_space c) eqn:Ec; simpl; [reflexivity|].
    rewrite Ec. reflexivity.
  - change (rstrip (String c (String a r))) with
      (match rstrip (String a r) with
       | EmptyString => if is_space c then EmptyString else String c EmptyString
       | String _ _ as r0 => String c r0
       end).
    rewrite IH. reflexivity.
Qed.

Theorem strip_idem (s : string) : strip (strip s) = strip s.
Proof.
  unfold strip.
  rewrite (lstrip_fixed (rstrip (lstrip s))).
  - apply rstrip_idem.
  - apply rstrip_no_lead, lstrip_no_lead.
Qed.

Lemma is_space_lower_char (c : ascii) : is_space (lower_char c) = is_space c.
Proof. destruct c as [[] [] [] [] [] [] [] []]; reflexivity. Qed.

Lemma lower_char_idem (c : ascii) : lower_char (lower_char c) = lower_char c.
Proof. destruct c as [[] [] [] [] [] [] [] []]; reflexivity. Qed.

Lemma lower_idem (s : string) : lower (lower s) = lower s.
Proof.
  induction s as [|c s IH]; simpl; [reflexivity|].
  rewrite lower_char_idem, IH. reflexivity.
Qed.

Lemma lower_lstrip (s : string) : lower (lstrip s) = lstrip (lower s).
Proof.
  induction s as [|c s IH]; simpl; [reflexivity|].
  rewrite is_space_lower_char.
  destruct (is_space c); [exact IH | reflexivity].
Qed.

Lemma lower_rstrip (s : string) : lower (rstrip s) = rstrip (lower s).
Proof.
  induction s as [|c s IH]; simpl; [reflexivity|].
  rewrite <- IH, is_space_lower_char.
  destruct (rstrip s) as [|a r]; simpl; [|reflexivity].
  destruct (is_space c); reflexivity.
Qed.

Theorem lower_strip (s : string) : lower (strip s) = strip (lower s).
Proof. unfold strip. rewrite lower_rstrip, lower_lstrip. reflexivity. Qed.

(** The normal form of a source key is both trimmed and lower-case. *)
Lemma strip_lower_normal (s : string) :
  strip (strip (lower s)) = strip (lower s) /\
  lower (strip (lower s)) = strip (lower s).
Proof.
  split; [apply strip_idem|].
  rewrite lower_strip, lower_idem. reflexivity.
Qed.

Lemma mem_In (x : string) (xs : list string) : mem x xs = true <-> In x xs.
Proof.
  unfold mem. rewrite existsb_exists. split.
  - intros [y [Hy E]]. apply String.eqb_eq in E. subst. exact Hy.
  - intros H. exists x. split; [exact H | apply String.eqb_refl].
Qed.

Lemma append_nil_r (s : string) : (s ++ EmptyString)%string = s.
Proof. induction s as [|c s IH]; simpl; [|rewrite IH]; reflexivity. Qed.

Lemma append_inj_l (a s t : string) : (a ++ s)%string = (a ++ t)%string -> s = t.
Proof.
  induction a as [|c a IH]; simpl; intros H; [exact H|].
  injection H as H. exact (IH H).
Qed.

Lemma length_append (s t : string) :
  String.length (s ++ t)%string = String.length s + String.length t.
Proof. induction s as [|c s IH]; simpl; [|rewrite IH]; reflexivity. Qed.

Lemma append_inj_r (s t z : string) : (s ++ z)%string = (t ++ z)%string -> s = t.
Proof.
  revert t. induction s as [|c s IH]; intros [|d t] H; simpl in H.
  - reflexivity.
  - apply (f_equal String.length) in H. simpl in H.
    rewrite length_append in H. lia.
  - apply (f_equal String.length) in H. simpl in H.
    rewrite length_append in H. lia.
  - injection H as Hc H. subst d. rewrite (IH t H). reflexivity.
Qed.

Lemma to_uint_nonnil (n : nat) : Nat.to_uint n <> Decimal.Nil.
Proof.
  rewrite <- (DecimalNat.Unsigned.of_to n), DecimalNat.Unsigned.to_of.
  apply DecimalFacts.unorm_nonnil.
Qed.

Lemma of_nat_inj (n m : nat) : of_nat n = of_nat m -> n = m.
Proof.
  unfold of_nat. intros H.
  apply (f_equal NilZero.uint_of_string) in H.
  rewrite !NilZero.usu in H by apply to_uint_nonnil.
  injection H as H.
  apply DecimalNat.Unsigned.to_uint_inj. exact H.
Qed.

End PyStrFacts.

(* ===================================================================== *)
(** ** Facts about dictionaries *)
(* ===================================================================== *)

Module DictFacts.
Section WithValue.
Context {V : Type}.
Implicit Types (d : Dict.t V) (k : string) (v : V).

Lemma get_set_eq k v d : Dict.get k (Dict.set k v d) = Some v.
Proof.
  induction d as [|[k' v'] d IH]; simpl.
  - rewrite String.eqb_refl. reflexivity.
  - destruct (String.eqb k' k) eqn:E; simpl; rewrite E; [reflexivity | exact IH].
Qed.

Lemma get_set_ne k k' v d :
  k <> k' -> Dict.get k' (Dict.set k v d) = Dict.get k' d.
Proof.
  intros Hne. induction d as [|[k0 v0] d IH]; simpl.
  - apply String.eqb_neq in Hne. rewrite Hne. reflexivity.
  - destruct (String.eqb k0 k) eqn:E; simpl.
    + apply String.eqb_eq in E. subst k0.
      apply String.eqb_neq in Hne. rewrite Hne. reflexivity.
    + destruct (String.eqb k0 k'); [reflexivity | exact IH].
Qed.

Lemma keys_set x k v d :
  In x (Dict.keys (Dict.set k v d)) <-> x = k \/ In x (Dict.keys d).
Proof.
  unfold Dict.keys. induction d as [|[k' v'] d IH]; simpl.
  - intuition.
  - destruct (String.eqb k' k) eqn:E; simpl.
    + apply String.eqb_eq in E. subst k'. intuition.
    + rewrite IH. intuition.
Qed.

Lemma get_Some_keys k v d : Dict.get k d = Some v -> In k (Dict.keys d).
Proof.
  unfold Dict.keys. induction d as [|[k' v'] d IH]; simpl; [discriminate|].
  destruct (String.eqb k' k) eqn:E.
  - apply String.eqb_eq in E. intros _. left. exact E.
  - intros H. right. exact (IH H).
Qed.

Lemma keys_get k d : In k (Dict.keys d) -> exists v, Dict.get k d = Some v.
Proof.
  unfold Dict.keys. induction d as [|[k' v'] d IH]; simpl; [contradiction|].
  destruct (String.eqb k' k) eqn:E.
  - intros _. exists v'. reflexivity.
  - intros [H|H]; [|exact (IH H)].
    apply String.eqb_neq in E. contradiction.
Qed.

Lemma get_In k v d : Dict.get k d = Some v -> In (k, v) d.
Proof.
  induction d as [|[k' v'] d IH]; simpl; [discriminate|].
  destruct (String.eqb k' k) eqn:E.
  - apply String.eqb_eq in E. intros H. left. congruence.
  - intros H. right. exact (IH H).
Qed.

Lemma set_not_empty k v d : Dict.is_empty (Dict.set k v d) = false.
Proof.
  destruct d as [|[k' v'] d]; simpl; [reflexivity|].
  destruct (String.eqb k' k); reflexivity.
Qed.

End WithValue.
End DictFacts.

(* ===================================================================== *)
(** ** The loader on an absent file or directory; scoring an empty index *)
(* ===================================================================== *)

Lemma flat_workload_cases (workload : string) :
  is_flat_workload workload = true ->
  workload = "enron" \/ workload = "real-estate".
Proof.
  unfold is_flat_workload. rewrite PyStrFacts.mem_In. simpl. intuition.
Qed.

Lemma enron_rows_nothing_on_disk cols gt rs gt' :
  enron_rows cols [] gt rs = Ok gt' -> gt' = gt.
Proof.
  revert gt. induction rs as [|row rs IH]; simpl; intros gt H.
  - congruence.
  - unfold enron_row in H. destruct (enron_fname cols row); simpl in H.
    + exact (IH _ H).
    + discriminate.
Qed.

Lemma real_estate_rows_nothing_on_disk cols gt rs gt' :
  real_estate_rows cols [] gt rs = Ok gt' -> gt' = gt.
Proof.
  revert gt. induction rs as [|row rs IH]; simpl; intros gt H.
  - congruence.
  - unfold real_estate_row in H. destruct (real_estate_id cols row).
    + destruct (real_estate_label cols row); simpl in H.
      * exact (IH _ H).
      * discriminate.
    + simpl in H. exact (IH _ H).
Qed.

Lemma enron_fname_returns cols row :
  cols <> [] -> exists fname, enron_fname cols row = Ok fname.
Proof.
  intros Hc. unfold enron_fname.
  assert (Hi : exists x, iloc cols row 0 = Ok x).
  { unfold iloc. destruct cols; [contradiction|]. simpl. eauto. }
  destruct Hi as [x Hx].
  destruct (first_present enron_id_cands cols) as [cand|].
  - destruct (PyStr.strip _); [|eauto].
    rewrite Hx. simpl. eauto.
  - rewrite Hx. simpl. eauto.
Qed.

Lemma enron_rows_returns cols actual gt rs :
  cols <> [] -> exists gt', enron_rows cols actual gt rs = Ok gt'.
Proof.
  intros Hc. revert gt. induction rs as [|row rs IH]; simpl; intros gt.
  - eauto.
  - unfold enron_row.
    destruct (enron_fname_returns cols row Hc) as [fname ->]. simpl.
    apply IH.
Qed.

Lemma compute_f1_exit_empty results gt workload :
  gt_is_empty gt = true ->
  compute_f1_exit results gt workload = Ok ExitEmptyGT.
Proof. intros H. unfold compute_f1_exit. rewrite H. reflexivity. Qed.

(* ===================================================================== *)
(** ** Normal form of the keys of an index *)
(* ===================================================================== *)

Lemma enron_fname_trimmed cols row fname :
  enron_fname cols row = Ok fname -> trimmed fname.
Proof.
  unfold enron_fname, trimmed.
  assert (Hfall : forall f,
            (x <- iloc cols row 0 ;; Ok (PyStr.strip (cell_str x))) = Ok f ->
            PyStr.strip f = f).
  { intros f. destruct (iloc cols row 0); simpl; [|discriminate].
    intros H. injection H as <-. apply PyStrFacts.strip_idem. }
  destruct (first_present enron_id_cands cols) as [cand|]; [|apply Hfall].
  destruct (PyStr.strip (cell_str _)) as [|c s] eqn:E; [apply Hfall|].
  intros H. injection H as <-. rewrite <- E. apply PyStrFacts.strip_idem.
Qed.

Lemma real_estate_id_trimmed cols row listing_id :
  real_estate_id cols row = Some listing_id -> trimmed listing_id.
Proof.
  unfold real_estate_id, trimmed.
  destruct (match first_present real_estate_id_cands cols with
            | Some cand => row_get cols row cand
            | None => None
            end) as [x|]; [|discriminate].
  destruct (cell_truthy x); [|discriminate].
  intros H. injection H as <-. apply PyStrFacts.strip_idem.
Qed.

Section KeyInvariant.
Variable P : string -> Prop.

Lemma set_keys_inv {V : Type} (k : string) (v : V) (d : Dict.t V) :
  P k -> (forall x, In x (Dict.keys d) -> P x) ->
  forall x, In x (Dict.keys (Dict.set k v d)) -> P x.
Proof.
  intros Hk Hd x Hx. apply DictFacts.keys_set in Hx.
  destruct Hx as [-> | Hx]; [exact Hk | exact (Hd x Hx)].
Qed.

Lemma enron_rows_keys cols actual gt rs gt' :
  (forall fname row, enron_fname cols row = Ok fname -> P fname) ->
  (forall x, In x (Dict.keys gt) -> P x) ->
  enron_rows cols actual gt rs = Ok gt' ->
  forall x, In x (Dict.keys gt') -> P x.
Proof.
  intros Hf. revert gt. induction rs as [|row rs IH]; simpl; intros gt Hgt H.
  - injection H as <-. exact Hgt.
  - unfold enron_row in H.
    destruct (enron_fname cols row) as [fname|] eqn:E; simpl in H;
      [|discriminate].
    refine (IH _ _ H). intros x Hx.
    destruct (PyStr.mem fname actual); [|exact (Hgt x Hx)].
    exact (set_keys_inv fname _ gt (Hf _ _ E) Hgt x Hx).
Qed.

Lemma real_estate_rows_keys cols actual gt rs gt' :
  (forall id row, real_estate_id cols row = Some id -> P id) ->
  (forall x, In x (Dict.keys gt) -> P x) ->
  real_estate_rows cols actual gt rs = Ok gt' ->
  forall x, In x (Dict.keys gt') -> P x.
Proof.
  intros Hf. revert gt. induction rs as [|row rs IH]; simpl; intros gt Hgt H.
  - injection H as <-. exact Hgt.
  - unfold real_estate_row in H.
    destruct (real_estate_id cols row) as [id|] eqn:E.
    + destruct (real_estate_label cols row) as [label|]; simpl in H;
        [|discriminate].
      refine (IH _ _ H). intros x Hx.
      destruct (PyStr.mem id actual); [|exact (Hgt x Hx)].
      exact (set_keys_inv id _ gt (Hf _ _ E) Hgt x Hx).
    + simpl in H. exact (IH _ Hgt H).
Qed.

End KeyInvariant.

Lemma In_set {V : Type} (x k : string) (w v : V) (d : Dict.t V) :
  In (x, w) (Dict.set k v d) -> (x = k /\ w = v) \/ In (x, w) d.
Proof.
  induction d as [|[k' v'] d IH]; simpl.
  - intros [H|[]]. left. split; congruence.
  - destruct (String.eqb k' k) eqn:E; simpl.
    + apply String.eqb_eq in E. subst k'.
      intros [H|H]; [left; split; congruence | right; right; exact H].
    + intros [H|H]; [right; left; exact H|].
      destruct (IH H) as [H'|H']; [left; exact H' | right; right; exact H'].
Qed.

Lemma nested_ok_set key inner m :
  trimmed key -> lower_case key ->
  (forall a, In a (Dict.keys inner) -> trimmed a) ->
  nested_ok m -> nested_ok (Dict.set key inner m).
Proof.
  intros Ht Hl Hi Hm k w Hin.
  destruct (In_set _ _ _ _ _ Hin) as [[-> ->]|Hin']; [|exact (Hm k w Hin')].
  repeat split; assumption.
Qed.

Lemma medical_row_ok cols author key m row m' :
  trimmed key -> lower_case key -> nested_ok m ->
  medical_row cols author key m row = Ok m' -> nested_ok m'.
Proof.
  intros Ht Hl Hm. unfold medical_row.
  destruct (medical_attr cols row) as [[attr|]|]; simpl;
    [| intros H; injection H as <-; exact Hm | discriminate].
  destruct (row_getitem cols row author) as [x|]; simpl; [|discriminate].
  destruct (Dict.get key m) as [inner|] eqn:E; [|discriminate].
  intros H. injection H as <-.
  apply nested_ok_set; try assumption.
  apply set_keys_inv.
  - apply PyStrFacts.strip_idem.
  - apply DictFacts.get_In in E. exact (proj2 (proj2 (Hm _ _ E))).
Qed.

Lemma medical_rows_ok cols author key m rs m' :
  trimmed key -> lower_case key -> nested_ok m ->
  medical_rows cols author key m rs = Ok m' -> nested_ok m'.
Proof.
  intros Ht Hl. revert m. induction rs as [|row rs IH]; simpl; intros m Hm H.
  - injection H as <-. exact Hm.
  - destruct (medical_row cols author key m row) as [m1|] eqn:E; simpl in H;
      [|discriminate].
    exact (IH _ (medical_row_ok _ _ _ _ _ _ Ht Hl Hm E) H).
Qed.

Lemma medical_authors_ok df m authors m' :
  nested_ok m -> medical_authors df m authors = Ok m' -> nested_ok m'.
Proof.
  revert m. induction authors as [|author authors IH]; simpl; intros m Hm H.
  - injection H as <-. exact Hm.
  - destruct (medical_author df m author) as [m1|] eqn:E; simpl in H;
      [|discriminate].
    refine (IH _ _ H). unfold medical_author in E.
    destruct (PyStrFacts.strip_lower_normal author) as [Ht Hl].
    refine (medical_rows_ok _ _ _ _ _ _ Ht Hl _ E).
    apply nested_ok_set; try assumption.
    intros a [].
Qed.

Lemma predicted_positives_trimmed key_attr results predicted :
  predicted_positives key_attr results = Ok predicted ->
  forall s, In s predicted -> trimmed s.
Proof.
  revert predicted.
  induction results as [|r results IH]; simpl; intros predicted H.
  - injection H as <-. intros s [].
  - destruct (hasattr r key_attr); [|exact (IH _ H)].
    destruct (getattr r key_attr) as [v|]; simpl in H; [|discriminate].
    destruct v; simpl in H; try discriminate.
    destruct (predicted_positives key_attr results) as [rest|]; simpl in H;
      [|discriminate].
    injection H as <-. intros s0 [<-|Hs].
    + apply PyStrFacts.strip_idem.
    + exact (IH _ eq_refl s0 Hs).
Qed.

Lemma contains_in_empty (k : string) :
  PyStr.contains k EmptyString = true -> k = EmptyString.
Proof. destruct k; simpl; [reflexivity | discriminate]. Qed.

Lemma medical_record_matches gt record es :
  medical_record gt record = Ok es -> es <> [] ->
  exists s k, record_fname record = PStr s /\ In k (gt_keys gt) /\
              k <> EmptyString /\
              PyStr.contains k (PyStr.lower s) = true.
Proof.
  unfold medical_record. intros H Hne.
  destruct (gt_keys gt) as [|k0 ks] eqn:Ek;
    [injection H as <-; contradiction|].
  destruct (record_fname record) as [| |s| |];
    cbv beta iota delta [py_lower bind] in H; try discriminate.
  destruct (find _ (k0 :: ks)) as [k|] eqn:Ef;
    [|injection H as <-; contradiction].
  apply find_some in Ef. destruct Ef as [Hin Hc].
  destruct k as [|c k]; [injection H as <-; contradiction|].
  exists s, (String c k). repeat split; try assumption. discriminate.
Qed.

(** C2 as the specification words it, refuted: the enron loader stores the
    identifier [Report.TXT] with its capitals. *)
Lemma flat_identifier_keeps_case :
  ~ (forall (env : Env) (workload gt_path dataset_dir : string)
            (gt : gt_index),
       load_ground_truth env workload gt_path dataset_dir = Ok gt ->
       forall k, In k (gt_keys gt) -> lower_case k /\ trimmed k).
Proof.
  intros H.
  destruct (H mixed_case_env "enron" "gt.csv" "data"
              (GTFlat [("Report.TXT", 1%Z)]) eq_refl
              "Report.TXT" (or_introl eq_refl)) as [Hl _].
  discriminate Hl.
Qed.

(* ===================================================================== *)
(** ** A label that is not a number *)
(* ===================================================================== *)

(** C3.  On a label [int()] rejects, the real-estate branch lets the
    [ValueError] out of the loader, where the enron branch catches it and
    takes the label to be 1. *)
Theorem real_estate_bad_label_raises :
  load_ground_truth bad_label_env "real-estate" "gt.csv" "listings"
    = Raise ValueError /\
  load_ground_truth bad_label_env "enron" "gt.csv" "listings"
    = Ok (GTFlat [("h1.txt", 1%Z)]).
Proof. split; reflexivity. Qed.

(* ===================================================================== *)
(** ** A table without an identifier column *)
(* ===================================================================== *)

(** C4 as the specification words it, refuted for real-estate: no
    candidate column is present, the first column holds [h1], which is on
    disk, and the row is dropped; the enron loader keeps it. *)
Lemma real_estate_skips_row_without_id_column :
  first_present real_estate_id_cands ["address"; "price"] = None /\
  load_ground_truth no_id_env "real-estate" "gt.csv" "listings"
    = Ok (GTFlat []) /\
  load_ground_truth no_id_env "enron" "gt.csv" "listings"
    = Ok (GTFlat [("h1", 1%Z)]).
Proof. repeat split; reflexivity. Qed.

(** C4, as the code has it.  Without any identifier candidate among the
    columns, the enron loader takes the trimmed first column of every row
    as its identifier, and the real-estate loader skips every row. *)
Theorem identifier_column_fallback :
  forall (cols actual : list string) (row : list cell) (gt : Dict.t Z),
    (first_present enron_id_cands cols = None -> cols <> [] ->
     let fname := PyStr.strip (cell_str (nth 0 row NaN)) in
     enron_fname cols row = Ok fname /\
     enron_row cols actual gt row
       = Ok (if PyStr.mem fname actual
             then Dict.set fname (enron_label cols row) gt else gt)) /\
    (first_present real_estate_id_cands cols = None ->
     real_estate_id cols row = None /\
     real_estate_row cols actual gt row = Ok gt /\
     forall rs, real_estate_rows cols actual gt rs = Ok gt).
Proof.
  intros cols actual row gt. split.
  - intros Hnone Hcols fname.
    assert (E : enron_fname cols row = Ok fname).
    { unfold enron_fname. rewrite Hnone. unfold iloc.
      destruct cols; [contradiction|]. reflexivity. }
    split; [exact E|]. unfold enron_row. rewrite E. reflexivity.
  - intros Hnone.
    assert (E : forall r, real_estate_id cols r = None).
    { intros r. unfold real_estate_id. rewrite Hnone. reflexivity. }
    assert (R : forall r, real_estate_row cols actual gt r = Ok gt).
    { intros r. unfold real_estate_row. rewrite E. reflexivity. }
    repeat split; [apply E | apply R |].
    intros rs. induction rs as [|r rs IH]; simpl; [reflexivity|].
    rewrite R. simpl. exact IH.
Qed.

Lemma identifier_column_fallback_witness :
  enron_fname ["address"; "price"] [CStr " h1 "; CInt 3] = Ok "h1" /\
  real_estate_id ["address"; "price"] [CStr " h1 "; CInt 3] = None.
Proof.
  destruct (identifier_column_fallback ["address"; "price"] ["h1"]
              [CStr " h1 "; CInt 3] []) as [He Hr].
  split.
  - refine (proj1 (He eq_refl _)). discriminate.
  - exact (proj1 (Hr eq_refl)).
Defined.

(* ===================================================================== *)
(** ** The "should exist" flag of the nested index *)
(* ===================================================================== *)

Lemma should_exist_false_iff (s : string) :
  should_exist_of s = false <->
  PyStr.lower s = "missing" \/ PyStr.lower s = "nan".
Proof.
  unfold should_exist_of. rewrite andb_false_iff, !negb_false_iff.
  rewrite !String.eqb_eq. reflexivity.
Qed.

Lemma index_of_In name cols : In name cols -> index_of name cols <> None.
Proof.
  induction cols as [|c cols IH]; simpl; [contradiction|].
  destruct (String.eqb c name) eqn:E; [discriminate|].
  intros [H|H].
  - apply String.eqb_neq in E. contradiction.
  - specialize (IH H). destruct (index_of name cols); [discriminate|].
    contradiction.
Qed.

Lemma medical_row_spec c0 rest author key m row inner :
  index_of author (c0 :: rest) <> None ->
  Dict.get key m = Some inner ->
  medical_row (c0 :: rest) author key m row
  = Ok (Dict.set key
          (Dict.set (attr_key row) (flag_of (c0 :: rest) author row) inner) m).
Proof.
  intros Hi Hk. unfold medical_row, medical_attr, row_getitem, flag_of,
    col_cell, attr_key.
  destruct (index_of author (c0 :: rest)) as [i|] eqn:Ei; [|contradiction].
  simpl index_of. rewrite String.eqb_refl. simpl. rewrite Hk. reflexivity.
Qed.

Lemma medical_rows_spec c0 rest author key rs :
  index_of author (c0 :: rest) <> None ->
  forall m inner, Dict.get key m = Some inner ->
  exists m',
    medical_rows (c0 :: rest) author key m rs = Ok m' /\
    Dict.get key m' = Some (inner_of (c0 :: rest) author rs inner) /\
    forall k, k <> key -> Dict.get k m' = Dict.get k m.
Proof.
  intros Hi. induction rs as [|row rs IH]; intros m inner Hk.
  - exists m. simpl. auto.
  - simpl. rewrite (medical_row_spec _ _ _ _ _ _ _ Hi Hk). simpl.
    destruct (IH _ _ (DictFacts.get_set_eq key
      (Dict.set (attr_key row) (flag_of (c0 :: rest) author row) inner) m))
      as [m' [E [G O]]].
    exists m'. repeat split; [exact E | exact G |].
    intros k Hne. rewrite (O k Hne).
    apply DictFacts.get_set_ne. congruence.
Qed.

Lemma inner_of_keeps cols author a rs init :
  (forall r, In r rs -> attr_key r <> a) ->
  Dict.get a (inner_of cols author rs init) = Dict.get a init.
Proof.
  unfold inner_of. revert init.
  induction rs as [|r rs IH]; simpl; intros init H; [reflexivity|].
  rewrite IH by (intros r' Hr'; apply H; right; exact Hr').
  apply DictFacts.get_set_ne. apply H. left. reflexivity.
Qed.

Lemma inner_of_last cols author pre row post init :
  (forall r, In r post -> attr_key r <> attr_key row) ->
  Dict.get (attr_key row) (inner_of cols author (pre ++ row :: post) init)
  = Some (flag_of cols author row).
Proof.
  intros H. unfold inner_of. rewrite fold_left_app. simpl.
  fold (inner_of cols author pre init).
  change (fold_left _ post ?i) with (inner_of cols author post i).
  rewrite (inner_of_keeps _ _ _ _ _ H). apply DictFacts.get_set_eq.
Qed.

Lemma medical_authors_spec df c0 rest authors :
  columns df = c0 :: rest ->
  (forall a, In a authors -> index_of a (c0 :: rest) <> None) ->
  forall m, exists m',
    medical_authors df m authors = Ok m' /\
    (forall k, (forall a, In a authors -> source_key a <> k) ->
       Dict.get k m' = Dict.get k m) /\
    (forall a, In a authors ->
       (forall a2, In a2 authors -> source_key a2 = source_key a -> a2 = a) ->
       Dict.get (source_key a) m'
       = Some (inner_of (c0 :: rest) a (rows df) [])).
Proof.
  intros Hc. induction authors as [|a0 authors IH]; intros Hidx m.
  - exists m. simpl. split; [reflexivity|]. split; [reflexivity|].
    intros a [].
  - simpl. unfold medical_author at 1. rewrite Hc.
    fold (source_key a0).
    destruct (medical_rows_spec c0 rest a0 (source_key a0) (rows df)
                (Hidx a0 (or_introl eq_refl))
                (Dict.set (source_key a0) [] m) []
                (DictFacts.get_set_eq _ _ _)) as [m1 [E1 [G1 O1]]].
    rewrite E1. simpl.
    destruct (IH (fun a Ha => Hidx a (or_intror Ha)) m1) as [m' [E [O G]]].
    exists m'. split; [exact E|]. split.
    + intros k Hk. rewrite O by (intros a Ha; apply Hk; right; exact Ha).
      assert (Hne : k <> source_key a0).
      { intros ->. exact (Hk a0 (or_introl eq_refl) eq_refl). }
      rewrite (O1 k Hne). apply DictFacts.get_set_ne. congruence.
    + intros a Ha Huniq.
      destruct (in_dec string_dec a authors) as [Hin|Hnin].
      * apply (G a Hin). intros a2 Ha2. apply Huniq. right. exact Ha2.
      * destruct Ha as [<-|Ha]; [|contradiction].
        rewrite O; [exact G1|].
        intros a2 Ha2 Hk. apply Hnin.
        rewrite <- (Huniq a2 (or_intror Ha2) Hk). exact Ha2.
Qed.

Lemma normalized_column_is_its_key df a :
  In a (columns (normalize_columns df)) -> source_key a = a.
Proof.
  simpl. rewrite in_map_iff. intros [c [<- _]]. unfold source_key.
  rewrite PyStrFacts.lower_idem, PyStrFacts.lower_strip.
  apply PyStrFacts.strip_idem.
Qed.

Lemma In_tl {A : Type} (x : A) (l : list A) : In x (tl l) -> In x l.
Proof. destruct l; simpl; auto. Qed.

(** C5 as the specification words it, refuted: the cell [" Missing "] is,
    once trimmed and lower-cased, the word [missing], and yet the flag
    recorded for [name] is true. *)
Lemma padded_missing_counts_as_present :
  PyStr.lower (PyStr.strip " Missing ") = "missing" /\
  load_ground_truth padded_env "medical-schema-matching" "gt.csv" "data"
  = Ok (GTNested [("sourcea", [("age", true); ("name", true); ("sex", false)])]).
Proof. split; reflexivity. Qed.

(** C5, as the code has it.  For a readable table whose normalized column
    labels are pairwise distinct, the nested loader returns an index in
    which, for every source column and every row that
    is the last one of its attribute name, the flag filed under the source
    key and the trimmed attribute name is false exactly when the text of
    the cell, lower-cased and not trimmed, is [missing] or [nan]. *)
Theorem should_exist_flag_recorded :
  forall (env : Env) (gt_path dataset_dir : string) (df : DataFrame),
    PyStr.is_empty gt_path = false ->
    path_exists env gt_path = true ->
    read_csv env gt_path = Ok df ->
    NoDup (columns (normalize_columns df)) ->
    exists gt_map,
      load_ground_truth env "medical-schema-matching" gt_path dataset_dir
      = Ok (GTNested gt_map) /\
      forall author pre row post,
        In author (tl (columns (normalize_columns df))) ->
        rows df = pre ++ row :: post ->
        (forall r, In r post -> attr_key r <> attr_key row) ->
        exists inner flag,
          Dict.get (PyStr.strip (PyStr.lower author)) gt_map = Some inner /\
          Dict.get (attr_key row) inner = Some flag /\
          (flag = false <->
           PyStr.lower (cell_str (col_cell (columns (normalize_columns df))
                                           row author)) = "missing" \/
           PyStr.lower (cell_str (col_cell (columns (normalize_columns df))
                                           row author)) = "nan").
Proof.
  intros env gt_path dataset_dir df Hp Hex Hread _.
  unfold load_ground_truth. rewrite Hp, Hex, Hread. simpl orb. cbv iota.
  change (String.eqb "medical-schema-matching" "enron") with false.
  change (String.eqb "medical-schema-matching" "real-estate") with false.
  change (String.eqb "medical-schema-matching" "medical-schema-matching")
    with true.
  cbv iota beta zeta.
  set (ndf := normalize_columns df).
  destruct (columns ndf) as [|c0 rest] eqn:Ec.
  - exists []. simpl. split; [reflexivity|]. intros author pre row post [].
  - assert (Hidx : forall a, In a (tl (c0 :: rest)) ->
                     index_of a (c0 :: rest) <> None).
    { intros a Ha. apply index_of_In. right. exact Ha. }
    destruct (medical_authors_spec ndf c0 rest (tl (c0 :: rest)) Ec Hidx [])
      as [m' [E [_ G]]].
    exists m'. rewrite E. split; [reflexivity|].
    intros author pre row post Ha Hrows Hlast.
    assert (Hkey : forall a, In a (tl (c0 :: rest)) -> source_key a = a).
    { intros a Hin. apply (normalized_column_is_its_key df).
      fold ndf. rewrite Ec. right. exact Hin. }
    exists (inner_of (c0 :: rest) author (rows ndf) []),
           (flag_of (c0 :: rest) author row).
    split; [|split].
    + apply (G author Ha). intros a2 Ha2 Hk.
      rewrite (Hkey a2 Ha2), (Hkey author Ha) in Hk. exact Hk.
    + change (rows ndf) with (rows df). rewrite Hrows.
      apply inner_of_last. exact Hlast.
    + apply should_exist_false_iff.
Qed.

Lemma should_exist_flag_recorded_witness :
  exists gt_map inner,
    load_ground_truth padded_env "medical-schema-matching" "gt.csv" "data"
    = Ok (GTNested gt_map) /\
    Dict.get "sourcea" gt_map = Some inner /\
    Dict.get "sex" inner = Some false.
Proof.
  destruct (should_exist_flag_recorded padded_env "gt.csv" "data"
              {| columns := ["target_attribute"; "sourceA"];
                 rows := [[CStr "age"; CStr "1"];
                          [CStr "name"; CStr " Missing "];
                          [CStr "sex"; CStr "Missing"]] |}
              eq_refl eq_refl eq_refl
              ltac:(repeat constructor; simpl; intuition discriminate))
    as [gt_map [Hl Hrec]].
  destruct (Hrec "sourcea"
              [[CStr "age"; CStr "1"]; [CStr "name"; CStr " Missing "]]
              [CStr "sex"; CStr "Missing"] []
              (or_introl eq_refl) eq_refl (fun r (H : In r []) => match H with end))
    as [inner [flag [Hk [Ha Hf]]]].
  exists gt_map, inner. split; [exact Hl|]. split; [exact Hk|].
  refine (eq_trans Ha _). f_equal. apply Hf. left. reflexivity.
Defined.

(* ===================================================================== *)
(** ** Scoring a flat index *)
(* ===================================================================== *)

Lemma flat_workload_binary (workload : string) :
  is_flat_workload workload = true -> avg_method workload = Sklearn.Binary.
Proof.
  intros H. destruct (flat_workload_cases workload H) as [-> | ->];
    reflexivity.
Qed.

Lemma build_vectors_flat results d workload :
  is_flat_workload workload = true ->
  build_vectors results (GTFlat d) workload
  = (predicted <- predicted_positives (key_attr_of workload) results ;;
     Ok (flat_vectors d predicted)).
Proof. intros H. unfold build_vectors. rewrite H. reflexivity. Qed.

Lemma count_where_diag f (y : list Z) :
  Sklearn.count_where f y y
  = Z.of_nat (length (filter (fun t => f t t) y)).
Proof.
  unfold Sklearn.count_where. f_equal.
  induction y as [|t y IH]; simpl; [reflexivity|].
  destruct (f t t); simpl; rewrite IH; reflexivity.
Qed.

Lemma ratio_same (z : Z) : (0 < z)%Z -> Sklearn.ratio z z = 1%Q.
Proof.
  intros Hz. destruct z as [|p|p]; try lia. unfold Sklearn.ratio.
  change 1%Q with (Qred 1). apply Qred_complete.
  unfold Qeq. simpl. lia.
Qed.

Section BinaryLabels.
Variable y : list Z.
Hypothesis binary : forall z, In z y -> z = 0%Z \/ z = 1%Z.
Hypothesis positive : In 1%Z y.

Lemma binary_check : Sklearn.check Sklearn.Binary y y = Ok tt.
Proof.
  unfold Sklearn.check. rewrite Nat.eqb_refl. cbn [negb].
  set (present := Sklearn.present_labels y y).
  assert (Hlen : length present <= 2).
  { apply (NoDup_incl_length (l' := [0%Z; 1%Z])).
    - apply NoDup_nodup.
    - intros z Hz. apply nodup_In, in_app_or in Hz.
      destruct (binary z) as [-> | ->]; [tauto | left | right; left];
        reflexivity. }
  assert (Hone : existsb Sklearn.is_one present = true).
  { apply existsb_exists. exists 1%Z. split; [|reflexivity].
    apply nodup_In, in_or_app. left. exact positive. }
  rewrite Hone, andb_false_r.
  destruct (2 <? length present) eqn:E; [|reflexivity].
  apply Nat.ltb_lt in E. lia.
Qed.

Lemma ones_positive :
  (0 < Z.of_nat (length (filter Sklearn.is_one y)))%Z.
Proof.
  assert (H : In 1%Z (filter Sklearn.is_one y))
    by (apply filter_In; split; [exact positive | reflexivity]).
  destruct (filter Sklearn.is_one y); [contradiction | simpl; lia].
Qed.

(** A prediction that repeats the labels scores 1.0 three times. *)
Lemma scores_of_identical_vectors :
  Sklearn.precision_score y y Sklearn.Binary = Ok 1%Q /\
  Sklearn.recall_score y y Sklearn.Binary = Ok 1%Q /\
  Sklearn.f1_score y y Sklearn.Binary = Ok 1%Q.
Proof.
  unfold Sklearn.precision_score, Sklearn.recall_score, Sklearn.f1_score.
  rewrite binary_check. cbn [bind].
  unfold Sklearn.tp1, Sklearn.pred1, Sklearn.true1.
  rewrite !count_where_diag.
  rewrite (filter_ext (fun t => Sklearn.is_one t && Sklearn.is_one t)
             Sklearn.is_one) by (intros t; apply andb_diag).
  pose proof ones_positive as Hpos.
  set (c := Z.of_nat (length (filter Sklearn.is_one y))) in *.
  replace (2 * c)%Z with (c + c)%Z by lia.
  rewrite !ratio_same by lia. repeat split; reflexivity.
Qed.

End BinaryLabels.

(** A flat index with 0/1 labels and at least one 1, scored against
    predictions that hit exactly the entries labeled 1: this covers
    scenario 1 of the specification. *)
Lemma positives_predicted_scores_one workload results d predicted :
  is_flat_workload workload = true ->
  predicted_positives (key_attr_of workload) results = Ok predicted ->
  (forall k label, In (k, label) d -> label = 0%Z \/ label = 1%Z) ->
  (exists k, In (k, 1%Z) d) ->
  (forall k label, In (k, label) d -> (In k predicted <-> label = 1%Z)) ->
  compute_f1_exit results (GTFlat d) workload
  = Ok (ExitScored (map snd d) (map snd d) 1%Q 1%Q 1%Q).
Proof.
  intros Hflat Hpred Hbin [k1 Hk1] Hhit. unfold compute_f1_exit.
  assert (He : gt_is_empty (GTFlat d) = false)
    by (destruct d; [contradiction | reflexivity]).
  rewrite He, (build_vectors_flat _ _ _ Hflat), Hpred.
  cbn [bind]. unfold flat_vectors.
  assert (Hy : map (fun item : string * Z =>
                      if PyStr.mem (fst item) predicted then 1%Z else 0%Z) d
               = map snd d).
  { apply map_ext_in. intros [k l] Hin. cbn [fst snd].
    destruct (PyStr.mem k predicted) eqn:E.
    - apply PyStrFacts.mem_In in E. symmetry. apply (Hhit k l Hin). exact E.
    - destruct (Hbin k l Hin) as [-> | ->]; [reflexivity|].
      assert (Hm : PyStr.mem k predicted = true)
        by (apply PyStrFacts.mem_In, (Hhit k 1%Z Hin); reflexivity).
      congruence. }
  rewrite Hy, (flat_workload_binary _ Hflat).
  assert (Hbin' : forall z, In z (map snd d) -> z = 0%Z \/ z = 1%Z).
  { intros z Hz. apply in_map_iff in Hz. destruct Hz as [[k l] [<- Hin]].
    exact (Hbin k l Hin). }
  assert (Hone : In 1%Z (map snd d))
    by (apply (in_map snd d (k1, 1%Z)); exact Hk1).
  destruct (scores_of_identical_vectors (map snd d) Hbin' Hone)
    as [Hp [Hr Hf]].
  rewrite Hp, Hr, Hf. cbn [bind].
  destruct (map snd d) eqn:Em; [contradiction | reflexivity].
Qed.

(** C6 as the specification words it, refuted: the predicted identifiers
    are exactly the keys of the index, one label is 0, and precision is
    one half and F1 two thirds. *)
Lemma exact_match_with_negative_label :
  predicted_positives "filename" both_predicted
    = Ok (Dict.keys [("a.txt", 1%Z); ("b.txt", 0%Z)]) /\
  compute_f1_exit both_predicted (GTFlat [("a.txt", 1%Z); ("b.txt", 0%Z)])
                  "enron"
    = Ok (ExitScored [1; 0]%Z [1; 1]%Z (1 # 2)%Q 1%Q (2 # 3)%Q) /\
  compute_f1 both_predicted (GTFlat [("a.txt", 1%Z); ("b.txt", 0%Z)]) "enron"
    = Ok (2 # 3)%Q.
Proof. repeat split; reflexivity. Qed.

(** C6, as the code has it.  For a flat workload and a non-empty index
    whose labels are all 1, predicted identifiers that are exactly the
    keys of the index give precision, recall and F1 equal to 1.0. *)
Theorem exact_match_all_positive :
  forall (workload : string) (results : list pyval) (d : Dict.t Z)
         (predicted : list string),
    is_flat_workload workload = true ->
    d <> [] ->
    predicted_positives (key_attr_of workload) results = Ok predicted ->
    (forall k, In k predicted <-> In k (Dict.keys d)) ->
    (forall k label, In (k, label) d -> label = 1%Z) ->
    exists y_true y_pred,
      compute_f1_exit results (GTFlat d) workload
        = Ok (ExitScored y_true y_pred 1%Q 1%Q 1%Q) /\
      compute_f1 results (GTFlat d) workload = Ok 1%Q.
Proof.
  intros workload results d predicted Hflat Hne Hpred Hkeys Hlabels.
  assert (Hexit : compute_f1_exit results (GTFlat d) workload
                  = Ok (ExitScored (map snd d) (map snd d) 1%Q 1%Q 1%Q)).
  { apply (positives_predicted_scores_one _ _ _ predicted Hflat Hpred).
    - intros k l Hin. right. exact (Hlabels k l Hin).
    - destruct d as [|[k l] d']; [contradiction|]. exists k.
      rewrite <- (Hlabels k l (or_introl eq_refl)). left. reflexivity.
    - intros k l Hin. split; [intros _; exact (Hlabels k l Hin)|].
      intros _. apply Hkeys. unfold Dict.keys.
      apply (in_map fst d (k, l)). exact Hin. }
  eexists _, _. split; [exact Hexit|].
  unfold compute_f1. rewrite Hexit. reflexivity.
Qed.

Lemma exact_match_all_positive_witness :
  compute_f1 both_predicted (GTFlat [("a.txt", 1%Z); ("b.txt", 1%Z)]) "enron"
  = Ok 1%Q.
Proof.
  destruct (exact_match_all_positive "enron" both_predicted
              [("a.txt", 1%Z); ("b.txt", 1%Z)] ["a.txt"; "b.txt"]
              eq_refl) as [y_true [y_pred [_ H]]].
  - discriminate.
  - reflexivity.
  - intros k. reflexivity.
  - intros k label [H|[H|[]]]; congruence.
  - exact H.
Defined.

Lemma predicted_positives_app key_attr l1 l2 :
  predicted_positives key_attr (l1 ++ l2)
  = (p1 <- predicted_positives key_attr l1 ;;
     p2 <- predicted_positives key_attr l2 ;;
     Ok (p1 ++ p2)).
Proof.
  induction l1 as [|r l1 IH]; simpl.
  - destruct (predicted_positives key_attr l2); reflexivity.
  - destruct (hasattr r key_attr); [|exact IH].
    destruct (getattr r key_attr) as [v|]; simpl; [|reflexivity].
    destruct (py_strip v) as [s|]; simpl; [|reflexivity].
    rewrite IH.
    destruct (predicted_positives key_attr l1); simpl; [|reflexivity].
    destruct (predicted_positives key_attr l2); reflexivity.
Qed.

Lemma predicted_positives_returns key_attr results :
  (forall r, In r results -> hasattr r key_attr = true ->
     exists s, getattr r key_attr = Ok (PStr s)) ->
  exists predicted, predicted_positives key_attr results = Ok predicted.
Proof.
  induction results as [|r results IH]; simpl; intros H; [eauto|].
  destruct IH as [rest Hrest]; [intros r' Hr'; apply H; right; exact Hr'|].
  destruct (hasattr r key_attr) eqn:E; [|eauto].
  destruct (H r (or_introl eq_refl) E) as [s ->]. simpl.
  rewrite Hrest. simpl. eauto.
Qed.

Lemma mem_app x l1 l2 :
  PyStr.mem x (l1 ++ l2) = PyStr.mem x l1 || PyStr.mem x l2.
Proof. apply existsb_app. Qed.

Lemma flat_vectors_ignore_unlabeled d p1 s p2 :
  ~ In s (Dict.keys d) ->
  flat_vectors d (p1 ++ s :: p2) = flat_vectors d (p1 ++ p2).
Proof.
  intros Hs. unfold flat_vectors. f_equal. apply map_ext_in.
  intros [k l] Hin. cbn [fst].
  rewrite !mem_app. cbn [PyStr.mem existsb].
  assert (E : String.eqb k s = false).
  { apply String.eqb_neq. intros ->. apply Hs. unfold Dict.keys.
    apply (in_map fst d (s, l)). exact Hin. }
  rewrite E. reflexivity.
Qed.

Lemma build_vectors_ignore_unlabeled workload d pre extra post :
  is_flat_workload workload = true ->
  unlabeled d (key_attr_of workload) extra ->
  build_vectors (pre ++ extra :: post) (GTFlat d) workload
  = build_vectors (pre ++ post) (GTFlat d) workload.
Proof.
  intros Hflat Hun. rewrite !(build_vectors_flat _ _ _ Hflat).
  rewrite !predicted_positives_app.
  destruct (predicted_positives _ pre) as [p1|]; simpl; [|reflexivity].
  destruct Hun as [Hno | [s [Hs Hnot]]].
  - rewrite Hno. reflexivity.
  - assert (Hhas : hasattr extra (key_attr_of workload) = true).
    { unfold hasattr, getattr in *. destruct extra; try discriminate.
      destruct (Dict.get _ attrs); [reflexivity | discriminate]. }
    rewrite Hhas, Hs. simpl.
    destruct (predicted_positives _ post) as [p2|]; simpl; [|reflexivity].
    rewrite (flat_vectors_ignore_unlabeled d p1 _ p2 Hnot). reflexivity.
Qed.

(** C10.  For a flat workload the two vectors are read off the entries of
    the index: they exist as soon as every key attribute among the records
    is a string, both are as long as the index, and a record whose
    identifier is no key of the index, wherever it stands among the
    results, changes neither the vectors nor the score. *)
Theorem flat_vectors_follow_index :
  forall (workload : string) (d : Dict.t Z) (results : list pyval),
    is_flat_workload workload = true ->
    ((forall r, In r results -> hasattr r (key_attr_of workload) = true ->
        exists s, getattr r (key_attr_of workload) = Ok (PStr s)) ->
     exists y_true y_pred,
       build_vectors results (GTFlat d) workload = Ok (y_true, y_pred)) /\
    (forall y_true y_pred,
       build_vectors results (GTFlat d) workload = Ok (y_true, y_pred) ->
       length y_true = length d /\ length y_pred = length d) /\
    (forall pre extra post,
       results = pre ++ post ->
       unlabeled d (key_attr_of workload) extra ->
       build_vectors (pre ++ extra :: post) (GTFlat d) workload
         = build_vectors results (GTFlat d) workload /\
       compute_f1_exit (pre ++ extra :: post) (GTFlat d) workload
         = compute_f1_exit results (GTFlat d) workload /\
       compute_f1 (pre ++ extra :: post) (GTFlat d) workload
         = compute_f1 results (GTFlat d) workload).
Proof.
  intros workload d results Hflat. split; [|split].
  - intros Hstr. rewrite (build_vectors_flat _ _ _ Hflat).
    destruct (predicted_positives_returns _ _ Hstr) as [predicted ->].
    simpl. unfold flat_vectors. eexists _, _. reflexivity.
  - intros y_true y_pred. rewrite (build_vectors_flat _ _ _ Hflat).
    destruct (predicted_positives _ results) as [predicted|]; simpl;
      [|discriminate].
    unfold flat_vectors. intros H. injection H as <- <-.
    rewrite !length_map. split; reflexivity.
  - intros pre extra post -> Hun.
    pose proof (build_vectors_ignore_unlabeled workload d pre extra post
                  Hflat Hun) as Hb.
    assert (He : compute_f1_exit (pre ++ extra :: post) (GTFlat d) workload
                 = compute_f1_exit (pre ++ post) (GTFlat d) workload).
    { unfold compute_f1_exit. rewrite Hb. reflexivity. }
    split; [exact Hb|]. split; [exact He|].
    unfold compute_f1. rewrite He. reflexivity.
Qed.

Lemma flat_vectors_follow_index_witness :
  compute_f1 [PObj [("filename", PStr "a.txt")];
              PObj [("filename", PStr " zzz.txt ")]]
             (GTFlat [("a.txt", 1%Z); ("b.txt", 0%Z)]) "enron"
  = compute_f1 [PObj [("filename", PStr "a.txt")]]
               (GTFlat [("a.txt", 1%Z); ("b.txt", 0%Z)]) "enron".
Proof.
  destruct (flat_vectors_follow_index "enron"
              [("a.txt", 1%Z); ("b.txt", 0%Z)]
              [PObj [("filename", PStr "a.txt")]] eq_refl) as [_ [_ H]].
  refine (proj2 (proj2 (H [PObj [("filename", PStr "a.txt")]]
                          (PObj [("filename", PStr " zzz.txt ")]) []
                          eq_refl _))).
  right. exists " zzz.txt ". split; [reflexivity|].
  intros [H1|[H1|[]]]; discriminate H1.
Defined.

(* ===================================================================== *)
(** ** Telemetry of a run *)
(* ===================================================================== *)

Lemma probe_first_alias obj aliases current :
  exists found,
    first_alias obj aliases found /\
    probe obj aliases current
    = match found with Some val => val | None => current end.
Proof.
  induction aliases as [|attr aliases [found [Hf Hp]]]; simpl.
  - exists None. split; [constructor | reflexivity].
  - destruct (getattr_default obj attr PNone) eqn:E;
      try (eexists (Some _); split;
           [apply fa_here; [exact E | discriminate] | reflexivity]).
    exists found. split; [apply fa_later; assumption | exact Hp].
Qed.

Lemma try_except_pass_ok {S : Type} (body : S -> S * result unit) locals :
  snd (try_except_pass body locals) = Ok tt.
Proof.
  unfold try_except_pass. destruct (body locals) as [l [[]|e]]; reflexivity.
Qed.

Lemma try_except_pass_locals {S : Type} (body : S -> S * result unit) locals :
  fst (try_except_pass body locals) = fst (body locals).
Proof.
  unfold try_except_pass. destruct (body locals) as [l [[]|e]]; reflexivity.
Qed.

Lemma telemetry_with_stats res first_ps locals :
  first_plan_stats res = Some first_ps ->
  telemetry_body res locals
  = ((probe first_ps cost_aliases (fst locals),
      probe first_ps time_aliases (snd locals)), Ok tt).
Proof.
  unfold first_plan_stats, telemetry_body, run_obj, getattr_default.
  cbn [getattr].
  destruct (Dict.get "execution_stats" (run_attrs res)) as [es|];
    [|discriminate].
  destruct es as [| | | |es_attrs]; try discriminate. cbn [getattr is_none].
  destruct (Dict.get "plan_stats" es_attrs) as [ps|]; [|discriminate].
  destruct ps as [| | |items|]; try discriminate.
  destruct items as [|[k v] items]; [discriminate|].
  intros H. injection H as ->. reflexivity.
Qed.

Lemma telemetry_without_stats res locals :
  first_plan_stats res = None ->
  fst (telemetry_body res locals) = locals.
Proof.
  unfold first_plan_stats, telemetry_body, run_obj, getattr_default.
  cbn [getattr].
  destruct (Dict.get "execution_stats" (run_attrs res)) as [es|];
    [|reflexivity].
  destruct es as [| | | |es_attrs]; try reflexivity. cbn [getattr is_none].
  destruct (Dict.get "plan_stats" es_attrs) as [ps|]; [|reflexivity].
  destruct ps as [|q|s|items|attrs]; try reflexivity.
  - cbn. destruct (Qeq_bool q 0); reflexivity.
  - cbn. destruct s; reflexivity.
  - destruct items as [|[k v] items]; [reflexivity | discriminate].
Qed.

(** C7.  The [try] statement that reads cost and time never raises.  With
    a first per-plan stats entry, each of the two is the value of the
    first alias of its list that the entry has and that is not [None],
    and [0.0] when no alias is; without such an entry, be the statistics
    absent or not a mapping, both are [0.0]. *)
Theorem telemetry_extraction_lenient :
  forall (res : RunOutput),
    snd (extract_telemetry res) = Ok tt /\
    (forall first_ps, first_plan_stats res = Some first_ps ->
       exists cost_found time_found,
         first_alias first_ps cost_aliases cost_found /\
         first_alias first_ps time_aliases time_found /\
         fst (extract_telemetry res)
         = (match cost_found with Some val => val | None => PNum 0 end,
            match time_found with Some val => val | None => PNum 0 end)) /\
    (first_plan_stats res = None ->
       fst (extract_telemetry res) = (PNum 0, PNum 0)).
Proof.
  intros res. unfold extract_telemetry. split; [|split].
  - apply try_except_pass_ok.
  - intros first_ps H. rewrite try_except_pass_locals.
    rewrite (telemetry_with_stats res first_ps _ H). cbn [fst snd].
    destruct (probe_first_alias first_ps cost_aliases (PNum 0))
      as [cf [Hc ->]].
    destruct (probe_first_alias first_ps time_aliases (PNum 0))
      as [tf [Ht ->]].
    exists cf, tf. repeat split; assumption.
  - intros H. rewrite try_except_pass_locals.
    apply telemetry_without_stats. exact H.
Qed.

Lemma telemetry_extraction_lenient_witness :
  extract_telemetry sample_run = ((PNum 5, PNum 3), Ok tt) /\
  exists cost_found,
    first_alias (PObj [("total_cost", PNum 5); ("plan_time", PNum 3);
                       ("plan_str", PStr "scan")])
                cost_aliases cost_found.
Proof.
  destruct (telemetry_extraction_lenient sample_run) as [_ [H _]].
  destruct (H _ eq_refl) as [cf [tf [Hc _]]].
  split; [reflexivity|]. exists cf. exact Hc.
Defined.

(* ===================================================================== *)
(** ** The reporting pass *)
(* ===================================================================== *)


Section ReporterFacts.
Variable sys : Sys.
Variables (gt_data : gt_index) (plan_details_dir workload : string).

Local Abbreviation run1 := (process_run sys gt_data plan_details_dir workload).
Local Abbreviation runs := (process_runs sys gt_data plan_details_dir workload).

Lemma process_run_unfold idx res :
  run1 idx res
  = match run_frame res with
    | Raise e => ([], Raise e)
    | Ok _ =>
        match compute_f1 (run_records res) gt_data workload with
        | Raise e => ([], Raise e)
        | Ok f1 =>
            match plan_text res with
            | Raise e => ([], Raise e)
            | Ok plan_texts =>
                (fst (write_plan sys
                        (Path.join plan_details_dir (plan_file_name idx))
                        plan_texts),
                 Ok {| Workload := workload;
                       Strategy := strategy_label idx;
                       Time_s := snd (fst (extract_telemetry res));
                       Cost := fst (fst (extract_telemetry res));
                       F1_Score := f1;
                       Plan_File := plan_file_name idx |})
            end
        end
    end.
Proof.
  unfold process_run.
  pose proof (try_except_pass_ok (telemetry_body res) (PNum 0, PNum 0)) as Hs.
  fold (extract_telemetry res) in Hs.
  destruct (extract_telemetry res) as [[cost time_sec] r]. simpl in Hs.
  subst r. unfold io_lift, io_bind, io_ret. cbn [fst snd].
  destruct (run_frame res) as [[]|e]; [|reflexivity].
  destruct (compute_f1 _ _ _) as [f1|e]; [|reflexivity].
  destruct (plan_text res) as [v|e]; [|reflexivity].
  unfold write_plan.
  destruct (can_open sys _); [destruct v|]; reflexivity.
Qed.


Lemma process_runs_app idx l1 l2 acc :
  runs idx (l1 ++ l2) acc
  = match runs idx l1 acc with
    | (log1, Ok acc') =>
        let (log2, r) := runs (length l1 + idx) l2 acc' in (log1 ++ log2, r)
    | (log1, Raise e) => (log1, Raise e)
    end.
Proof.
  revert idx acc.
  induction l1 as [|res l1 IH]; intros idx acc; simpl.
  - destruct (runs idx l2 acc). reflexivity.
  - unfold io_bind.
    destruct (run1 idx res) as [log0 [row|e]]; [|reflexivity].
    rewrite IH. rewrite <- plus_n_Sm.
    destruct (runs (S idx) l1 (acc ++ [row])) as [log1 [acc'|e]];
      [|reflexivity].
    destruct (runs (S (length l1 + idx)) l2 acc') as [log2 r].
    rewrite app_assoc. reflexivity.
Qed.

Lemma process_run_no_table idx res e :
  In e (fst (run1 idx res)) -> writes_table e = false.
Proof.
  rewrite process_run_unfold.
  destruct (run_frame res) as [[]|e1]; [|intros []].
  destruct (compute_f1 _ _ _) as [f1|e2]; [|intros []].
  destruct (plan_text res) as [v|e3]; [|intros []].
  cbn [fst]. unfold write_plan.
  destruct (can_open sys _); [|intros []].
  destruct v; intros [<-|[]]; reflexivity.
Qed.

Lemma process_runs_no_table idx l acc e :
  In e (fst (runs idx l acc)) -> writes_table e = false.
Proof.
  revert idx acc.
  induction l as [|res l IH]; intros idx acc; simpl; [intros []|].
  unfold io_bind.
  pose proof (process_run_no_table idx res e) as H1.
  destruct (run1 idx res) as [log0 [row|e0]]; cbn [fst] in *; [|exact H1].
  specialize (IH (S idx) (acc ++ [row])).
  destruct (runs (S idx) l (acc ++ [row])) as [log1 r].
  cbn [fst] in *. intros Hin. apply in_app_or in Hin.
  destruct Hin; auto.
Qed.


End ReporterFacts.

Lemma io_bind_raise {A B : Type} (log : list event) (e : exn)
    (k : A -> io B) :
  io_bind (log, Raise e) k = (log, Raise e).
Proof. reflexivity. Qed.




(* ===================================================================== *)
(** ** Plan files and summary rows *)
(* ===================================================================== *)

Lemma of_nat_no_slash (n : nat) :
  Path.starts_with_slash (PyStr.of_nat n) = false.
Proof.
  unfold PyStr.of_nat. pose proof (PyStrFacts.to_uint_nonnil n) as H.
  destruct (Nat.to_uint n); [contradiction | ..]; reflexivity.
Qed.

Lemma plan_file_name_no_slash (idx : nat) :
  Path.starts_with_slash (plan_file_name idx) = false.
Proof.
  unfold plan_file_name. pose proof (of_nat_no_slash idx) as H.
  destruct (PyStr.of_nat idx); [reflexivity | exact H].
Qed.

Lemma plan_file_name_inj (i j : nat) :
  plan_file_name i = plan_file_name j -> i = j.
Proof.
  unfold plan_file_name. intros H.
  apply PyStrFacts.append_inj_r in H. exact (PyStrFacts.of_nat_inj _ _ H).
Qed.

(** Two runs never share a plan file. *)
Lemma plan_path_inj (dir : string) (i j : nat) :
  Path.join dir (plan_file_name i) = Path.join dir (plan_file_name j) ->
  i = j.
Proof.
  unfold Path.join. rewrite !plan_file_name_no_slash.
  destruct (PyStr.is_empty dir || Path.ends_with_slash dir); intros H.
  - apply PyStrFacts.append_inj_l in H. exact (plan_file_name_inj _ _ H).
  - apply PyStrFacts.append_inj_l in H.
    apply (PyStrFacts.append_inj_l "/") in H.
    exact (plan_file_name_inj _ _ H).
Qed.

Lemma file_content_app log1 log2 path :
  file_content (log1 ++ log2) path
  = match file_content log2 path with
    | Some c => Some c
    | None => file_content log1 path
    end.
Proof.
  induction log1 as [|ev log1 IH]; simpl.
  - destruct (file_content log2 path); reflexivity.
  - rewrite IH. destruct (file_content log2 path); reflexivity.
Qed.

Lemma file_content_untouched log path :
  (forall ev, In ev log -> writes_to path ev = false) ->
  file_content log path = None.
Proof.
  induction log as [|ev log IH]; simpl; intros H; [reflexivity|].
  rewrite IH by (intros ev' H'; apply H; right; exact H').
  specialize (H ev (or_introl eq_refl)).
  destruct ev; simpl in H; try rewrite H; reflexivity.
Qed.

Lemma file_content_last_write log1 log2 path txt :
  (forall ev, In ev log2 -> writes_to path ev = false) ->
  file_content (log1 ++ EWriteText path txt :: log2) path = Some (Text txt).
Proof.
  intros H. rewrite file_content_app. cbn [file_content].
  rewrite (file_content_untouched log2 path H), String.eqb_refl.
  reflexivity.
Qed.

Section PlanFiles.
Variable sys : Sys.
Variables (gt_data : gt_index) (plan_details_dir workload : string).

Local Abbreviation run1 := (process_run sys gt_data plan_details_dir workload).
Local Abbreviation runs := (process_runs sys gt_data plan_details_dir workload).
Local Abbreviation plan_path := (fun idx => Path.join plan_details_dir (plan_file_name idx)).

(** What one run leaves behind when it succeeds. *)
Lemma process_run_ok idx res log row :
  run1 idx res = (log, Ok row) ->
  Plan_File row = plan_file_name idx /\
  Strategy row = strategy_label idx /\
  exists plan_texts,
    plan_text res = Ok plan_texts /\
    log = fst (write_plan sys (plan_path idx) plan_texts).
Proof.
  rewrite process_run_unfold.
  destruct (run_frame res) as [[]|e]; [|discriminate].
  destruct (compute_f1 _ _ _) as [f1|e]; [|discriminate].
  destruct (plan_text res) as [v|e]; [|discriminate].
  intros H. injection H as <- <-. cbn. eauto.
Qed.

Lemma process_run_writes idx res ev :
  In ev (fst (run1 idx res)) ->
  exists text, ev = EWriteText (plan_path idx) text.
Proof.
  rewrite process_run_unfold.
  destruct (run_frame res) as [[]|e1]; [|intros []].
  destruct (compute_f1 _ _ _) as [f1|e2]; [|intros []].
  destruct (plan_text res) as [v|e3]; [|intros []].
  cbn [fst]. unfold write_plan.
  destruct (can_open sys _); [|intros []].
  destruct v; intros [<-|[]]; eauto.
Qed.

(** The runs from [idx] on leave the plan files of earlier runs alone. *)
Lemma process_runs_leave_earlier idx l acc j ev :
  j < idx -> In ev (fst (runs idx l acc)) ->
  writes_to (plan_path j) ev = false.
Proof.
  revert idx acc. induction l as [|res l IH]; intros idx acc Hj; simpl;
    [intros []|].
  unfold io_bind.
  pose proof (process_run_writes idx res ev) as H1.
  destruct (run1 idx res) as [log0 [row|e0]]; cbn [fst] in *.
  - specialize (IH (S idx) (acc ++ [row]) (Nat.lt_lt_succ_r _ _ Hj)).
    destruct (runs (S idx) l (acc ++ [row])) as [log1 r]. cbn [fst] in *.
    intros Hin. apply in_app_or in Hin. destruct Hin as [Hin|Hin]; [|auto].
    destruct (H1 Hin) as [text ->]. simpl. apply String.eqb_neq.
    intros E. apply plan_path_inj in E. lia.
  - intros Hin. destruct (H1 Hin) as [text ->]. simpl. apply String.eqb_neq.
    intros E. apply plan_path_inj in E. lia.
Qed.

(** The rows of a pass that succeeds, one per run and in their order, and
    the write of each plan file, which no later run undoes. *)
Lemma process_runs_ok idx l acc log table :
  runs idx l acc = (log, Ok table) ->
  exists rows,
    table = acc ++ rows /\ length rows = length l /\
    forall i res, nth_error l i = Some res ->
      exists row plan_texts,
        nth_error rows i = Some row /\
        Plan_File row = plan_file_name (idx + i) /\
        Strategy row = strategy_label (idx + i) /\
        plan_text res = Ok plan_texts /\
        forall txt, plan_texts = PStr txt ->
          can_open sys (plan_path (idx + i)) = true ->
          exists log1 log2,
            log = log1 ++ EWriteText (plan_path (idx + i)) txt :: log2 /\
            forall ev, In ev log2 -> writes_to (plan_path (idx + i)) ev = false.
Proof.
  revert idx acc log. induction l as [|res0 l IH]; intros idx acc log; simpl.
  - unfold io_ret. intros H. injection H as <- <-. exists [].
    rewrite List.app_nil_r. repeat split. intros [|i] res H; discriminate H.
  - unfold io_bind.
    destruct (run1 idx res0) as [log0 [row0|e0]] eqn:E0; [|discriminate].
    destruct (runs (S idx) l (acc ++ [row0])) as [log1 r] eqn:E1.
    intros H. injection H as <- ->.
    destruct (IH _ _ _ E1) as [rows [-> [Hlen Hrows]]].
    exists (row0 :: rows). rewrite <- app_assoc. split; [reflexivity|].
    split; [simpl; rewrite Hlen; reflexivity|].
    intros [|i] res Hnth; simpl in Hnth.
    + injection Hnth as <-. rewrite Nat.add_0_r.
      destruct (process_run_ok _ _ _ _ E0) as [Hpf [Hst [v [Hv Hlog]]]].
      exists row0, v. repeat split; try assumption.
      intros txt -> Hopen. exists [], log1. split.
      * rewrite Hlog. unfold write_plan. rewrite Hopen. reflexivity.
      * intros ev Hin.
        apply (process_runs_leave_earlier (S idx) l (acc ++ [row0]) idx ev);
          [lia|]. rewrite E1. exact Hin.
    + destruct (Hrows i res Hnth) as [row [v [Hr [Hpf [Hst [Hv Hw]]]]]].
      rewrite <- plus_n_Sm. exists row, v. repeat split; try assumption.
      intros txt Htxt Hopen.
      destruct (Hw txt Htxt Hopen) as [l1 [l2 [-> Hl2]]].
      exists (log0 ++ l1), l2. rewrite <- app_assoc. split; [reflexivity|].
      exact Hl2.
Qed.

End PlanFiles.


(* ===================================================================== *)
(** ** Where the loader can raise *)
(* ===================================================================== *)

Lemma enron_rows_raise cols actual gt rs e :
  enron_rows cols actual gt rs = Raise e -> cols = [] /\ rs <> [].
Proof.
  intros H. destruct cols as [|c cols].
  - split; [reflexivity|]. destruct rs; [discriminate H | discriminate].
  - destruct (enron_rows_returns (c :: cols) actual gt rs) as [gt' E];
      [discriminate|]. congruence.
Qed.

Lemma real_estate_rows_raise cols actual gt rs e :
  real_estate_rows cols actual gt rs = Raise e ->
  exists row, In row rs /\ real_estate_label cols row = Raise e.
Proof.
  revert gt. induction rs as [|row rs IH]; simpl; intros gt H;
    [discriminate|].
  unfold real_estate_row in H.
  destruct (real_estate_id cols row) as [id|].
  - destruct (real_estate_label cols row) as [label|e0] eqn:E; simpl in H.
    + destruct (IH _ H) as [r [Hr Hl]]. exists r. split; [right|]; assumption.
    + injection H as <-. exists row. split; [left; reflexivity | exact E].
  - simpl in H. destruct (IH _ H) as [r [Hr Hl]].
    exists r. split; [right|]; assumption.
Qed.

Lemma medical_authors_return df authors m :
  (forall a, In a authors -> In a (columns df)) ->
  exists m', medical_authors df m authors = Ok m'.
Proof.
  intros Hin. destruct (columns df) as [|c0 rest] eqn:Ec.
  - destruct authors as [|a authors]; [simpl; eauto|].
    destruct (Hin a (or_introl eq_refl)).
  - destruct (medical_authors_spec df c0 rest authors Ec
                (fun a Ha => index_of_In a _ (Hin a Ha)) m) as [m' [E _]].
    eauto.
Qed.

(** On a table whose normalized column labels are pairwise distinct, the
    loader raises in three places only: the listing of the reference
    directory, the first column of a table without columns (enron), and
    [int()] on a label of the real-estate table. *)
Theorem load_ground_truth_raise_cases :
  forall (env : Env) (workload gt_path dataset_dir : string) (df : DataFrame)
         (e : exn),
    read_csv env gt_path = Ok df ->
    NoDup (columns (normalize_columns df)) ->
    load_ground_truth env workload gt_path dataset_dir = Raise e ->
    dir_listing env dataset_dir = Raise e \/
    (workload = "enron" /\ columns df = [] /\ rows df <> []) \/
    (workload = "real-estate" /\
     exists row, In row (rows df) /\
       real_estate_label (columns (normalize_columns df)) row = Raise e).
Proof.
  intros env workload gt_path dataset_dir df e Hread _.
  unfold load_ground_truth.
  destruct (PyStr.is_empty gt_path || negb (path_exists env gt_path));
    [discriminate|].
  rewrite Hread.
  intros H.
  destruct (String.eqb workload "enron") eqn:Ew.
  { apply String.eqb_eq in Ew.
    destruct (dir_listing env dataset_dir) as [actual|e0]; simpl in H;
      [|injection H as <-; left; reflexivity].
    destruct (enron_rows _ actual [] _) as [gt|e1] eqn:E; simpl in H;
      [discriminate|].
    apply enron_rows_raise in E. destruct E as [Hc Hr]. simpl in Hc, Hr.
    right. left. split; [exact Ew|]. split; [|exact Hr].
    destruct (columns df); [reflexivity | discriminate]. }
  destruct (String.eqb workload "real-estate") eqn:Er.
  { apply String.eqb_eq in Er.
    destruct (dir_listing env dataset_dir) as [actual|e0]; simpl in H;
      [|injection H as <-; left; reflexivity].
    destruct (real_estate_rows _ actual [] _) as [gt|e1] eqn:E; simpl in H;
      [discriminate|].
    injection H as <-. apply real_estate_rows_raise in E.
    right. right. split; [exact Er | exact E]. }
  destruct (String.eqb workload "medical-schema-matching"); [|discriminate].
  destruct (medical_authors_return (normalize_columns df)
              (tl (columns (normalize_columns df))) []
              (fun a => In_tl a (columns (normalize_columns df))))
    as [m' E].
  rewrite E in H. discriminate.
Qed.

(* ===================================================================== *)
(** ** More on the loader: lenient paths, the directory filter, labels *)
(* ===================================================================== *)

(** A table that cannot be read, or a workload tag the loader does not
    know, gives the empty index; the reference directory is not even
    listed. *)
Theorem loader_lenient_returns :
  forall (env : Env) (workload gt_path dataset_dir : string),
    (exists e, read_csv env gt_path = Raise e) \/
    (workload <> "enron" /\ workload <> "real-estate" /\
     workload <> "medical-schema-matching") ->
    load_ground_truth env workload gt_path dataset_dir = Ok empty_index.
Proof.
  intros env workload gt_path dataset_dir H. unfold load_ground_truth.
  destruct (PyStr.is_empty gt_path || negb (path_exists env gt_path));
    [reflexivity|].
  destruct H as [[e ->] | [He [Hr Hm]]]; [reflexivity|].
  destruct (read_csv env gt_path) as [df|]; [|reflexivity].
  apply String.eqb_neq in He, Hr, Hm. rewrite He, Hr, Hm. reflexivity.
Qed.

Lemma loader_lenient_returns_witness :
  load_ground_truth scenario1_env "imdb" "gt.csv" "data" = Ok empty_index.
Proof.
  apply loader_lenient_returns. right.
  repeat split; discriminate.
Defined.

Lemma enron_rows_on_disk cols actual gt rs gt' :
  enron_rows cols actual gt rs = Ok gt' ->
  forall k, In k (Dict.keys gt') -> In k (Dict.keys gt) \/ In k actual.
Proof.
  revert gt. induction rs as [|row rs IH]; simpl; intros gt H k Hk.
  - injection H as <-. left. exact Hk.
  - unfold enron_row in H.
    destruct (enron_fname cols row) as [fname|]; simpl in H; [|discriminate].
    destruct (IH _ H k Hk) as [Hin|Hin]; [|right; exact Hin].
    destruct (PyStr.mem fname actual) eqn:E; [|left; exact Hin].
    apply DictFacts.keys_set in Hin. destruct Hin as [-> | Hin].
    + right. apply PyStrFacts.mem_In. exact E.
    + left. exact Hin.
Qed.

Lemma real_estate_rows_on_disk cols actual gt rs gt' :
  real_estate_rows cols actual gt rs = Ok gt' ->
  forall k, In k (Dict.keys gt') -> In k (Dict.keys gt) \/ In k actual.
Proof.
  revert gt. induction rs as [|row rs IH]; simpl; intros gt H k Hk.
  - injection H as <-. left. exact Hk.
  - unfold real_estate_row in H.
    destruct (real_estate_id cols row) as [id|];
      [|simpl in H; exact (IH _ H k Hk)].
    destruct (real_estate_label cols row) as [label|]; simpl in H;
      [|discriminate].
    destruct (IH _ H k Hk) as [Hin|Hin]; [|right; exact Hin].
    destruct (PyStr.mem id actual) eqn:E; [|left; exact Hin].
    apply DictFacts.keys_set in Hin. destruct Hin as [-> | Hin].
    + right. apply PyStrFacts.mem_In. exact E.
    + left. exact Hin.
Qed.

(** Every identifier of a flat index names an entry of the reference
    directory, which therefore exists and could be listed. *)
Theorem flat_index_within_directory :
  forall (env : Env) (workload gt_path dataset_dir : string)
         (d : Dict.t Z) (k : string),
    load_ground_truth env workload gt_path dataset_dir = Ok (GTFlat d) ->
    In k (Dict.keys d) ->
    path_exists env dataset_dir = true /\
    exists listing, listdir env dataset_dir = Ok listing /\ In k listing.
Proof.
  intros env workload gt_path dataset_dir d k Hload Hk.
  assert (Hdir : forall actual, dir_listing env dataset_dir = Ok actual ->
            In k actual ->
            path_exists env dataset_dir = true /\
            exists listing, listdir env dataset_dir = Ok listing /\
                            In k listing).
  { unfold dir_listing. intros actual Ha Hin.
    destruct (path_exists env dataset_dir).
    - split; [reflexivity|]. exists actual. split; assumption.
    - injection Ha as <-. destruct Hin. }
  assert (Hempty : Ok empty_index = Ok (GTFlat d) -> False).
  { intros H. injection H as <-. destruct Hk. }
  unfold load_ground_truth in Hload.
  destruct (PyStr.is_empty gt_path || negb (path_exists env gt_path));
    [destruct (Hempty Hload)|].
  destruct (read_csv env gt_path) as [df|]; [|destruct (Hempty Hload)].
  destruct (String.eqb workload "enron").
  { destruct (dir_listing env dataset_dir) as [actual|] eqn:Ea;
      simpl in Hload; [|discriminate].
    destruct (enron_rows _ actual [] _) as [gt|] eqn:E; simpl in Hload;
      [|discriminate].
    injection Hload as <-.
    destruct (enron_rows_on_disk _ _ _ _ _ E k Hk) as [[]|Hin].
    exact (Hdir actual eq_refl Hin). }
  destruct (String.eqb workload "real-estate").
  { destruct (dir_listing env dataset_dir) as [actual|] eqn:Ea;
      simpl in Hload; [|discriminate].
    destruct (real_estate_rows _ actual [] _) as [gt|] eqn:E; simpl in Hload;
      [|discriminate].
    injection Hload as <-.
    destruct (real_estate_rows_on_disk _ _ _ _ _ E k Hk) as [[]|Hin].
    exact (Hdir actual eq_refl Hin). }
  destruct (String.eqb workload "medical-schema-matching");
    [|destruct (Hempty Hload)].
  destruct (medical_authors _ [] _); simpl in Hload; discriminate.
Qed.

Lemma flat_index_within_directory_witness :
  exists listing, listdir scenario1_env "data" = Ok listing /\ In "b.txt" listing.
Proof.
  exact (proj2 (flat_index_within_directory scenario1_env "enron" "gt.csv"
                  "data" [("a.txt", 1%Z); ("b.txt", 0%Z)] "b.txt" eq_refl
                  (or_intror (or_introl eq_refl)))).
Defined.

Lemma enron_rows_labels (Q : Z -> Prop) cols actual gt rs gt' :
  (forall row, In row rs -> Q (enron_label cols row)) ->
  (forall k l, In (k, l) gt -> Q l) ->
  enron_rows cols actual gt rs = Ok gt' ->
  forall k l, In (k, l) gt' -> Q l.
Proof.
  revert gt. induction rs as [|row rs IH]; simpl; intros gt Hrs Hgt H.
  - injection H as <-. exact Hgt.
  - unfold enron_row in H.
    destruct (enron_fname cols row) as [fname|]; simpl in H; [|discriminate].
    refine (IH _ (fun r Hr => Hrs r (or_intror Hr)) _ H).
    intros k l Hin. destruct (PyStr.mem fname actual); [|exact (Hgt k l Hin)].
    destruct (In_set _ _ _ _ _ Hin) as [[_ ->]|Hin']; [|exact (Hgt k l Hin')].
    apply Hrs. left. reflexivity.
Qed.

Lemma real_estate_rows_labels (Q : Z -> Prop) cols actual gt rs gt' :
  (forall row l, In row rs -> real_estate_label cols row = Ok l -> Q l) ->
  (forall k l, In (k, l) gt -> Q l) ->
  real_estate_rows cols actual gt rs = Ok gt' ->
  forall k l, In (k, l) gt' -> Q l.
Proof.
  revert gt. induction rs as [|row rs IH]; simpl; intros gt Hrs Hgt H.
  - injection H as <-. exact Hgt.
  - unfold real_estate_row in H.
    destruct (real_estate_id cols row) as [id|].
    + destruct (real_estate_label cols row) as [label|] eqn:El; simpl in H;
        [|discriminate].
      refine (IH _ (fun r l Hr => Hrs r l (or_intror Hr)) _ H).
      intros k l Hin. destruct (PyStr.mem id actual); [|exact (Hgt k l Hin)].
      destruct (In_set _ _ _ _ _ Hin) as [[_ ->]|Hin'];
        [|exact (Hgt k l Hin')].
      exact (Hrs row label (or_introl eq_refl) El).
    + simpl in H.
      exact (IH _ (fun r l Hr => Hrs r l (or_intror Hr)) Hgt H).
Qed.

(** Without a label column every entry of a flat index is labeled 1: for
    enron none of [label], [y], [target] is a column, for real-estate
    [label] is not (its loader looks at no other name). *)
Theorem labels_default_to_one :
  forall (env : Env) (workload gt_path dataset_dir : string)
         (df : DataFrame) (d : Dict.t Z),
    read_csv env gt_path = Ok df ->
    load_ground_truth env workload gt_path dataset_dir = Ok (GTFlat d) ->
    (workload = "enron" ->
     first_present enron_label_cands (columns (normalize_columns df)) = None) ->
    (workload = "real-estate" ->
     PyStr.mem "label" (columns (normalize_columns df)) = false) ->
    forall k label, In (k, label) d -> label = 1%Z.
Proof.
  intros env workload gt_path dataset_dir df d Hread Hload He Hr.
  assert (Hempty : Ok empty_index = Ok (GTFlat d) ->
                   forall k label, In (k, label) d -> label = 1%Z).
  { intros H. injection H as <-. intros k label []. }
  unfold load_ground_truth in Hload. rewrite Hread in Hload.
  destruct (PyStr.is_empty gt_path || negb (path_exists env gt_path));
    [exact (Hempty Hload)|].
  destruct (String.eqb workload "enron") eqn:Ew.
  { apply String.eqb_eq in Ew. specialize (He Ew).
    destruct (dir_listing env dataset_dir) as [actual|]; simpl in Hload;
      [|discriminate].
    destruct (enron_rows _ actual [] _) as [gt|] eqn:E; simpl in Hload;
      [|discriminate].
    injection Hload as <-.
    refine (enron_rows_labels (fun l => l = 1%Z) _ _ _ _ _ _ _ E).
    - intros row _. unfold enron_label. simpl columns in He. rewrite He.
      reflexivity.
    - intros k l []. }
  destruct (String.eqb workload "real-estate") eqn:Ere.
  { apply String.eqb_eq in Ere. specialize (Hr Ere).
    destruct (dir_listing env dataset_dir) as [actual|]; simpl in Hload;
      [|discriminate].
    destruct (real_estate_rows _ actual [] _) as [gt|] eqn:E; simpl in Hload;
      [|discriminate].
    injection Hload as <-.
    refine (real_estate_rows_labels (fun l => l = 1%Z) _ _ _ _ _ _ _ E).
    - intros row l _. unfold real_estate_label, real_estate_label_col.
      simpl columns in Hr. rewrite Hr. intros H. injection H as <-.
      reflexivity.
    - intros k l []. }
  destruct (String.eqb workload "medical-schema-matching");
    [|exact (Hempty Hload)].
  destruct (medical_authors _ [] _); simpl in Hload; discriminate.
Qed.

Lemma labels_default_to_one_witness :
  load_ground_truth no_id_env "enron" "gt.csv" "listings"
    = Ok (GTFlat [("h1", 1%Z)]) /\
  forall k label, In (k, label) [("h1", 1%Z)] -> label = 1%Z.
Proof.
  split; [reflexivity|].
  refine (labels_default_to_one no_id_env "enron" "gt.csv" "listings"
            _ [("h1", 1%Z)] eq_refl eq_refl _ _).
  - intros _. reflexivity.
  - intros H. discriminate H.
Defined.

Lemma load_ground_truth_raise_cases_witness :
  dir_listing bad_label_env "listings" = Raise ValueError \/
  ("real-estate" = "enron" /\
   columns (bad_label_table) = [] /\ rows (bad_label_table) <> []) \/
  ("real-estate" = "real-estate" /\
   exists row, In row (rows bad_label_table) /\
     real_estate_label (columns (normalize_columns bad_label_table)) row
     = Raise ValueError).
Proof.
  apply (load_ground_truth_raise_cases bad_label_env "real-estate" "gt.csv"
           "listings" bad_label_table ValueError eq_refl).
  - repeat constructor; simpl; intuition discriminate.
  - reflexivity.
Defined.

Lemma enron_fname_has_columns cols row fname :
  enron_fname cols row = Ok fname -> cols <> [].
Proof. intros H ->. discriminate H. Qed.

Lemma enron_rows_app cols actual gt l1 l2 :
  enron_rows cols actual gt (l1 ++ l2)
  = (gt1 <- enron_rows cols actual gt l1 ;; enron_rows cols actual gt1 l2).
Proof.
  revert gt. induction l1 as [|row l1 IH]; simpl; intros gt; [reflexivity|].
  destruct (enron_row cols actual gt row); simpl; [apply IH | reflexivity].
Qed.

Lemma enron_rows_untouched cols actual fname rs :
  (forall r, In r rs -> enron_fname cols r <> Ok fname) ->
  forall gt gt', enron_rows cols actual gt rs = Ok gt' ->
  Dict.get fname gt' = Dict.get fname gt.
Proof.
  induction rs as [|row rs IH]; simpl; intros Hrs gt gt' H.
  - injection H as <-. reflexivity.
  - unfold enron_row in H.
    destruct (enron_fname cols row) as [f|] eqn:E; simpl in H; [|discriminate].
    rewrite (IH (fun r Hr => Hrs r (or_intror Hr)) _ _ H).
    destruct (PyStr.mem f actual); [|reflexivity].
    apply DictFacts.get_set_ne. intros ->.
    exact (Hrs row (or_introl eq_refl) E).
Qed.

(** When several rows of the enron table name the same file, the index
    holds the label of the last one: for a row whose identifier is on disk
    and is not named again below it, the loader returns and the index maps
    the identifier to that row's label. *)
Theorem enron_last_row_wins :
  forall (env : Env) (gt_path dataset_dir : string) (df : DataFrame)
         (actual : list string) (pre post : list (list cell))
         (row : list cell) (fname : string),
    PyStr.is_empty gt_path = false ->
    path_exists env gt_path = true ->
    read_csv env gt_path = Ok df ->
    dir_listing env dataset_dir = Ok actual ->
    rows df = pre ++ row :: post ->
    enron_fname (columns (normalize_columns df)) row = Ok fname ->
    In fname actual ->
    (forall r, In r post ->
       enron_fname (columns (normalize_columns df)) r <> Ok fname) ->
    exists d,
      load_ground_truth env "enron" gt_path dataset_dir = Ok (GTFlat d) /\
      Dict.get fname d
      = Some (enron_label (columns (normalize_columns df)) row).
Proof.
  intros env gt_path dataset_dir df actual pre post row fname
         Hp Hex Hread Hdir Hrows Hf Hin Hpost.
  unfold load_ground_truth. rewrite Hp, Hex, Hread. cbn [orb negb].
  cbv zeta. rewrite String.eqb_refl, Hdir. cbn [bind].
  set (cols := columns (normalize_columns df)) in *.
  change (rows (normalize_columns df)) with (rows df).
  pose proof (enron_fname_has_columns _ _ _ Hf) as Hc.
  rewrite Hrows, enron_rows_app.
  destruct (enron_rows_returns cols actual [] pre Hc) as [gt1 ->]. simpl.
  unfold enron_row at 1. rewrite Hf. simpl.
  apply PyStrFacts.mem_In in Hin. rewrite Hin.
  destruct (enron_rows_returns cols actual
              (Dict.set fname (enron_label cols row) gt1) post Hc)
    as [d E].
  rewrite E. simpl. exists d. split; [reflexivity|].
  rewrite (enron_rows_untouched cols actual fname post Hpost _ _ E).
  apply DictFacts.get_set_eq.
Qed.

Lemma enron_last_row_wins_witness :
  exists d,
    load_ground_truth duplicate_rows_env "enron" "gt.csv" "mails"
    = Ok (GTFlat d) /\
    Dict.get "m1" d = Some 0%Z.
Proof.
  refine (enron_last_row_wins duplicate_rows_env "gt.csv" "mails" _
            ["m1"; "m2"]
            [[CStr "m1"; CInt 1]; [CStr "m2"; CInt 1]] []
            [CStr " m1 "; CInt 0] "m1"
            eq_refl eq_refl eq_refl eq_refl eq_refl eq_refl _ _).
  - left. reflexivity.
  - intros r [].
Defined.

(* ===================================================================== *)
(** ** More on scoring: the nested workload *)
(* ===================================================================== *)

Lemma find_all_false {A : Type} (f : A -> bool) (l : list A) :
  (forall x, In x l -> f x = false) -> find f l = None.
Proof.
  induction l as [|x l IH]; simpl; intros H; [reflexivity|].
  rewrite (H x (or_introl eq_refl)). apply IH.
  intros y Hy. apply H. right. exact Hy.
Qed.

Lemma medical_record_unmatched gt record :
  unmatched gt record -> medical_record gt record = Ok [].
Proof.
  intros [s [Hs Hk]]. unfold medical_record. rewrite Hs.
  destruct (gt_keys gt) as [|k0 ks] eqn:E; [reflexivity|].
  cbv beta iota delta [py_lower bind].
  rewrite (find_all_false _ (k0 :: ks) Hk). reflexivity.
Qed.

Lemma medical_entries_app gt l1 l2 :
  medical_entries gt (l1 ++ l2)
  = (e1 <- medical_entries gt l1 ;;
     e2 <- medical_entries gt l2 ;;
     Ok (e1 ++ e2)).
Proof.
  induction l1 as [|r l1 IH]; simpl.
  - destruct (medical_entries gt l2); reflexivity.
  - destruct (medical_record gt r) as [es|]; simpl; [|reflexivity].
    rewrite IH.
    destruct (medical_entries gt l1) as [e1|]; simpl; [|reflexivity].
    destruct (medical_entries gt l2) as [e2|]; simpl; [|reflexivity].
    rewrite <- app_assoc. reflexivity.
Qed.

Lemma build_vectors_medical results gt :
  build_vectors results gt "medical-schema-matching"
  = (es <- medical_entries gt results ;; Ok (map fst es, map snd es)).
Proof. reflexivity. Qed.

(** For the nested workload, a record whose file name holds no source key
    of the index adds no entry to either vector: wherever it stands among
    the results, the outcome of [compute_f1] is the same without it. *)
Theorem nested_unmatched_record_ignored :
  forall (gt : gt_index) (pre post : list pyval) (extra : pyval),
    unmatched gt extra ->
    compute_f1_exit (pre ++ extra :: post) gt "medical-schema-matching"
      = compute_f1_exit (pre ++ post) gt "medical-schema-matching" /\
    compute_f1 (pre ++ extra :: post) gt "medical-schema-matching"
      = compute_f1 (pre ++ post) gt "medical-schema-matching".
Proof.
  intros gt pre post extra Hun.
  assert (Hb : build_vectors (pre ++ extra :: post) gt
                 "medical-schema-matching"
               = build_vectors (pre ++ post) gt "medical-schema-matching").
  { rewrite !build_vectors_medical, !medical_entries_app.
    destruct (medical_entries gt pre) as [e1|]; [|reflexivity].
    cbn [bind medical_entries].
    rewrite (medical_record_unmatched gt extra Hun). cbn [bind].
    destruct (medical_entries gt post) as [e2|]; reflexivity. }
  assert (He : compute_f1_exit (pre ++ extra :: post) gt
                 "medical-schema-matching"
               = compute_f1_exit (pre ++ post) gt "medical-schema-matching").
  { unfold compute_f1_exit. rewrite Hb. reflexivity. }
  split; [exact He|]. unfold compute_f1. rewrite He. reflexivity.
Qed.

Lemma nested_unmatched_record_ignored_witness :
  compute_f1
    [PObj [("filename", PStr "other.csv"); ("age", PStr "1")];
     PObj [("filename", PStr "sourceA_export.csv"); ("age", PStr "34")]]
    (GTNested [("sourcea", [("age", true); ("name", false)])])
    "medical-schema-matching"
  = compute_f1
      [PObj [("filename", PStr "sourceA_export.csv"); ("age", PStr "34")]]
      (GTNested [("sourcea", [("age", true); ("name", false)])])
      "medical-schema-matching".
Proof.
  refine (proj2 (nested_unmatched_record_ignored
                   (GTNested [("sourcea", [("age", true); ("name", false)])])
                   []
                   [PObj [("filename", PStr "sourceA_export.csv");
                          ("age", PStr "34")]]
                   (PObj [("filename", PStr "other.csv"); ("age", PStr "1")])
                   _)).
  exists "other.csv". split; [reflexivity|].
  intros k [<-|[]]. reflexivity.
Defined.

Lemma medical_entries_unmatched gt results :
  (forall r, In r results -> unmatched gt r) ->
  medical_entries gt results = Ok [].
Proof.
  induction results as [|r results IH]; simpl; intros H; [reflexivity|].
  rewrite (medical_record_unmatched gt r (H r (or_introl eq_refl))).
  rewrite IH by (intros r' Hr'; apply H; right; exact Hr'). reflexivity.
Qed.

(** For the nested workload, when no record's file name holds a source key
    the score is [0.0]: with a non-empty index both vectors stay empty and
    [compute_f1] leaves at line 117, before scikit-learn is called. *)
Theorem nested_without_match_scores_zero :
  forall (gt : gt_index) (results : list pyval),
    (forall r, In r results -> unmatched gt r) ->
    compute_f1 results gt "medical-schema-matching" = Ok 0%Q /\
    (gt_is_empty gt = false ->
     compute_f1_exit results gt "medical-schema-matching"
     = Ok (ExitNoEntries [] [])).
Proof.
  intros gt results H.
  assert (He : gt_is_empty gt = false ->
               compute_f1_exit results gt "medical-schema-matching"
               = Ok (ExitNoEntries [] [])).
  { intros Hne. unfold compute_f1_exit.
    rewrite Hne, build_vectors_medical, (medical_entries_unmatched _ _ H).
    reflexivity. }
  split; [|exact He]. unfold compute_f1.
  destruct (gt_is_empty gt) eqn:E.
  - rewrite (compute_f1_exit_empty results gt _ E). reflexivity.
  - rewrite (He eq_refl). reflexivity.
Qed.

Lemma nested_without_match_scores_zero_witness :
  compute_f1 [PObj [("filename", PStr "other.csv"); ("age", PStr "1")]]
             (GTNested [("sourcea", [("age", true); ("name", false)])])
             "medical-schema-matching" = Ok 0%Q.
Proof.
  refine (proj1 (nested_without_match_scores_zero
                   (GTNested [("sourcea", [("age", true); ("name", false)])])
                   [PObj [("filename", PStr "other.csv"); ("age", PStr "1")]]
                   _)).
  intros r [<-|[]]. exists "other.csv". split; [reflexivity|].
  intros k [<-|[]]. reflexivity.
Defined.

(* ===================================================================== *)
(** ** More on scoring: the range of the score *)
(* ===================================================================== *)

Lemma count_where_nonneg f y_true y_pred :
  (0 <= Sklearn.count_where f y_true y_pred)%Z.
Proof. unfold Sklearn.count_where. lia. Qed.

Lemma filter_length_le_impl {A : Type} (f g : A -> bool) (l : list A) :
  (forall x, f x = true -> g x = true) ->
  length (filter f l) <= length (filter g l).
Proof.
  intros H. induction l as [|x l IH]; simpl; [lia|].
  destruct (f x) eqn:E.
  - rewrite (H x E). simpl. lia.
  - destruct (g x); simpl; lia.
Qed.

Lemma count_where_le f g y_true y_pred :
  (forall t p, f t p = true -> g t p = true) ->
  (Sklearn.count_where f y_true y_pred
   <= Sklearn.count_where g y_true y_pred)%Z.
Proof.
  intros H. unfold Sklearn.count_where. apply inj_le.
  apply filter_length_le_impl. intros [t p]. apply H.
Qed.

Lemma count_where_le_length f y_true y_pred :
  (Sklearn.count_where f y_true y_pred <= Z.of_nat (length y_true))%Z /\
  (Sklearn.count_where f y_true y_pred <= Z.of_nat (length y_pred))%Z.
Proof.
  unfold Sklearn.count_where.
  pose proof (filter_length_le (fun tp => f (fst tp) (snd tp))
                (combine y_true y_pred)) as H.
  rewrite length_combine in H.
  pose proof (Nat.le_min_l (length y_true) (length y_pred)).
  pose proof (Nat.le_min_r (length y_true) (length y_pred)).
  split; apply inj_le;
    [exact (Nat.le_trans _ _ _ H H0) | exact (Nat.le_trans _ _ _ H H1)].
Qed.

Lemma ratio_unit_interval (num den : Z) :
  (0 <= num <= den)%Z ->
  (0 <= Sklearn.ratio num den)%Q /\ (Sklearn.ratio num den <= 1)%Q.
Proof.
  intros H. unfold Sklearn.ratio. destruct den as [|d|d].
  - split; [apply Qle_refl | discriminate].
  - rewrite Qred_correct. unfold Qle. simpl. lia.
  - split; [apply Qle_refl | discriminate].
Qed.

Lemma f1_score_unit_interval y_true y_pred avg f :
  Sklearn.f1_score y_true y_pred avg = Ok f ->
  (0 <= f)%Q /\ (f <= 1)%Q.
Proof.
  unfold Sklearn.f1_score.
  destruct (Sklearn.check avg y_true y_pred); [|discriminate].
  unfold bind. destruct avg; intros H; injection H as <-;
    apply ratio_unit_interval.
  - pose proof (count_where_nonneg
                  (fun t p => Sklearn.is_one t && Sklearn.is_one p)
                  y_true y_pred) as H0.
    assert (H1 : (Sklearn.tp1 y_true y_pred
                  <= Sklearn.pred1 y_true y_pred)%Z).
    { apply count_where_le. intros t p Hb.
      apply andb_true_iff in Hb. tauto. }
    assert (H2 : (Sklearn.tp1 y_true y_pred
                  <= Sklearn.true1 y_true y_pred)%Z).
    { apply count_where_le. intros t p Hb.
      apply andb_true_iff in Hb. tauto. }
    unfold Sklearn.tp1 in *.
    set (c := Sklearn.count_where _ y_true y_pred) in *.
    change (0 <= 2 * c <= Sklearn.pred1 y_true y_pred
                          + Sklearn.true1 y_true y_pred)%Z.
    lia.
  - pose proof (count_where_nonneg Z.eqb y_true y_pred) as H0.
    destruct (count_where_le_length Z.eqb y_true y_pred) as [H1 H2].
    unfold Sklearn.agree in *.
    set (c := Sklearn.count_where _ y_true y_pred) in *.
    change (0 <= 2 * c <= Z.of_nat (length y_pred)
                          + Z.of_nat (length y_true))%Z.
    lia.
Qed.

(** Whatever the records, the index and the workload, a score that
    [compute_f1] returns lies between 0 and 1. *)
Theorem compute_f1_unit_interval :
  forall (results : list pyval) (gt : gt_index) (workload : string) (f : Q),
    compute_f1 results gt workload = Ok f ->
    (0 <= f)%Q /\ (f <= 1)%Q.
Proof.
  intros results gt workload f. unfold compute_f1, compute_f1_exit.
  destruct (gt_is_empty gt).
  { intros H. injection H as <-. split; [apply Qle_refl | discriminate]. }
  destruct (build_vectors results gt workload) as [[y_true y_pred]|];
    [|discriminate].
  cbn [bind]. destruct y_true as [|t y_true].
  { intros H. injection H as <-. split; [apply Qle_refl | discriminate]. }
  destruct (Sklearn.precision_score _ _ _) as [p|]; [|discriminate].
  destruct (Sklearn.recall_score _ _ _) as [r|]; [|discriminate].
  cbn [bind].
  destruct (Sklearn.f1_score _ _ _) as [f1|] eqn:E; [|discriminate].
  intros H. injection H as <-. exact (f1_score_unit_interval _ _ _ _ E).
Qed.

Lemma compute_f1_unit_interval_witness :
  (0 <= 2 # 3)%Q /\ (2 # 3 <= 1)%Q.
Proof.
  exact (compute_f1_unit_interval both_predicted
           (GTFlat [("a.txt", 1%Z); ("b.txt", 0%Z)]) "enron" (2 # 3)%Q
           eq_refl).
Defined.

(* ===================================================================== *)
(** ** More on scoring: the predicted identifiers are a set *)
(* ===================================================================== *)

Lemma predicted_positives_cons key_attr r results :
  predicted_positives key_attr (r :: results)
  = (o <- predicted_id key_attr r ;;
     rest <- predicted_positives key_attr results ;;
     Ok (add_id o rest)).
Proof.
  unfold predicted_id. simpl. destruct (hasattr r key_attr).
  - destruct (getattr r key_attr) as [v|]; simpl; [|reflexivity].
    destruct (py_strip v); reflexivity.
  - simpl. destruct (predicted_positives key_attr results); reflexivity.
Qed.

(** Reading the identifier of a record fails in one way only. *)
Lemma predicted_id_raise key_attr r e :
  predicted_id key_attr r = Raise e -> e = AttributeError.
Proof.
  unfold predicted_id, getattr, py_strip.
  destruct (hasattr r key_attr); [|discriminate].
  destruct r; simpl; try (intros H; injection H as <-; reflexivity).
  destruct (Dict.get key_attr attrs) as [v|]; simpl;
    [|intros H; injection H as <-; reflexivity].
  destruct v; simpl; try discriminate;
    intros H; injection H as <-; reflexivity.
Qed.

Lemma same_predictions_refl a : same_predictions a a.
Proof. destruct a; simpl; [intros s|]; reflexivity. Qed.

Lemma same_predictions_trans a b c :
  same_predictions a b -> same_predictions b c -> same_predictions a c.
Proof.
  destruct a, b, c; simpl; try contradiction; try congruence.
  intros H1 H2 s. rewrite H1. apply H2.
Qed.

Lemma same_predictions_cons key_attr r l l' :
  same_predictions (predicted_positives key_attr l)
                   (predicted_positives key_attr l') ->
  same_predictions (predicted_positives key_attr (r :: l))
                   (predicted_positives key_attr (r :: l')).
Proof.
  rewrite !predicted_positives_cons.
  destruct (predicted_id key_attr r) as [o|e]; simpl; [|reflexivity].
  destruct (predicted_positives key_attr l),
           (predicted_positives key_attr l'); simpl; try tauto.
  intros H s. destruct o; simpl; [|apply H]. rewrite (H s). reflexivity.
Qed.

Lemma same_predictions_swap key_attr x y l :
  same_predictions (predicted_positives key_attr (y :: x :: l))
                   (predicted_positives key_attr (x :: y :: l)).
Proof.
  rewrite !predicted_positives_cons.
  destruct (predicted_id key_attr x) as [ox|ex] eqn:Ex,
           (predicted_id key_attr y) as [oy|ey] eqn:Ey; simpl;
    try reflexivity.
  - destruct (predicted_positives key_attr l); simpl; [|reflexivity].
    intros s. destruct ox, oy; simpl; tauto.
  - rewrite (predicted_id_raise _ _ _ Ex), (predicted_id_raise _ _ _ Ey).
    reflexivity.
Qed.

Lemma same_predictions_perm key_attr l l' :
  Permutation l l' ->
  same_predictions (predicted_positives key_attr l)
                   (predicted_positives key_attr l').
Proof.
  induction 1.
  - apply same_predictions_refl.
  - apply same_predictions_cons. assumption.
  - apply same_predictions_swap.
  - eapply same_predictions_trans; eassumption.
Qed.

Lemma same_predictions_duplicate key_attr r l :
  In r l ->
  same_predictions (predicted_positives key_attr (r :: l))
                   (predicted_positives key_attr l).
Proof.
  intros Hin. apply in_split in Hin. destruct Hin as [l1 [l2 ->]].
  eapply same_predictions_trans.
  { apply same_predictions_cons.
    apply same_predictions_perm. symmetry. apply Permutation_middle. }
  eapply same_predictions_trans;
    [|apply same_predictions_perm, Permutation_middle].
  rewrite !predicted_positives_cons.
  destruct (predicted_id key_attr r) as [o|e]; simpl; [|reflexivity].
  destruct (predicted_positives key_attr (l1 ++ l2)); simpl; [|reflexivity].
  intros s. destruct o; simpl; tauto.
Qed.

Lemma flat_vectors_same_ids d p p' :
  (forall s, In s p <-> In s p') -> flat_vectors d p = flat_vectors d p'.
Proof.
  intros H. unfold flat_vectors. f_equal. apply map_ext. intros [k l].
  cbn [fst]. destruct (PyStr.mem k p) eqn:E, (PyStr.mem k p') eqn:E';
    try reflexivity.
  - apply PyStrFacts.mem_In, H, PyStrFacts.mem_In in E. congruence.
  - apply PyStrFacts.mem_In, H, PyStrFacts.mem_In in E'. congruence.
Qed.

Lemma compute_f1_exit_same_predictions workload gt results results' :
  is_flat_workload workload = true ->
  same_predictions (predicted_positives (key_attr_of workload) results)
                   (predicted_positives (key_attr_of workload) results') ->
  compute_f1_exit results gt workload = compute_f1_exit results' gt workload.
Proof.
  intros Hflat H. unfold compute_f1_exit, build_vectors. rewrite Hflat.
  destruct (predicted_positives _ results) as [p|e],
           (predicted_positives _ results') as [p'|e']; simpl in H;
    try contradiction.
  - destruct gt; [|reflexivity]. cbn [bind].
    rewrite (flat_vectors_same_ids d p p' H). reflexivity.
  - subst e'. reflexivity.
Qed.

(** For a flat workload the result records count as a set of identifiers:
    neither their order nor a record repeated changes the outcome of
    [compute_f1], be it a score or an exception. *)
Theorem flat_score_ignores_order_and_repeats :
  forall (workload : string) (gt : gt_index) (results results' : list pyval)
         (r : pyval),
    is_flat_workload workload = true ->
    (Permutation results results' ->
     compute_f1 results gt workload = compute_f1 results' gt workload) /\
    (In r results ->
     compute_f1 (r :: results) gt workload = compute_f1 results gt workload).
Proof.
  intros workload gt results results' r Hflat. split; intros H;
    unfold compute_f1.
  - rewrite (compute_f1_exit_same_predictions workload gt results results'
               Hflat (same_predictions_perm _ _ _ H)). reflexivity.
  - rewrite (compute_f1_exit_same_predictions workload gt (r :: results)
               results Hflat (same_predictions_duplicate _ _ _ H)).
    reflexivity.
Qed.

Lemma flat_score_ignores_order_and_repeats_witness :
  compute_f1 [PObj [("filename", PStr "b.txt")];
              PObj [("filename", PStr "a.txt")]]
             (GTFlat [("a.txt", 1%Z); ("b.txt", 0%Z)]) "enron"
  = compute_f1 both_predicted (GTFlat [("a.txt", 1%Z); ("b.txt", 0%Z)])
               "enron".
Proof.
  refine (proj1 (flat_score_ignores_order_and_repeats "enron"
                   (GTFlat [("a.txt", 1%Z); ("b.txt", 0%Z)])
                   [PObj [("filename", PStr "b.txt")];
                    PObj [("filename", PStr "a.txt")]]
                   both_predicted PNone eq_refl) _).
  apply perm_swap.
Defined.

(* ===================================================================== *)
(** ** More on scoring: labels 0 and 1 *)
(* ===================================================================== *)

Lemma binary_vectors_check y_true y_pred :
  (forall z, In z y_true -> zero_or_one z) ->
  (forall z, In z y_pred -> zero_or_one z) ->
  length y_true = length y_pred ->
  Sklearn.check Sklearn.Binary y_true y_pred = Ok tt.
Proof.
  intros Ht Hp Hlen. unfold Sklearn.check.
  rewrite Hlen, Nat.eqb_refl. cbn [negb].
  set (present := Sklearn.present_labels y_true y_pred).
  assert (Hbin : forall z, In z present -> zero_or_one z).
  { intros z Hz. apply nodup_In, in_app_or in Hz.
    destruct Hz; [apply Ht | apply Hp]; assumption. }
  assert (Hnd : NoDup present) by apply NoDup_nodup.
  assert (Hlen2 : length present <= 2).
  { apply (NoDup_incl_length (l' := [0%Z; 1%Z]) Hnd).
    intros z Hz. destruct (Hbin z Hz) as [-> | ->];
      [left | right; left]; reflexivity. }
  destruct (2 <? length present) eqn:E;
    [apply Nat.ltb_lt in E; lia|].
  destruct (existsb Sklearn.is_one present) eqn:Eo;
    [rewrite andb_false_r; reflexivity|].
  assert (Hlen1 : length present <= 1).
  { apply (NoDup_incl_length (l' := [0%Z]) Hnd).
    intros z Hz. destruct (Hbin z Hz) as [-> | ->]; [left; reflexivity|].
    assert (Hc : existsb Sklearn.is_one present = true)
      by (apply existsb_exists; exists 1%Z; split; [exact Hz | reflexivity]).
    congruence. }
  destruct (2 <=? length present) eqn:E2; [|reflexivity].
  apply Nat.leb_le in E2. lia.
Qed.

Lemma flat_vectors_binary d predicted :
  (forall k label, In (k, label) d -> zero_or_one label) ->
  (forall z, In z (fst (flat_vectors d predicted)) -> zero_or_one z) /\
  (forall z, In z (snd (flat_vectors d predicted)) -> zero_or_one z) /\
  length (fst (flat_vectors d predicted))
  = length (snd (flat_vectors d predicted)).
Proof.
  intros H. unfold flat_vectors. cbn [fst snd]. repeat split.
  - intros z Hz. apply in_map_iff in Hz. destruct Hz as [[k l] [<- Hin]].
    exact (H k l Hin).
  - intros z Hz. apply in_map_iff in Hz. destruct Hz as [[k l] [<- _]].
    cbn [fst]. destruct (PyStr.mem k predicted); [right | left]; reflexivity.
  - rewrite !length_map. reflexivity.
Qed.

(** For a flat workload, an index whose labels are 0 or 1 and records whose
    key attribute, where present, is a string, [compute_f1] returns a
    score: scikit-learn finds nothing to object to. *)
Theorem flat_scoring_returns :
  forall (workload : string) (d : Dict.t Z) (results : list pyval),
    is_flat_workload workload = true ->
    (forall k label, In (k, label) d -> label = 0%Z \/ label = 1%Z) ->
    (forall r, In r results -> hasattr r (key_attr_of workload) = true ->
       exists s, getattr r (key_attr_of workload) = Ok (PStr s)) ->
    exists f, compute_f1 results (GTFlat d) workload = Ok f.
Proof.
  intros workload d results Hflat Hbin Hstr.
  unfold compute_f1, compute_f1_exit.
  destruct (gt_is_empty (GTFlat d)); [simpl; eauto|].
  rewrite (build_vectors_flat _ _ _ Hflat).
  destruct (predicted_positives_returns _ _ Hstr) as [predicted ->].
  cbn [bind].
  destruct (flat_vectors_binary d predicted Hbin) as [Ht [Hp Hlen]].
  destruct (flat_vectors d predicted) as [y_true y_pred].
  cbn [fst snd] in *.
  destruct y_true as [|t y_true]; [simpl; eauto|].
  pose proof (binary_vectors_check _ _ Ht Hp Hlen) as Hc.
  rewrite (flat_workload_binary _ Hflat).
  unfold Sklearn.precision_score, Sklearn.recall_score, Sklearn.f1_score.
  rewrite Hc. unfold bind. eauto.
Qed.

Lemma flat_scoring_returns_witness :
  exists f,
    compute_f1 both_predicted (GTFlat [("a.txt", 1%Z); ("b.txt", 0%Z)])
               "enron" = Ok f.
Proof.
  apply flat_scoring_returns.
  - reflexivity.
  - intros k label [H|[H|[]]]; injection H as _ <-; [right | left];
      reflexivity.
  - intros r [<-|[<-|[]]] _; eexists; reflexivity.
Defined.

Lemma map_const_repeat {A B : Type} (f : A -> B) (b : B) (l : list A) :
  (forall x, In x l -> f x = b) -> map f l = repeat b (length l).
Proof.
  induction l as [|x l IH]; simpl; intros H; [reflexivity|].
  rewrite (H x (or_introl eq_refl)), IH; [reflexivity|].
  intros y Hy. apply H. right. exact Hy.
Qed.

Lemma ratio_zero (den : Z) : Sklearn.ratio 0 den = 0%Q.
Proof.
  unfold Sklearn.ratio. destruct den as [|d|d]; reflexivity.
Qed.

Lemma count_where_none f y_true y_pred :
  (forall t p, In (t, p) (combine y_true y_pred) -> f t p = false) ->
  Sklearn.count_where f y_true y_pred = 0%Z.
Proof.
  intros H. unfold Sklearn.count_where.
  induction (combine y_true y_pred) as [|[t p] l IH]; [reflexivity|].
  simpl. rewrite (H t p (or_introl eq_refl)). apply IH.
  intros t' p' Hin. apply H. right. exact Hin.
Qed.

(** For a flat workload and a non-empty index with labels 0 and 1, when
    none of the predicted identifiers is a key of the index (the result
    set is empty, say) precision, recall and F1 are all [0.0]. *)
Theorem no_hit_scores_zero :
  forall (workload : string) (d : Dict.t Z) (results : list pyval)
         (predicted : list string),
    is_flat_workload workload = true ->
    d <> [] ->
    (forall k label, In (k, label) d -> label = 0%Z \/ label = 1%Z) ->
    predicted_positives (key_attr_of workload) results = Ok predicted ->
    (forall k, In k (Dict.keys d) -> ~ In k predicted) ->
    compute_f1_exit results (GTFlat d) workload
      = Ok (ExitScored (map snd d) (repeat 0%Z (length d)) 0%Q 0%Q 0%Q) /\
    compute_f1 results (GTFlat d) workload = Ok 0%Q.
Proof.
  intros workload d results predicted Hflat Hne Hbin Hpred Hmiss.
  assert (He : compute_f1_exit results (GTFlat d) workload
               = Ok (ExitScored (map snd d) (repeat 0%Z (length d))
                                0%Q 0%Q 0%Q)).
  { unfold compute_f1_exit.
    assert (Hg : gt_is_empty (GTFlat d) = false)
      by (destruct d; [contradiction | reflexivity]).
    rewrite Hg, (build_vectors_flat _ _ _ Hflat), Hpred. cbn [bind].
    pose proof (flat_vectors_binary d predicted Hbin) as [Ht [Hp Hlen]].
    unfold flat_vectors in *. cbn [fst snd] in *.
    assert (Hz : map (fun item : string * Z =>
                        if PyStr.mem (fst item) predicted then 1%Z else 0%Z) d
                 = repeat 0%Z (length d)).
    { apply map_const_repeat. intros [k l] Hin. cbn [fst].
      destruct (PyStr.mem k predicted) eqn:E; [|reflexivity].
      apply PyStrFacts.mem_In in E. exfalso. apply (Hmiss k); [|exact E].
      unfold Dict.keys. apply (in_map fst d (k, l)). exact Hin. }
    rewrite Hz in *.
    pose proof (binary_vectors_check _ _ Ht Hp Hlen) as Hc.
    rewrite (flat_workload_binary _ Hflat).
    unfold Sklearn.precision_score, Sklearn.recall_score, Sklearn.f1_score.
    rewrite Hc. unfold bind.
    assert (Hzero : forall p, In p (repeat 0%Z (length d)) -> p = 0%Z)
      by (intros p Hin; exact (repeat_spec _ _ _ Hin)).
    assert (Htp : Sklearn.tp1 (map snd d) (repeat 0%Z (length d)) = 0%Z).
    { apply count_where_none. intros t p Hin.
      rewrite (Hzero p (in_combine_r _ _ _ _ Hin)). apply andb_false_r. }
    assert (Hpr : Sklearn.pred1 (map snd d) (repeat 0%Z (length d)) = 0%Z).
    { apply count_where_none. intros t p Hin.
      rewrite (Hzero p (in_combine_r _ _ _ _ Hin)). reflexivity. }
    rewrite Htp, Hpr. change (2 * 0)%Z with 0%Z. rewrite !ratio_zero.
    destruct d; [contradiction | reflexivity]. }
  split; [exact He|]. unfold compute_f1. rewrite He. reflexivity.
Qed.

Lemma no_hit_scores_zero_witness :
  compute_f1 [] (GTFlat [("a.txt", 1%Z); ("b.txt", 0%Z)]) "real-estate"
  = Ok 0%Q.
Proof.
  refine (proj2 (no_hit_scores_zero "real-estate"
                   [("a.txt", 1%Z); ("b.txt", 0%Z)] [] [] eq_refl _ _
                   eq_refl _)).
  - discriminate.
  - intros k label [H|[H|[]]]; injection H as _ <-; [right | left];
      reflexivity.
  - intros k _ [].
Defined.

(* ===================================================================== *)
(** ** More on the reporting pass *)
(* ===================================================================== *)

Section ReportFacts.
Variable sys : Sys.
Variables (gt_data : gt_index) (plan_details_dir workload : string).

Local Abbreviation run1 := (process_run sys gt_data plan_details_dir workload).
Local Abbreviation runs := (process_runs sys gt_data plan_details_dir workload).

Lemma process_runs_writes idx l acc ev :
  In ev (fst (runs idx l acc)) -> exists path text, ev = EWriteText path text.
Proof.
  revert idx acc. induction l as [|res l IH]; intros idx acc; simpl;
    [intros []|].
  unfold io_bind.
  pose proof (process_run_writes sys gt_data plan_details_dir workload
                idx res ev) as H1.
  destruct (run1 idx res) as [log0 [row|e0]]; cbn [fst] in *.
  - specialize (IH (S idx) (acc ++ [row])).
    destruct (runs (S idx) l (acc ++ [row])) as [log1 r]. cbn [fst] in *.
    intros Hin. apply in_app_or in Hin. destruct Hin as [Hin|Hin]; [|auto].
    destruct (H1 Hin) as [text ->]. eauto.
  - intros Hin. destruct (H1 Hin) as [text ->]. eauto.
Qed.

Lemma process_run_raise_log idx res lg e :
  run1 idx res = (lg, Raise e) -> lg = [].
Proof.
  rewrite process_run_unfold.
  destruct (run_frame res) as [[]|e1]; [|intros H; injection H as <- _; reflexivity].
  destruct (compute_f1 _ _ _) as [f1|e2];
    [|intros H; injection H as <- _; reflexivity].
  destruct (plan_text res) as [v|e3];
    [discriminate | intros H; injection H as <- _; reflexivity].
Qed.

(** The complete row of each run of a loop that succeeds. *)
Lemma process_runs_rows idx l acc log table :
  runs idx l acc = (log, Ok table) ->
  exists rows,
    table = acc ++ rows /\
    forall i res, nth_error l i = Some res ->
      exists f1,
        compute_f1 (run_records res) gt_data workload = Ok f1 /\
        nth_error rows i
        = Some {| Workload := workload;
                  Strategy := strategy_label (idx + i);
                  Time_s := snd (fst (extract_telemetry res));
                  Cost := fst (fst (extract_telemetry res));
                  F1_Score := f1;
                  Plan_File := plan_file_name (idx + i) |}.
Proof.
  revert idx acc log. induction l as [|res0 l IH]; intros idx acc log; simpl.
  - unfold io_ret. intros H. injection H as <- <-. exists [].
    rewrite List.app_nil_r. split; [reflexivity|].
    intros [|i] res H; discriminate H.
  - unfold io_bind.
    destruct (run1 idx res0) as [log0 [row0|e0]] eqn:E0; [|discriminate].
    destruct (runs (S idx) l (acc ++ [row0])) as [log1 r] eqn:E1.
    intros H. injection H as <- ->.
    destruct (IH _ _ _ E1) as [rows [-> Hrows]].
    exists (row0 :: rows). rewrite <- app_assoc. split; [reflexivity|].
    intros [|i] res Hnth; simpl in Hnth.
    + injection Hnth as <-. rewrite Nat.add_0_r.
      rewrite process_run_unfold in E0.
      destruct (run_frame res0) as [[]|]; [|discriminate].
      destruct (compute_f1 _ _ _) as [f1|]; [|discriminate].
      destruct (plan_text res0) as [v|]; [|discriminate].
      injection E0 as _ <-. exists f1. split; reflexivity.
    + rewrite <- plus_n_Sm. exact (Hrows i res Hnth).
Qed.

End ReportFacts.

(** The two confirmation lines are printed only by a call that ends
    normally, and only after it has written the summary table, one row per
    run. *)
Theorem confirmation_only_after_table :
  forall (sys : Sys) (results_iterable : iterable) (gt_data : gt_index)
         (output_csv plan_details_dir workload : string)
         (log : list event) (outcome : result unit) (line : string),
    write_results_and_plans sys results_iterable gt_data output_csv
      plan_details_dir workload = (log, outcome) ->
    In (EPrint line) log ->
    outcome = Ok tt /\
    exists before table after,
      log = before ++ EWriteTable output_csv table :: after /\
      In (EPrint line) after /\
      length table = length (to_list results_iterable).
Proof.
  intros sys it gt_data output_csv plan_details_dir workload log outcome line.
  unfold write_results_and_plans, makedirs, to_csv, print.
  set (out_dir := if PyStr.is_empty (Path.dirname output_csv)
                  then "." else Path.dirname output_csv).
  assert (Hno : forall l, (forall ev, In ev l ->
                   exists path text, ev = EWriteText path text) ->
                 ~ In (EPrint line) l).
  { intros l Hl Hin. destruct (Hl _ Hin) as [p [t Ht]]. discriminate Ht. }
  destruct (can_makedirs sys out_dir);
    [|intros H; injection H as <- <-; intros []].
  destruct (can_makedirs sys plan_details_dir);
    [|intros H; injection H as <- <-; intros [H|[]]; discriminate H].
  cbn [io_bind].
  pose proof (process_runs_writes sys gt_data plan_details_dir workload 1
                (to_list it) []) as Hw.
  destruct (process_runs sys gt_data plan_details_dir workload 1
              (to_list it) []) as [rlog [table|e]] eqn:E; cbn [fst] in Hw.
  2:{ cbn [app]. intros H. injection H as <- <-.
      intros [H|[H|H]]; try discriminate H. destruct (Hno rlog Hw H). }
  destruct (process_runs_ok _ _ _ _ _ _ _ _ _ E) as [rows [Ht [Hlen _]]].
  simpl in Ht. subst table.
  destruct (can_open sys output_csv).
  2:{ cbn [app]. intros H. injection H as <- <-.
      intros [H|[H|H]]; try discriminate H.
      rewrite List.app_nil_r in H. destruct (Hno rlog Hw H). }
  cbn [io_bind app]. intros H. injection H as <- <-.
  match goal with |- context [rlog ++ ?t :: ?t'] =>
    set (tail := t') end.
  intros Hin. split; [reflexivity|].
  exists (EMakedirs out_dir :: EMakedirs plan_details_dir :: rlog), rows, tail.
  split; [reflexivity|]. split; [|exact Hlen].
  destruct Hin as [H|[H|H]]; try discriminate H.
  apply in_app_or in H. destruct H as [H|H]; [destruct (Hno rlog Hw H)|].
  destruct H as [H|H]; [discriminate H | exact H].
Qed.

Lemma confirmation_only_after_table_witness :
  exists before table after,
    fst (write_results_and_plans permissive (Iterable [sample_run])
           (GTFlat [("a.txt", 1%Z)]) "out/results.csv" "plans" "enron")
    = before ++ EWriteTable "out/results.csv" table :: after /\
    In (EPrint "Plan details saved in plans") after /\
    length table = 1.
Proof.
  refine (proj2 (confirmation_only_after_table permissive
                   (Iterable [sample_run]) (GTFlat [("a.txt", 1%Z)])
                   "out/results.csv" "plans" "enron" _ _
                   "Plan details saved in plans" eq_refl _)).
  simpl. tauto.
Defined.

(** A call that fails at some run has done exactly what a call on the runs
    before it does, short of writing the table and printing the two
    lines: the plan files of the earlier runs are written, nothing else. *)
Theorem failed_pass_keeps_earlier_plan_files :
  forall (sys : Sys) (gt_data : gt_index)
         (output_csv plan_details_dir workload : string)
         (pre post : list RunOutput) (res : RunOutput)
         (log_pre : list event) (e : exn),
    write_results_and_plans sys (Iterable pre) gt_data output_csv
      plan_details_dir workload = (log_pre, Ok tt) ->
    snd (process_run sys gt_data plan_details_dir workload
           (S (length pre)) res) = Raise e ->
    exists log table line1 line2,
      write_results_and_plans sys (Iterable (pre ++ res :: post)) gt_data
        output_csv plan_details_dir workload = (log, Raise e) /\
      log_pre = log ++ [EWriteTable output_csv table; EPrint line1;
                        EPrint line2].
Proof.
  intros sys gt_data output_csv plan_details_dir workload pre post res
         log_pre e.
  unfold write_results_and_plans, makedirs, to_csv, print. cbn [to_list].
  set (out_dir := if PyStr.is_empty (Path.dirname output_csv)
                  then "." else Path.dirname output_csv).
  destruct (can_makedirs sys out_dir); [|discriminate].
  destruct (can_makedirs sys plan_details_dir); [|discriminate].
  cbn [io_bind]. rewrite process_runs_app.
  destruct (process_runs sys gt_data plan_details_dir workload 1 pre [])
    as [rlog [table|e0]]; [|discriminate].
  destruct (can_open sys output_csv); [|discriminate].
  cbn [io_bind app]. intros H. injection H as <-. intros Hres.
  rewrite Nat.add_1_r. cbn [process_runs].
  destruct (process_run sys gt_data plan_details_dir workload
              (S (length pre)) res) as [lg [row|e1]] eqn:E;
    cbn [snd] in Hres; [discriminate|].
  injection Hres as ->.
  rewrite (process_run_raise_log _ _ _ _ _ _ _ _ E).
  cbn [io_bind]. rewrite List.app_nil_r.
  eexists _, table, _, _. split; [reflexivity|]. reflexivity.
Qed.

Lemma failed_pass_keeps_earlier_plan_files_witness :
  exists log table line1 line2,
    write_results_and_plans permissive
      (Iterable ([sample_run] ++ bare_run :: [sample_run]))
      (GTFlat [("a.txt", 1%Z)]) "out/results.csv" "plans" "enron"
    = (log, Raise AttributeError) /\
    fst (write_results_and_plans permissive (Iterable [sample_run])
           (GTFlat [("a.txt", 1%Z)]) "out/results.csv" "plans" "enron")
    = log ++ [EWriteTable "out/results.csv" table; EPrint line1;
              EPrint line2].
Proof.
  exact (failed_pass_keeps_earlier_plan_files permissive
           (GTFlat [("a.txt", 1%Z)]) "out/results.csv" "plans" "enron"
           [sample_run] [sample_run] bare_run _ AttributeError
           eq_refl eq_refl).
Defined.

Lemma process_run_outcome_any_system sys sys' gt_data dir workload idx res :
  snd (process_run sys gt_data dir workload idx res)
  = snd (process_run sys' gt_data dir workload idx res).
Proof.
  rewrite !process_run_unfold.
  destruct (run_frame res) as [[]|]; [|reflexivity].
  destruct (compute_f1 _ _ _); [|reflexivity].
  destruct (plan_text res); reflexivity.
Qed.

Lemma process_runs_outcome_any_system sys sys' gt_data dir workload idx l acc :
  snd (process_runs sys gt_data dir workload idx l acc)
  = snd (process_runs sys' gt_data dir workload idx l acc).
Proof.
  revert idx acc. induction l as [|res l IH]; intros idx acc; simpl;
    [reflexivity|].
  unfold io_bind.
  pose proof (process_run_outcome_any_system sys sys' gt_data dir workload
                idx res) as H1.
  destruct (process_run sys gt_data dir workload idx res) as [lg [row|e]],
           (process_run sys' gt_data dir workload idx res) as [lg' [row'|e']];
    cbn [snd] in H1; try discriminate.
  - injection H1 as <-. specialize (IH (S idx) (acc ++ [row])).
    destruct (process_runs sys gt_data dir workload (S idx) l (acc ++ [row])),
             (process_runs sys' gt_data dir workload (S idx) l (acc ++ [row])).
    exact IH.
  - cbn [snd]. injection H1 as <-. reflexivity.
Qed.

Lemma filter_none {A : Type} (f : A -> bool) (l : list A) :
  (forall x, In x l -> f x = false) -> filter f l = [].
Proof.
  induction l as [|x l IH]; simpl; intros H; [reflexivity|].
  rewrite (H x (or_introl eq_refl)). apply IH.
  intros y Hy. apply H. right. exact Hy.
Qed.

(** Whether the plan files can be opened changes neither how the call
    ends nor the table it writes: on two systems that agree on the
    directories and on the table's path, the outcome and the table written
    are the same. *)
Theorem plan_file_failures_do_not_matter :
  forall (sys sys' : Sys) (results_iterable : iterable) (gt_data : gt_index)
         (output_csv plan_details_dir workload : string),
    (forall path, can_makedirs sys path = can_makedirs sys' path) ->
    can_open sys output_csv = can_open sys' output_csv ->
    snd (write_results_and_plans sys results_iterable gt_data output_csv
           plan_details_dir workload)
    = snd (write_results_and_plans sys' results_iterable gt_data output_csv
             plan_details_dir workload) /\
    filter writes_table
      (fst (write_results_and_plans sys results_iterable gt_data output_csv
              plan_details_dir workload))
    = filter writes_table
        (fst (write_results_and_plans sys' results_iterable gt_data
                output_csv plan_details_dir workload)).
Proof.
  intros sys sys' it gt_data output_csv plan_details_dir workload Hmk Hopen.
  unfold write_results_and_plans, makedirs, to_csv, print.
  rewrite <- !Hmk, <- Hopen.
  destruct (can_makedirs sys _); [|split; reflexivity].
  destruct (can_makedirs sys plan_details_dir); [|split; reflexivity].
  cbn [io_bind].
  pose proof (process_runs_outcome_any_system sys sys' gt_data
                plan_details_dir workload 1 (to_list it) []) as Hs.
  pose proof (process_runs_no_table sys gt_data plan_details_dir workload 1
                (to_list it) []) as Hn.
  pose proof (process_runs_no_table sys' gt_data plan_details_dir workload 1
                (to_list it) []) as Hn'.
  destruct (process_runs sys gt_data plan_details_dir workload 1
              (to_list it) []) as [rlog r],
           (process_runs sys' gt_data plan_details_dir workload 1
              (to_list it) []) as [rlog' r'].
  cbn [fst snd] in *. subst r'.
  apply filter_none in Hn, Hn'.
  destruct r as [table|e].
  2:{ cbn [io_bind fst snd filter writes_table].
      split; [reflexivity|]. rewrite !filter_app, Hn, Hn'. reflexivity. }
  destruct (can_open sys output_csv);
    cbn [io_bind fst snd filter writes_table];
    (split; [reflexivity|]); rewrite !filter_app, Hn, Hn'; reflexivity.
Qed.

Lemma plan_file_failures_do_not_matter_witness :
  snd (write_results_and_plans permissive (Iterable [sample_run])
         (GTFlat [("a.txt", 1%Z)]) "out/results.csv" "plans" "enron")
  = snd (write_results_and_plans
           {| can_makedirs := fun _ => true;
              can_open := fun path => String.eqb path "out/results.csv" |}
           (Iterable [sample_run])
           (GTFlat [("a.txt", 1%Z)]) "out/results.csv" "plans" "enron").
Proof.
  refine (proj1 (plan_file_failures_do_not_matter permissive _
                   (Iterable [sample_run]) (GTFlat [("a.txt", 1%Z)])
                   "out/results.csv" "plans" "enron" _ _)).
  - intros path. reflexivity.
  - reflexivity.
Defined.

(** In the table of a call that ends normally, the row of each run holds
    the workload tag, [Plan-<idx>], the time and cost read from the run's
    statistics, the score [compute_f1] gave for the run's records, and
    [<idx>.txt]. *)
Theorem summary_row_contents :
  forall (sys : Sys) (results_iterable : iterable) (gt_data : gt_index)
         (output_csv plan_details_dir workload : string) (log : list event),
    write_results_and_plans sys results_iterable gt_data output_csv
      plan_details_dir workload = (log, Ok tt) ->
    exists table,
      In (EWriteTable output_csv table) log /\
      forall i res, nth_error (to_list results_iterable) i = Some res ->
        exists f1,
          compute_f1 (run_records res) gt_data workload = Ok f1 /\
          nth_error table i
          = Some {| Workload := workload;
                    Strategy := strategy_label (S i);
                    Time_s := snd (fst (extract_telemetry res));
                    Cost := fst (fst (extract_telemetry res));
                    F1_Score := f1;
                    Plan_File := plan_file_name (S i) |}.
Proof.
  intros sys it gt_data output_csv plan_details_dir workload log.
  unfold write_results_and_plans, makedirs, to_csv, print.
  destruct (can_makedirs sys _); [|discriminate].
  destruct (can_makedirs sys plan_details_dir); [|discriminate].
  cbn [io_bind].
  destruct (process_runs sys gt_data plan_details_dir workload 1
              (to_list it) []) as [rlog [table|e]] eqn:E; [|discriminate].
  destruct (can_open sys output_csv); [|discriminate].
  cbn [io_bind app]. intros H. injection H as <-.
  destruct (process_runs_rows _ _ _ _ _ _ _ _ _ E) as [rows [Ht Hrows]].
  simpl in Ht. subst table. exists rows. split.
  - right. right. apply in_or_app. right. left. reflexivity.
  - exact Hrows.
Qed.

Lemma summary_row_contents_witness :
  exists table,
    In (EWriteTable "out/results.csv" table)
       (fst (write_results_and_plans permissive (Iterable [sample_run])
               (GTFlat [("a.txt", 1%Z)]) "out/results.csv" "plans" "enron")) /\
    exists f1,
      nth_error table 0
      = Some {| Workload := "enron"; Strategy := "Plan-1";
                Time_s := PNum 3; Cost := PNum 5; F1_Score := f1;
                Plan_File := "1.txt" |}.
Proof.
  destruct (summary_row_contents permissive (Iterable [sample_run])
              (GTFlat [("a.txt", 1%Z)]) "out/results.csv" "plans" "enron"
              _ eq_refl) as [table [Hin Hrows]].
  exists table. split; [exact Hin|].
  destruct (Hrows 0 sample_run eq_refl) as [f1 [_ Hrow]].
  exists f1. exact Hrow.
Defined.

(* ===================================================================== *)
(** ** The conversion helpers *)
(* ===================================================================== *)

Lemma last_segment_no_slash (s : string) : has_slash (last_segment s) = false.
Proof.
  induction s as [|c s IH]; simpl; [reflexivity|].
  destruct (Path.is_slash c || has_slash s) eqn:E; [exact IH|].
  simpl. exact E.
Qed.

Lemma last_segment_suffix (s : string) :
  exists prefix,
    s = (prefix ++ last_segment s)%string /\
    (prefix = EmptyString \/ Path.ends_with_slash prefix = true).
Proof.
  induction s as [|c s [prefix [Hs Hp]]]; simpl.
  - exists EmptyString. split; [reflexivity | left; reflexivity].
  - destruct (Path.is_slash c || has_slash s) eqn:E.
    + exists (String c prefix). split; [simpl; rewrite <- Hs; reflexivity|].
      right. destruct Hp as [-> | Hp].
      * simpl in Hs. simpl.
        destruct (Path.is_slash c) eqn:Ec; [reflexivity|].
        simpl in E. rewrite Hs, last_segment_no_slash in E. discriminate.
      * destruct prefix; [discriminate Hp | exact Hp].
    + exists EmptyString. split; [reflexivity | left; reflexivity].
Qed.

Lemma last_segment_without_slash (s : string) :
  has_slash s = false -> last_segment s = s.
Proof. destruct s as [|c s]; simpl; [|intros ->]; reflexivity. Qed.

(** [url_to_file] returns for every candidate whose [url] is a string: the
    file name is what follows the last slash of the URL (the whole URL
    when it has none), and a fetch that fails is reported and leaves the
    contents empty instead of raising. *)
Theorem url_to_file_returns :
  forall (net : Net) (candidate : Dict.t pyval) (url : string),
    Dict.get "url" candidate = Some (PStr url) ->
    exists notices file,
      url_to_file net candidate = (notices, Ok file) /\
      has_slash (file_filename file) = false /\
      (exists prefix,
         url = (prefix ++ file_filename file)%string /\
         (prefix = EmptyString \/ Path.ends_with_slash prefix = true)) /\
      (has_slash url = false -> file_filename file = url) /\
      (forall e, http_get net url = Raise e ->
         notices = [FetchError url e] /\ file_contents file = EmptyString) /\
      (forall body, http_get net url = Ok body ->
         notices = [] /\ file_contents file = body).
Proof.
  intros net candidate url Hurl. unfold url_to_file. rewrite Hurl.
  destruct (http_get net url) as [body|e]; eexists _, _;
    (split; [reflexivity|]); cbn [file_filename file_contents];
    (split; [apply last_segment_no_slash|]);
    (split; [apply last_segment_suffix|]);
    (split; [apply last_segment_without_slash|]);
    split; intros x Hx; try discriminate Hx; injection Hx as <-;
    split; reflexivity.
Qed.

Lemma url_to_file_returns_witness :
  exists notices file,
    url_to_file {| http_get := fun _ => Raise OSError;
                   now_isoformat := "2024-01-01T00:00:00" |}
                [("url", PStr "https://host/dir/book.xlsx")]
    = (notices, Ok file) /\
    file_filename file = "book.xlsx" /\ file_contents file = EmptyString.
Proof.
  destruct (url_to_file_returns
              {| http_get := fun _ => Raise OSError;
                 now_isoformat := "2024-01-01T00:00:00" |}
              [("url", PStr "https://host/dir/book.xlsx")]
              "https://host/dir/book.xlsx" eq_refl)
    as [notices [file [H [_ [_ [_ [Hfail _]]]]]]].
  exists notices, file. split; [exact H|].
  split; [|exact (proj2 (Hfail OSError eq_refl))].
  simpl in H. injection H as _ <-. reflexivity.
Defined.

Section TablesFacts.
Variable MAX_ROWS : nat.
Variable read_excel : string -> string -> result Sheet.
Variable candidate : XlsCandidate.

Local Abbreviation workbook := (or_default (xls_contents candidate) EmptyString).
Local Abbreviation readable :=
  (fun sheet_name => is_ok (read_excel workbook sheet_name)).

Lemma xls_sheets_readable sheet_names :
  map table_name (snd (xls_sheets MAX_ROWS read_excel candidate sheet_names))
  = map (fun sheet_name =>
           (last_segment (or_default (xls_filename candidate) "file")
            ++ "_" ++ sheet_name)%string)
        (filter readable sheet_names) /\
  map skipped_sheet
      (fst (xls_sheets MAX_ROWS read_excel candidate sheet_names))
  = map Some (filter (fun s => negb (readable s)) sheet_names).
Proof.
  induction sheet_names as [|s sheet_names [IH1 IH2]]; simpl;
    [split; reflexivity|].
  destruct (xls_sheets MAX_ROWS read_excel candidate sheet_names)
    as [notices records].
  cbn [fst snd] in *.
  destruct (read_excel workbook s) as [df|e]; cbn [is_ok negb fst snd map].
  - rewrite IH1, IH2. split; reflexivity.
  - rewrite IH1, IH2. split; reflexivity.
Qed.

Lemma xls_sheets_records sheet_names r :
  In r (snd (xls_sheets MAX_ROWS read_excel candidate sheet_names)) ->
  exists sheet_name dataframe,
    In sheet_name sheet_names /\
    read_excel workbook sheet_name = Ok dataframe /\
    r = table_record MAX_ROWS candidate sheet_name dataframe.
Proof.
  induction sheet_names as [|s sheet_names IH]; simpl; [intros []|].
  destruct (xls_sheets MAX_ROWS read_excel candidate sheet_names)
    as [notices records].
  cbn [snd] in IH.
  destruct (read_excel workbook s) as [df|e] eqn:E; cbn [snd].
  - intros [<-|Hin].
    + exists s, df. repeat split; [left; reflexivity | exact E].
    + destruct (IH Hin) as [s' [df' [Hs [Hr ->]]]].
      exists s', df'. repeat split; [right; exact Hs | exact Hr].
  - intros Hin. destruct (IH Hin) as [s' [df' [Hs [Hr ->]]]].
    exists s', df'. repeat split; [right; exact Hs | exact Hr].
Qed.

End TablesFacts.

(** [xls_to_tables] gives one record per sheet that can be read, in the
    order of the sheet names and named after the file and the sheet, and
    one notice per sheet that cannot; a sheet that cannot be read never
    stops the others. *)
Theorem xls_to_tables_skips_unreadable_sheets :
  forall (MAX_ROWS : nat) (read_excel : string -> string -> result Sheet)
         (candidate : XlsCandidate),
    let sheet_names := or_default (xls_sheet_names candidate) [] in
    let workbook := or_default (xls_contents candidate) EmptyString in
    let readable := fun s => is_ok (read_excel workbook s) in
    let (notices, records) := xls_to_tables MAX_ROWS read_excel candidate in
    map table_name records
    = map (fun s =>
             (last_segment (or_default (xls_filename candidate) "file")
              ++ "_" ++ s)%string)
          (filter readable sheet_names) /\
    map skipped_sheet notices
    = map Some (filter (fun s => negb (readable s)) sheet_names) /\
    length records + length notices = length sheet_names.
Proof.
  intros MAX_ROWS read_excel candidate sheet_names workbook readable.
  unfold xls_to_tables. fold sheet_names.
  destruct (xls_sheets_readable MAX_ROWS read_excel candidate sheet_names)
    as [H1 H2].
  destruct (xls_sheets MAX_ROWS read_excel candidate sheet_names)
    as [notices records].
  cbn [fst snd] in *. split; [exact H1|]. split; [exact H2|].
  apply (f_equal (@length _)) in H1, H2. rewrite !length_map in H1, H2.
  rewrite H1, H2. clear H1 H2. clearbody sheet_names.
  induction sheet_names as [|s l IH]; simpl; [reflexivity|].
  destruct (is_ok (read_excel _ s)); simpl; lia.
Qed.

(** Every record of [xls_to_tables] comes from a sheet that was read: its
    rows are the first [MAX_ROWS] rows of the sheet, each one the texts of
    its cells joined by a comma and a blank, so there are never more than
    [MAX_ROWS] of them, and its header is the texts of the column labels. *)
Theorem xls_to_tables_rows_bounded :
  forall (MAX_ROWS : nat) (read_excel : string -> string -> result Sheet)
         (candidate : XlsCandidate) (r : TableRecord),
    In r (snd (xls_to_tables MAX_ROWS read_excel candidate)) ->
    length (table_rows r) <= MAX_ROWS /\
    exists sheet_name dataframe,
      In sheet_name (or_default (xls_sheet_names candidate) []) /\
      read_excel (or_default (xls_contents candidate) EmptyString) sheet_name
        = Ok dataframe /\
      table_rows r
        = map (fun row => String.concat ", " (map cell_str row))
              (firstn MAX_ROWS (sheet_values dataframe)) /\
      length (table_rows r)
        = Nat.min MAX_ROWS (length (sheet_values dataframe)) /\
      table_header r = map cell_str (sheet_columns dataframe).
Proof.
  intros MAX_ROWS read_excel candidate r Hin. unfold xls_to_tables in Hin.
  destruct (xls_sheets_records _ _ _ _ _ Hin) as [s [df [Hs [Hr ->]]]].
  unfold table_record. cbn [table_rows table_header].
  rewrite length_map, length_firstn. split; [apply Nat.le_min_l|].
  exists s, df. repeat split; assumption.
Qed.

Lemma xls_to_tables_rows_bounded_witness :
  exists r,
    In r (snd (xls_to_tables 2 sample_read_excel sample_workbook)) /\
    length (table_rows r) = 2.
Proof.
  eexists. split; [left; reflexivity|].
  destruct (xls_to_tables_rows_bounded 2 sample_read_excel sample_workbook
              _ (or_introl eq_refl)) as [Hle _].
  reflexivity.
Defined.

(* ===================================================================== *)
(** ** The keys of the nested index *)
(* ===================================================================== *)

Lemma medical_rows_keys cols author key rs :
  forall m m', In key (Dict.keys m) ->
  medical_rows cols author key m rs = Ok m' ->
  forall k, In k (Dict.keys m') <-> In k (Dict.keys m).
Proof.
  induction rs as [|row rs IH]; simpl; intros m m' Hk H k.
  - injection H as <-. reflexivity.
  - destruct (medical_row cols author key m row) as [m1|] eqn:E; simpl in H;
      [|discriminate].
    assert (H1 : forall x, In x (Dict.keys m1) <-> In x (Dict.keys m)).
    { unfold medical_row in E.
      destruct (medical_attr cols row) as [[attr|]|]; simpl in E;
        [| injection E as <-; reflexivity | discriminate].
      destruct (row_getitem cols row author); simpl in E; [|discriminate].
      destruct (Dict.get key m); [|discriminate].
      injection E as <-. intros x. rewrite DictFacts.keys_set.
      split; [intros [-> | Hx]; assumption | intros Hx; right; exact Hx]. }
    rewrite (IH m1 m' (proj2 (H1 key) Hk) H k). apply H1.
Qed.

Lemma medical_authors_keys df authors :
  forall m m', medical_authors df m authors = Ok m' ->
  forall k, In k (Dict.keys m') <->
            In k (Dict.keys m) \/ In k (map source_key authors).
Proof.
  induction authors as [|a authors IH]; simpl; intros m m' H k.
  - injection H as <-. tauto.
  - destruct (medical_author df m a) as [m1|] eqn:E; simpl in H;
      [|discriminate].
    rewrite (IH m1 m' H k). unfold medical_author in E.
    fold (source_key a) in E.
    rewrite (medical_rows_keys _ _ _ _ _ _
               (proj2 (DictFacts.keys_set _ _ _ _) (or_introl eq_refl)) E k).
    rewrite DictFacts.keys_set. intuition.
Qed.

Lemma inner_of_keys cols author rs init a :
  In a (Dict.keys (inner_of cols author rs init)) <->
  In a (Dict.keys init) \/ exists row, In row rs /\ attr_key row = a.
Proof.
  unfold inner_of. revert init.
  induction rs as [|r rs IH]; simpl; intros init.
  - split; [tauto | intros [H|[row [[] _]]]; exact H].
  - rewrite IH, DictFacts.keys_set. split.
    + intros [[-> | H] | [row [Hr Ha]]]; eauto.
    + intros [H | [row [[<- | Hr] Ha]]]; eauto.
Qed.

Lemma nested_index_contents :
  forall (env : Env) (gt_path dataset_dir : string) (df : DataFrame)
         (gt_map : Dict.t (Dict.t bool)),
    read_csv env gt_path = Ok df ->
    load_ground_truth env "medical-schema-matching" gt_path dataset_dir
      = Ok (GTNested gt_map) ->
    (forall k, In k (Dict.keys gt_map) <->
               In k (tl (columns (normalize_columns df)))) /\
    (forall k inner, Dict.get k gt_map = Some inner ->
       forall a, In a (Dict.keys inner) <->
                 exists row, In row (rows df) /\
                             PyStr.strip (cell_str (nth 0 row NaN)) = a).
Proof.
  intros env gt_path dataset_dir df gt_map Hread Hload.
  unfold load_ground_truth in Hload. rewrite Hread in Hload.
  destruct (PyStr.is_empty gt_path || negb (path_exists env gt_path));
    [discriminate Hload|].
  change (String.eqb "medical-schema-matching" "enron") with false in Hload.
  change (String.eqb "medical-schema-matching" "real-estate")
    with false in Hload.
  change (String.eqb "medical-schema-matching" "medical-schema-matching")
    with true in Hload.
  cbv iota beta zeta in Hload.
  set (ndf := normalize_columns df) in *.
  destruct (medical_authors ndf [] (tl (columns ndf))) as [m|] eqn:E;
    simpl in Hload; [|discriminate].
  injection Hload as ->.
  assert (Hkey : forall a, In a (tl (columns ndf)) -> source_key a = a).
  { intros a Ha. apply (normalized_column_is_its_key df). apply In_tl.
    exact Ha. }
  assert (Hkeys : forall k, In k (Dict.keys gt_map) <->
                            In k (tl (columns ndf))).
  { intros k. rewrite (medical_authors_keys _ _ _ _ E k). simpl. split.
    - intros [[] | Hk]. apply in_map_iff in Hk.
      destruct Hk as [a [<- Ha]]. rewrite (Hkey a Ha). exact Ha.
    - intros Hk. right. apply in_map_iff. exists k.
      split; [exact (Hkey k Hk) | exact Hk]. }
  split; [exact Hkeys|].
  intros k inner Hget a.
  assert (Hk : In k (tl (columns ndf)))
    by (apply Hkeys; exact (DictFacts.get_Some_keys _ _ _ Hget)).
  destruct (columns ndf) as [|c0 rest] eqn:Ec; [destruct Hk|].
  destruct (medical_authors_spec ndf c0 rest (tl (c0 :: rest)) Ec
              (fun x Hx => index_of_In x (c0 :: rest) (or_intror Hx)) [])
    as [m' [E' [_ G]]].
  rewrite E in E'. injection E' as <-.
  assert (Hinner : Dict.get (source_key k) gt_map
                   = Some (inner_of (c0 :: rest) k (rows ndf) [])).
  { apply (G k Hk). intros a2 Ha2 Hs.
    rewrite (Hkey a2 Ha2), (Hkey k Hk) in Hs. exact Hs. }
  rewrite (Hkey k Hk), Hget in Hinner. injection Hinner as ->.
  rewrite inner_of_keys. simpl. split.
  - intros [[] | H]. exact H.
  - intros H. right. exact H.
Qed.

(** For a readable table whose normalized column labels are pairwise
    distinct, the nested index has one key per source column, the columns
    after the first in their normal form, and nothing else; under each key
    the attribute names are exactly the trimmed first cells of the rows. *)
Theorem nested_index_keys :
  forall (env : Env) (gt_path dataset_dir : string) (df : DataFrame)
         (gt_map : Dict.t (Dict.t bool)),
    read_csv env gt_path = Ok df ->
    NoDup (columns (normalize_columns df)) ->
    load_ground_truth env "medical-schema-matching" gt_path dataset_dir
      = Ok (GTNested gt_map) ->
    (forall k, In k (Dict.keys gt_map) <->
               In k (tl (columns (normalize_columns df)))) /\
    (forall k inner, Dict.get k gt_map = Some inner ->
       forall a, In a (Dict.keys inner) <->
                 exists row, In row (rows df) /\
                             PyStr.strip (cell_str (nth 0 row NaN)) = a).
Proof.
  intros env gt_path dataset_dir df gt_map Hread _.
  exact (nested_index_contents env gt_path dataset_dir df gt_map Hread).
Qed.

Lemma nested_index_keys_witness :
  In "sourcea"
     (Dict.keys [("sourcea", [("age", true); ("name", true); ("sex", false)])])
  <-> In "sourcea" ["sourcea"].
Proof.
  exact (proj1 (nested_index_keys padded_env "gt.csv" "data"
                  {| columns := ["target_attribute"; "sourceA"];
                     rows := [[CStr "age"; CStr "1"];
                              [CStr "name"; CStr " Missing "];
                              [CStr "sex"; CStr "Missing"]] |}
                  [("sourcea", [("age", true); ("name", true);
                                ("sex", false)])]
                  eq_refl
                  ltac:(repeat constructor; simpl; intuition discriminate)
                  eq_refl) "sourcea").
Defined.

(* ===================================================================== *)
(** ** Where the keys of an index come from *)
(* ===================================================================== *)

Lemma lstrip_edge (s : string) :
  exists a, s = (a ++ PyStr.lstrip s)%string /\ all_space a = true.
Proof.
  induction s as [|c s [a [Ha Hs]]]; simpl.
  - exists EmptyString. split; reflexivity.
  - destruct (PyStr.is_space c) eqn:E.
    + exists (String c a). simpl. rewrite E, Hs, <- Ha. split; reflexivity.
    + exists EmptyString. split; reflexivity.
Qed.

Lemma rstrip_edge (s : string) :
  exists b, s = (PyStr.rstrip s ++ b)%string /\ all_space b = true.
Proof.
  induction s as [|c s [b [Hb Hs]]]; simpl.
  - exists EmptyString. split; reflexivity.
  - destruct (PyStr.rstrip s) as [|c' r] eqn:Er.
    + simpl in Hb. subst b. destruct (PyStr.is_space c) eqn:E.
      * exists (String c s). simpl. rewrite E, Hs. split; reflexivity.
      * exists s. split; [reflexivity | exact Hs].
    + exists b. simpl. rewrite Hb at 1. split; [reflexivity | exact Hs].
Qed.

(** [strip] takes white space off the two ends and touches nothing else. *)
Lemma strip_edges (s : string) :
  exists a b, s = (a ++ PyStr.strip s ++ b)%string /\
              all_space a = true /\ all_space b = true.
Proof.
  destruct (lstrip_edge s) as [a [Ha Hsa]].
  destruct (rstrip_edge (PyStr.lstrip s)) as [b [Hb Hsb]].
  exists a, b. unfold PyStr.strip. rewrite <- Hb. auto.
Qed.

Lemma index_of_lt name cols i :
  index_of name cols = Some i -> i < length cols.
Proof.
  revert i. induction cols as [|c cols IH]; simpl; intros i; [discriminate|].
  destruct (String.eqb c name).
  - intros H. injection H as <-. apply Nat.lt_0_succ.
  - destruct (index_of name cols) as [j|]; simpl; [|discriminate].
    intros H. injection H as <-. apply -> Nat.succ_lt_mono. exact (IH j eq_refl).
Qed.

(** The identifier of an enron row is the trimmed text of one of its
    cells. *)
Lemma enron_fname_cell cols row fname :
  enron_fname cols row = Ok fname ->
  exists i, i < length cols /\
            fname = PyStr.strip (cell_str (nth i row NaN)).
Proof.
  unfold enron_fname.
  assert (Hfall : (x <- iloc cols row 0 ;; Ok (PyStr.strip (cell_str x)))
                  = Ok fname ->
                  exists i, i < length cols /\
                            fname = PyStr.strip (cell_str (nth i row NaN))).
  { unfold iloc. destruct (0 <? length cols) eqn:E; simpl; [|discriminate].
    intros H. injection H as <-. exists 0. split; [|reflexivity].
    apply Nat.ltb_lt. exact E. }
  destruct (first_present enron_id_cands cols) as [cand|] eqn:Ec;
    [|exact Hfall].
  destruct (PyStr.strip (cell_str _)) as [|c s] eqn:E; [exact Hfall|].
  intros H. injection H as <-. rewrite <- E.
  unfold row_get_default, row_get.
  apply find_some in Ec. destruct Ec as [_ Hmem].
  apply PyStrFacts.mem_In in Hmem.
  pose proof (index_of_In cand cols Hmem) as Hi.
  destruct (index_of cand cols) as [i|] eqn:Ei; [|contradiction].
  exists i. split; [exact (index_of_lt _ _ _ Ei) | reflexivity].
Qed.

(** So is the identifier of a real-estate row. *)
Lemma real_estate_id_cell cols row listing_id :
  real_estate_id cols row = Some listing_id ->
  exists i, i < length cols /\
            listing_id = PyStr.strip (cell_str (nth i row NaN)).
Proof.
  unfold real_estate_id.
  destruct (first_present real_estate_id_cands cols) as [cand|];
    [|discriminate].
  unfold row_get. destruct (index_of cand cols) as [i|] eqn:Ei;
    [|discriminate].
  destruct (cell_truthy (nth i row NaN)); [|discriminate].
  intros H. injection H as <-.
  exists i. split; [exact (index_of_lt _ _ _ Ei) | reflexivity].
Qed.

Lemma enron_rows_keys_from cols actual rs :
  forall gt gt', enron_rows cols actual gt rs = Ok gt' ->
  forall x, In x (Dict.keys gt') ->
    In x (Dict.keys gt) \/
    exists row, In row rs /\ enron_fname cols row = Ok x.
Proof.
  induction rs as [|row rs IH]; simpl; intros gt gt' H x Hx.
  - injection H as <-. left. exact Hx.
  - unfold enron_row in H.
    destruct (enron_fname cols row) as [fname|] eqn:E; simpl in H;
      [|discriminate].
    destruct (IH _ _ H x Hx) as [Hin | [r [Hr Hf]]];
      [|right; exists r; split; [right; exact Hr | exact Hf]].
    destruct (PyStr.mem fname actual); [|left; exact Hin].
    apply DictFacts.keys_set in Hin. destruct Hin as [-> | Hin];
      [|left; exact Hin].
    right. exists row. split; [left; reflexivity | exact E].
Qed.

Lemma real_estate_rows_keys_from cols actual rs :
  forall gt gt', real_estate_rows cols actual gt rs = Ok gt' ->
  forall x, In x (Dict.keys gt') ->
    In x (Dict.keys gt) \/
    exists row, In row rs /\ real_estate_id cols row = Some x.
Proof.
  induction rs as [|row rs IH]; simpl; intros gt gt' H x Hx.
  - injection H as <-. left. exact Hx.
  - unfold real_estate_row in H.
    destruct (real_estate_id cols row) as [id|] eqn:E.
    + destruct (real_estate_label cols row) as [label|]; simpl in H;
        [|discriminate].
      destruct (IH _ _ H x Hx) as [Hin | [r [Hr Hf]]];
        [|right; exists r; split; [right; exact Hr | exact Hf]].
      destruct (PyStr.mem id actual); [|left; exact Hin].
      apply DictFacts.keys_set in Hin. destruct Hin as [-> | Hin];
        [|left; exact Hin].
      right. exists row. split; [left; reflexivity | exact E].
    + simpl in H.
      destruct (IH _ _ H x Hx) as [Hin | [r [Hr Hf]]];
        [left; exact Hin|].
      right. exists r. split; [right; exact Hr | exact Hf].
Qed.

(** Each predicted identifier is the trimmed key attribute of a record. *)
Lemma predicted_positives_origin key_attr results predicted :
  predicted_positives key_attr results = Ok predicted ->
  forall s, In s predicted ->
    exists r s', In r results /\ getattr r key_attr = Ok (PStr s') /\
                 s = PyStr.strip s'.
Proof.
  revert predicted.
  induction results as [|r results IH]; simpl; intros predicted H.
  - injection H as <-. intros s [].
  - assert (Hrest : forall p, predicted_positives key_attr results = Ok p ->
              forall s, In s p ->
                exists r0 s', (r = r0 \/ In r0 results) /\
                              getattr r0 key_attr = Ok (PStr s') /\
                              s = PyStr.strip s').
    { intros p Hp s Hs. destruct (IH p Hp s Hs) as [r0 [s' [Hr0 Hg]]].
      exists r0, s'. split; [right; exact Hr0 | exact Hg]. }
    destruct (hasattr r key_attr); [|exact (Hrest _ H)].
    destruct (getattr r key_attr) as [v|] eqn:Eg; simpl in H; [|discriminate].
    destruct v; simpl in H; try discriminate.
    destruct (predicted_positives key_attr results) as [rest|]; simpl in H;
      [|discriminate].
    injection H as <-. intros s0 [<-|Hs].
    + exists r, s. split; [left; reflexivity|]. split; [exact Eg | reflexivity].
    + exact (Hrest rest eq_refl s0 Hs).
Qed.

(** The predicted vector marks a key exactly when that very string is
    among the predicted identifiers. *)
Lemma flat_vectors_exact_match (d : Dict.t Z) (predicted : list string) :
  snd (flat_vectors d predicted)
  = map (fun k => if in_dec string_dec k predicted then 1%Z else 0%Z)
        (Dict.keys d).
Proof.
  unfold flat_vectors, Dict.keys. cbn [snd]. rewrite map_map.
  apply map_ext. intros [k v]. cbn [fst].
  destruct (in_dec string_dec k predicted) as [Hin|Hout].
  - apply PyStrFacts.mem_In in Hin. rewrite Hin. reflexivity.
  - destruct (PyStr.mem k predicted) eqn:E; [|reflexivity].
    apply PyStrFacts.mem_In in E. contradiction.
Qed.

Lemma tl_map {A B : Type} (f : A -> B) (l : list A) :
  tl (map f l) = map f (tl l).
Proof. destruct l; reflexivity. Qed.

(** C2, as the code has it.  Every identifier of a flat index is the text
    of a cell of the table with the white space at its two ends removed
    and nothing else changed, so its case is kept; scoring trims the key
    attribute of each record in the same way and marks a key only when
    that very string was predicted.  Every source key of a nested index is
    a column label after the first, trimmed and lower-cased, and every
    attribute name under it is the trimmed first cell of a row; scoring
    finds a source key only inside the lower-cased file name of the
    record.  The origin of the keys is stated for tables whose normalized
    column labels are pairwise distinct. *)
Theorem index_keys_normal_form :
  forall (env : Env) (workload gt_path dataset_dir : string) (gt : gt_index),
    load_ground_truth env workload gt_path dataset_dir = Ok gt ->
    match gt with
    | GTFlat d => forall k, In k (Dict.keys d) -> trimmed k
    | GTNested d =>
        forall k inner, In (k, inner) d ->
          trimmed k /\ lower_case k /\
          forall a, In a (Dict.keys inner) -> trimmed a
    end /\
    (forall df, read_csv env gt_path = Ok df ->
       NoDup (columns (normalize_columns df)) ->
       match gt with
       | GTFlat d =>
           forall k, In k (Dict.keys d) ->
             exists row i a b,
               In row (rows df) /\ i < length (columns df) /\
               k = PyStr.strip (cell_str (nth i row NaN)) /\
               cell_str (nth i row NaN) = (a ++ k ++ b)%string /\
               all_space a = true /\ all_space b = true
       | GTNested d =>
           (forall k, In k (Dict.keys d) ->
              exists c, In c (tl (columns df)) /\
                        k = PyStr.lower (PyStr.strip c)) /\
           (forall k inner, Dict.get k d = Some inner ->
              forall a, In a (Dict.keys inner) ->
                exists row, In row (rows df) /\
                            a = PyStr.strip (cell_str (nth 0 row NaN)))
       end) /\
    (forall results predicted,
       predicted_positives (key_attr_of workload) results = Ok predicted ->
       (forall s, In s predicted ->
          trimmed s /\
          exists r s', In r results /\
                       getattr r (key_attr_of workload) = Ok (PStr s') /\
                       s = PyStr.strip s') /\
       (forall d, snd (flat_vectors d predicted)
                  = map (fun k => if in_dec string_dec k predicted
                                  then 1%Z else 0%Z) (Dict.keys d))) /\
    (forall record es,
       medical_record gt record = Ok es -> es <> [] ->
       exists s k, record_fname record = PStr s /\ In k (gt_keys gt) /\
                   k <> EmptyString /\
                   PyStr.contains k (PyStr.lower s) = true).
Proof.
  intros env workload gt_path dataset_dir gt Hload.
  split; [|split; [|split]].
  - unfold load_ground_truth in Hload.
    assert (Hempty : forall g, Ok empty_index = Ok g ->
              match g with
              | GTFlat d => forall k, In k (Dict.keys d) -> trimmed k
              | GTNested d => nested_ok d
              end).
    { intros g H. injection H as <-. simpl. intros k []. }
    destruct (PyStr.is_empty gt_path || negb (path_exists env gt_path));
      [exact (Hempty _ Hload)|].
    destruct (read_csv env gt_path) as [df|e]; [|exact (Hempty _ Hload)].
    destruct (String.eqb workload "enron").
    { destruct (dir_listing env dataset_dir) as [actual|]; simpl in Hload;
        [|discriminate].
      destruct (enron_rows _ actual [] _) as [d|] eqn:E; simpl in Hload;
        [|discriminate].
      injection Hload as <-.
      refine (enron_rows_keys trimmed _ _ _ _ _ _ _ E).
      - intros fname row. apply enron_fname_trimmed.
      - intros x []. }
    destruct (String.eqb workload "real-estate").
    { destruct (dir_listing env dataset_dir) as [actual|]; simpl in Hload;
        [|discriminate].
      destruct (real_estate_rows _ actual [] _) as [d|] eqn:E; simpl in Hload;
        [|discriminate].
      injection Hload as <-.
      refine (real_estate_rows_keys trimmed _ _ _ _ _ _ _ E).
      - intros id row. apply real_estate_id_trimmed.
      - intros x []. }
    destruct (String.eqb workload "medical-schema-matching");
      [|exact (Hempty _ Hload)].
    destruct (medical_authors _ [] _) as [m|] eqn:E; simpl in Hload;
      [|discriminate].
    injection Hload as <-.
    refine (medical_authors_ok _ _ _ _ _ E). intros k inner [].
  - intros df Hread _.
    assert (Hcell : forall (row : list cell) i k,
              In row (rows df) ->
              i < length (columns (normalize_columns df)) ->
              k = PyStr.strip (cell_str (nth i row NaN)) ->
              exists row i a b,
                In row (rows df) /\ i < length (columns df) /\
                k = PyStr.strip (cell_str (nth i row NaN)) /\
                cell_str (nth i row NaN) = (a ++ k ++ b)%string /\
                all_space a = true /\ all_space b = true).
    { intros row i k Hrow Hi ->.
      destruct (strip_edges (cell_str (nth i row NaN))) as [a [b [Hs [Ha Hb]]]].
      exists row, i, a, b. simpl in Hi. rewrite length_map in Hi.
      repeat split; assumption. }
    pose proof Hload as Hl. unfold load_ground_truth in Hl.
    rewrite Hread in Hl.
    destruct (PyStr.is_empty gt_path || negb (path_exists env gt_path)) eqn:Ep;
      [injection Hl as <-; intros k []|].
    destruct (String.eqb workload "enron") eqn:Ew.
    { destruct (dir_listing env dataset_dir) as [actual|]; simpl in Hl;
        [|discriminate].
      destruct (enron_rows _ actual [] _) as [d|] eqn:E; simpl in Hl;
        [|discriminate].
      injection Hl as <-. intros k Hk.
      destruct (enron_rows_keys_from _ _ _ _ _ E k Hk) as [[] | [row [Hr Hf]]].
      destruct (enron_fname_cell _ _ _ Hf) as [i [Hi Hki]].
      exact (Hcell row i k Hr Hi Hki). }
    destruct (String.eqb workload "real-estate") eqn:Er.
    { destruct (dir_listing env dataset_dir) as [actual|]; simpl in Hl;
        [|discriminate].
      destruct (real_estate_rows _ actual [] _) as [d|] eqn:E; simpl in Hl;
        [|discriminate].
      injection Hl as <-. intros k Hk.
      destruct (real_estate_rows_keys_from _ _ _ _ _ E k Hk)
        as [[] | [row [Hr Hf]]].
      destruct (real_estate_id_cell _ _ _ Hf) as [i [Hi Hki]].
      exact (Hcell row i k Hr Hi Hki). }
    destruct (String.eqb workload "medical-schema-matching") eqn:Em;
      [|injection Hl as <-; intros k []].
    apply String.eqb_eq in Em. subst workload.
    destruct gt as [d|d].
    { destruct (medical_authors _ [] _); simpl in Hl; discriminate. }
    destruct (nested_index_contents env gt_path dataset_dir df d Hread Hload)
      as [Hkeys Hinner].
    split.
    + intros k Hk. apply Hkeys in Hk. simpl in Hk. rewrite tl_map in Hk.
      apply in_map_iff in Hk. destruct Hk as [c [<- Hc]].
      exists c. split; [exact Hc | reflexivity].
    + intros k inner Hget a Ha. apply (Hinner k inner Hget) in Ha.
      destruct Ha as [row [Hr <-]]. exists row. split; [exact Hr | reflexivity].
  - intros results predicted Hp. split.
    + intros s Hs. split.
      * exact (predicted_positives_trimmed _ _ _ Hp s Hs).
      * exact (predicted_positives_origin _ _ _ Hp s Hs).
    + intros d. apply flat_vectors_exact_match.
  - intros record es. apply medical_record_matches.
Qed.

Lemma index_keys_normal_form_witness :
  load_ground_truth mixed_case_env "enron" "gt.csv" "data"
    = Ok (GTFlat [("Report.TXT", 1%Z)]) /\
  trimmed "Report.TXT" /\
  exists row i a b,
    In row (rows mixed_case_table) /\ i < length (columns mixed_case_table) /\
    "Report.TXT" = PyStr.strip (cell_str (nth i row NaN)) /\
    cell_str (nth i row NaN) = (a ++ "Report.TXT" ++ b)%string /\
    all_space a = true /\ all_space b = true.
Proof.
  split; [reflexivity|].
  destruct (index_keys_normal_form mixed_case_env "enron" "gt.csv" "data"
              (GTFlat [("Report.TXT", 1%Z)]) eq_refl) as [H1 [H2 _]].
  split.
  - exact (H1 "Report.TXT" (or_introl eq_refl)).
  - refine (H2 mixed_case_table eq_refl _ "Report.TXT" (or_introl eq_refl)).
    repeat constructor; simpl; intuition discriminate.
Defined.

(* ===================================================================== *)
(** ** An empty index, and what a missing file or directory gives *)
(* ===================================================================== *)

Lemma real_estate_rows_returns cols actual gt rs :
  (forall row, In row rs -> real_estate_id cols row <> None ->
     exists z, real_estate_label cols row = Ok z) ->
  exists gt', real_estate_rows cols actual gt rs = Ok gt'.
Proof.
  revert gt. induction rs as [|row rs IH]; simpl; intros gt H.
  - eauto.
  - unfold real_estate_row.
    destruct (real_estate_id cols row) as [id|] eqn:E.
    + destruct (H row (or_introl eq_refl)) as [z ->];
        [rewrite E; discriminate|].
      simpl. apply IH. intros r Hr. apply H. right. exact Hr.
    + simpl. apply IH. intros r Hr. apply H. right. exact Hr.
Qed.

(** C1 as the specification words it, refuted: the nested loader never
    looks at the reference directory, so with the ground-truth file in
    place and the directory missing it returns the index of the table,
    and one record that fills the one expected attribute scores 1. *)
Lemma missing_directory_nested_scores_one :
  ~ (forall (env : Env) (workload gt_path dataset_dir : string)
            (results : list pyval) (gt : gt_index),
       path_exists env dataset_dir = false ->
       results <> [] ->
       load_ground_truth env workload gt_path dataset_dir = Ok gt ->
       compute_f1 results gt workload = Ok 0%Q).
Proof.
  intros H.
  assert (Hne : age_records <> []) by discriminate.
  specialize (H no_directory_env "medical-schema-matching" "gt.csv" "data"
                age_records (GTNested [("sourcea", [("age", true)])])
                eq_refl Hne eq_refl).
  vm_compute in H. discriminate H.
Qed.

Example no_directory_nested_ex :
  path_exists no_directory_env "data" = false /\
  load_ground_truth no_directory_env "medical-schema-matching" "gt.csv" "data"
  = Ok (GTNested [("sourcea", [("age", true)])]) /\
  compute_f1 age_records (GTNested [("sourcea", [("age", true)])])
    "medical-schema-matching" = Ok 1%Q.
Proof.
  split; [reflexivity|]. split; [reflexivity|]. vm_compute. reflexivity.
Qed.

(** C1, as the code has it.  Whatever the workload and the result records,
    an empty ground-truth index makes [compute_f1] leave by its first
    [return], with [0.0] and before either vector exists.  A missing or
    unnamed ground-truth file gives the empty index, and so the score 0,
    for every workload.  A missing reference directory does so for the
    flat workloads only, whenever their loader returns: the enron loader
    returns as soon as the table has a column, the real-estate loader when
    [int()] accepts the label of every row it keeps.  The nested loader
    does not depend on the reference directory at all. *)
Theorem compute_f1_empty_ground_truth :
  forall (env : Env) (workload gt_path dataset_dir : string)
         (results : list pyval),
    (forall gt, gt_is_empty gt = true ->
       compute_f1_exit results gt workload = Ok ExitEmptyGT /\
       compute_f1 results gt workload = Ok 0%Q) /\
    (PyStr.is_empty gt_path = true \/ path_exists env gt_path = false ->
       load_ground_truth env workload gt_path dataset_dir = Ok empty_index /\
       compute_f1 results empty_index workload = Ok 0%Q) /\
    (path_exists env dataset_dir = false ->
     is_flat_workload workload = true ->
     forall gt, load_ground_truth env workload gt_path dataset_dir = Ok gt ->
       gt = empty_index /\ compute_f1 results gt workload = Ok 0%Q) /\
    (path_exists env dataset_dir = false ->
     forall df, read_csv env gt_path = Ok df -> columns df <> [] ->
       load_ground_truth env "enron" gt_path dataset_dir = Ok empty_index) /\
    (path_exists env dataset_dir = false ->
     forall df, read_csv env gt_path = Ok df ->
       NoDup (columns (normalize_columns df)) ->
       (forall row, In row (rows df) ->
          real_estate_id (columns (normalize_columns df)) row <> None ->
          exists z,
            real_estate_label (columns (normalize_columns df)) row = Ok z) ->
       load_ground_truth env "real-estate" gt_path dataset_dir
       = Ok empty_index) /\
    (forall other_dir,
       load_ground_truth env "medical-schema-matching" gt_path dataset_dir
       = load_ground_truth env "medical-schema-matching" gt_path other_dir).
Proof.
  intros env workload gt_path dataset_dir results.
  assert (Hzero : forall gt, gt_is_empty gt = true ->
            compute_f1_exit results gt workload = Ok ExitEmptyGT /\
            compute_f1 results gt workload = Ok 0%Q).
  { intros gt H. unfold compute_f1.
    rewrite (compute_f1_exit_empty results gt workload H).
    split; reflexivity. }
  split; [exact Hzero|]. split; [|split; [|split; [|split]]].
  - intros H. split; [|exact (proj2 (Hzero empty_index eq_refl))].
    unfold load_ground_truth.
    destruct H as [H|H]; rewrite H; [reflexivity|].
    rewrite orb_true_r. reflexivity.
  - intros Hdir Hflat gt Hload.
    assert (Hgt : gt = empty_index).
    { revert Hload. unfold load_ground_truth, dir_listing.
      destruct (PyStr.is_empty gt_path || negb (path_exists env gt_path));
        [intros H; injection H as <-; reflexivity|].
      destruct (read_csv env gt_path) as [df|e];
        [|intros H; injection H as <-; reflexivity].
      rewrite Hdir. simpl.
      destruct (flat_workload_cases workload Hflat) as [-> | ->]; simpl.
      + destruct (enron_rows _ [] [] _) as [d|e] eqn:E; simpl;
          [|discriminate].
        apply enron_rows_nothing_on_disk in E. subst d.
        intros H. injection H as <-. reflexivity.
      + destruct (real_estate_rows _ [] [] _) as [d|e] eqn:E; simpl;
          [|discriminate].
        apply real_estate_rows_nothing_on_disk in E. subst d.
        intros H. injection H as <-. reflexivity. }
    split; [exact Hgt|]. subst gt. exact (proj2 (Hzero empty_index eq_refl)).
  - intros Hdir df Hread Hcols. unfold load_ground_truth, dir_listing.
    destruct (PyStr.is_empty gt_path || negb (path_exists env gt_path));
      [reflexivity|].
    rewrite Hread, Hdir. simpl.
    assert (Hc : columns (normalize_columns df) <> []).
    { simpl. destruct (columns df); [contradiction | discriminate]. }
    destruct (enron_rows_returns (columns (normalize_columns df)) [] []
                (rows df) Hc) as [gt' E].
    simpl in E. rewrite E. simpl.
    apply enron_rows_nothing_on_disk in E. subst gt'. reflexivity.
  - intros Hdir df Hread _ Hlabels. unfold load_ground_truth, dir_listing.
    destruct (PyStr.is_empty gt_path || negb (path_exists env gt_path));
      [reflexivity|].
    rewrite Hread, Hdir.
    change (String.eqb "real-estate" "enron") with false.
    change (String.eqb "real-estate" "real-estate") with true.
    cbv iota beta zeta. unfold bind at 1.
    destruct (real_estate_rows_returns (columns (normalize_columns df)) [] []
                (rows (normalize_columns df)) Hlabels) as [gt' E].
    rewrite E. unfold bind.
    apply real_estate_rows_nothing_on_disk in E. subst gt'. reflexivity.
  - intros other_dir. reflexivity.
Qed.

Lemma compute_f1_empty_ground_truth_witness :
  load_ground_truth labeled_no_directory_env "enron" "gt.csv" "data"
  = Ok empty_index /\
  compute_f1 [PObj [("filename", PStr "a.txt")]] empty_index "enron"
  = Ok 0%Q /\
  load_ground_truth labeled_no_directory_env "real-estate" "gt.csv" "data"
  = Ok empty_index /\
  load_ground_truth labeled_no_directory_env "enron" EmptyString "data"
  = Ok empty_index.
Proof.
  destruct (compute_f1_empty_ground_truth labeled_no_directory_env "enron"
              "gt.csv" "data" [PObj [("filename", PStr "a.txt")]])
    as [H1 [_ [_ [H4 [H5 _]]]]].
  destruct (compute_f1_empty_ground_truth labeled_no_directory_env "enron"
              EmptyString "data" [PObj [("filename", PStr "a.txt")]])
    as [_ [H2 _]].
  split; [|split; [|split]].
  - apply (H4 eq_refl labeled_table eq_refl). discriminate.
  - exact (proj2 (H1 empty_index eq_refl)).
  - apply (H5 eq_refl labeled_table eq_refl).
    + repeat constructor; simpl; intuition discriminate.
    + intros row [<-|[]] _. exists 1%Z. reflexivity.
  - exact (proj1 (H2 (or_introl eq_refl))).
Defined.

(* ===================================================================== *)
(** ** The plan file of a run and the row that names it *)
(* ===================================================================== *)


Section RoundTrip.
Variable sys : Sys.
Variables (gt_data : gt_index) (plan_details_dir workload : string).

Local Abbreviation run1 := (process_run sys gt_data plan_details_dir workload).
Local Abbreviation runs := (process_runs sys gt_data plan_details_dir workload).
Local Abbreviation plan_path := (fun idx => Path.join plan_details_dir (plan_file_name idx)).





End RoundTrip.



